(** * mlforiot: the metrics, classification and recommendation pipeline

    A shallow embedding of [model.py].  A pandas [DataFrame] is a list of
    rows, in row order; a pandas [float64] cell is the rational it denotes
    or the not-a-number value; a Python exception is an explicit error
    result.  The quotient and the product of the aggregator are computed
    in binary64; means and differences are taken on the rationals. *)

From Stdlib Require Import ZArith QArith Qabs Qround List String Ascii Bool.
From Stdlib Require Import Lia Lqa Permutation Sorted DecimalString.
From Stdlib Require OrdersEx.
From Stdlib Require PrimFloat FloatOps SpecFloat Uint63.
Import ListNotations.

Local Open Scope string_scope.
Local Open Scope Z_scope.

(** ** Numbers *)

(** A [float64] cell: a finite value or [nan]. *)
Inductive num : Type :=
| Num (q : Q)
| NaN.

Definition isna (x : num) : bool :=
  match x with NaN => true | Num _ => false end.

Definition nsub (x y : num) : num :=
  match x, y with
  | Num a, Num b => Num (a - b)
  | _, _ => NaN
  end.

Definition nabs (x : num) : num :=
  match x with Num a => Num (Qabs a) | NaN => NaN end.

(** Comparisons with [nan] are all false, as in IEEE 754. *)
Definition nge (x : num) (q : Q) : bool :=
  match x with Num a => Qle_bool q a | NaN => false end.

Definition ngt (x : num) (q : Q) : bool :=
  match x with Num a => negb (Qle_bool a q) | NaN => false end.

Definition nlt (x : num) (q : Q) : bool :=
  match x with Num a => negb (Qle_bool q a) | NaN => false end.

(** The same comparisons as propositions. *)
Definition num_ge (x : num) (q : Q) : Prop :=
  match x with Num a => (q <= a)%Q | NaN => False end.

Definition num_gt (x : num) (q : Q) : Prop :=
  match x with Num a => (q < a)%Q | NaN => False end.

Definition num_lt (x : num) (q : Q) : Prop :=
  match x with Num a => (a < q)%Q | NaN => False end.

(** Equality of cells up to the representation of the rational. *)
Definition num_eq (x y : num) : Prop :=
  match x, y with
  | Num a, Num b => (a == b)%Q
  | NaN, NaN => True
  | _, _ => False
  end.

Definition num_eqb (x y : num) : bool :=
  match x, y with
  | Num a, Num b => Qeq_bool a b
  | NaN, NaN => true
  | _, _ => false
  end.

Definition Qsum (l : list Q) : Q := fold_right Qplus 0%Q l.

Definition finite_values (l : list num) : list Q :=
  flat_map (fun x => match x with Num q => [q] | NaN => [] end) l.

(** [Series.mean()]: missing values are skipped; the mean of no value is
    [nan]. *)
Definition mean (l : list num) : num :=
  match finite_values l with
  | [] => NaN
  | xs => Num (Qsum xs / inject_Z (Z.of_nat (List.length xs)))%Q
  end.

(** ** Exceptions *)

Inductive exn : Type :=
| IndexError
| KeyError
| ZeroDivisionError.

Inductive result (A : Type) : Type :=
| Ok (a : A)
| Raise (e : exn).

Arguments Ok {A} a.
Arguments Raise {A} e.

Definition bind {A B : Type} (m : result A) (f : A -> result B) : result B :=
  match m with
  | Ok a => f a
  | Raise e => Raise e
  end.

Notation "x <- m ;; k" := (bind m (fun x => k))
  (at level 61, m at next level, right associativity).

Fixpoint mapM {A B : Type} (f : A -> result B) (l : list A) : result (list B) :=
  match l with
  | [] => Ok []
  | a :: t => b <- f a ;; bs <- mapM f t ;; Ok (b :: bs)
  end.

(** [arr.values[0]] *)
Definition values0 {A : Type} (l : list A) : result A :=
  match l with
  | [] => Raise IndexError
  | a :: _ => Ok a
  end.

(** ** Binary floating point *)

(** An [int64] count as a [float64]. *)
Definition float_of_int (z : Z) : PrimFloat.float :=
  PrimFloat.of_uint63 (Uint63.of_Z z).

(** The cell a [float64] denotes: its value as a rational in lowest
    terms.  An infinity has no cell here; no quotient of two [int64]
    counts is one. *)
Definition float_value (f : PrimFloat.float) : num :=
  match FloatOps.Prim2SF f with
  | SpecFloat.S754_zero _ => Num 0
  | SpecFloat.S754_finite s m e =>
      let v := if 0 <=? e then inject_Z (Zpos m * 2 ^ e)
               else (Zpos m # Z.to_pos (2 ^ (- e)))%Q in
      Num (Qred (if s then (- v)%Q else v))
  | SpecFloat.S754_infinity _ => NaN
  | SpecFloat.S754_nan => NaN
  end.

(** [sum / count * 100] on one row of an aggregate: a binary64 division,
    then a binary64 multiplication.  [count] is zero only for a group whose
    cells are all missing, which needs a missing cell in the column: [map]
    then left the column with dtype [object], the group sums are Python
    objects and the quotient is Python's [0 / 0], which raises. *)
Definition percentage (sum count : Z) : result num :=
  if count =? 0 then Raise ZeroDivisionError
  else Ok (float_value
             (PrimFloat.mul
                (PrimFloat.div (float_of_int sum) (float_of_int count))
                (float_of_int 100))).

(** ** Frames *)

(** A cell of an [object] column. *)
Inductive pyobj : Type :=
| PyBool (b : bool)
| PyStr (s : string)
| PyNaN.

(** A question record: student_id, section, is_correct. *)
Record QuestionRecord (C : Type) : Type := mkRecord {
  q_student_id : Z;
  q_section : string;
  q_is_correct : C
}.

Arguments mkRecord {C} _ _ _.
Arguments q_student_id {C} _.
Arguments q_section {C} _.
Arguments q_is_correct {C} _.

(** The input frame, with the dtype of its [is_correct] column. *)
Inductive DataFrame : Type :=
| BoolFrame (rows : list (QuestionRecord bool))
| ObjectFrame (rows : list (QuestionRecord pyobj)).

Definition frame_length (data : DataFrame) : nat :=
  match data with
  | BoolFrame rows => List.length rows
  | ObjectFrame rows => List.length rows
  end.

Definition student_ids (data : DataFrame) : list Z :=
  match data with
  | BoolFrame rows => map q_student_id rows
  | ObjectFrame rows => map q_student_id rows
  end.

(** [Series.map({'true': True, 'false': False})]: a value that is not a key
    of the dict becomes missing. *)
Definition map_true_false (v : pyobj) : option bool :=
  match v with
  | PyStr s =>
      if (s =? "true")%string then Some true
      else if (s =? "false")%string then Some false
      else None
  | _ => None
  end.

Definition set_is_correct {C D : Type} (f : C -> D) (r : QuestionRecord C)
  : QuestionRecord D :=
  mkRecord (q_student_id r) (q_section r) (f (q_is_correct r)).

(** Lines 11-12: the column is converted only when its dtype is [object]. *)
Definition normalize (data : DataFrame) : list (QuestionRecord (option bool)) :=
  match data with
  | BoolFrame rows => map (set_is_correct Some) rows
  | ObjectFrame rows => map (set_is_correct map_true_false) rows
  end.

(** ** Grouping *)

Section GroupBy.
Context {K : Type} (eqb : K -> K -> bool) (leb : K -> K -> bool).

(** [Series.unique()]: the distinct values, in order of first appearance. *)
Fixpoint unique (l : list K) : list K :=
  match l with
  | [] => []
  | k :: t => k :: filter (fun k' => negb (eqb k k')) (unique t)
  end.

Fixpoint insert_key (k : K) (l : list K) : list K :=
  match l with
  | [] => [k]
  | k' :: t => if leb k k' then k :: l else k' :: insert_key k t
  end.

Definition sort_keys (l : list K) : list K := fold_right insert_key [] l.

(** [groupby(key)]: one group per distinct key, keys in ascending order,
    each group holding its rows in row order. *)
Definition groupby {R : Type} (key : R -> K) (rows : list R)
  : list (K * list R) :=
  map (fun k => (k, filter (fun r => eqb (key r) k) rows))
      (sort_keys (unique (map key rows))).
End GroupBy.

Definition pair_eqb (a b : Z * string) : bool :=
  (fst a =? fst b) && (snd a =? snd b)%string.

Definition pair_leb (a b : Z * string) : bool :=
  (fst a <? fst b) || ((fst a =? fst b) && String.leb (snd a) (snd b)).

(** [agg(['sum', 'count'])] on a boolean column with missing values:
    [sum] adds the true cells, [count] counts the cells that are not
    missing. *)
Definition notna (c : option bool) : bool :=
  match c with Some _ => true | None => false end.

Definition is_true (c : option bool) : bool :=
  match c with Some true => true | _ => false end.

Definition agg_sum (l : list (option bool)) : Z :=
  Z.of_nat (List.length (filter is_true l)).

Definition agg_count (l : list (option bool)) : Z :=
  Z.of_nat (List.length (filter notna l)).

(** ** Aggregate tables *)

Record SectionAggregate : Type := mkSection {
  sa_student_id : Z;
  sa_section : string;
  sa_sum : Z;
  sa_count : Z;
  sa_score_percentage : num
}.

Record OverallAggregate : Type := mkOverall {
  oa_student_id : Z;
  oa_sum : Z;
  oa_count : Z;
  oa_overall_score : num
}.

Record LearningRate : Type := mkRate {
  lr_student_id : Z;
  lr_learning_rate : Z
}.

Definition record_key {C : Type} (r : QuestionRecord C) : Z * string :=
  (q_student_id r, q_section r).

Definition section_row (g : Z * string * list (QuestionRecord (option bool)))
  : result SectionAggregate :=
  let cells := map q_is_correct (snd g) in
  score_percentage <- percentage (agg_sum cells) (agg_count cells) ;;
  Ok (mkSection (fst (fst g)) (snd (fst g)) (agg_sum cells) (agg_count cells)
                score_percentage).

Definition overall_row (g : Z * list (QuestionRecord (option bool)))
  : result OverallAggregate :=
  let cells := map q_is_correct (snd g) in
  overall_score <- percentage (agg_sum cells) (agg_count cells) ;;
  Ok (mkOverall (fst g) (agg_sum cells) (agg_count cells) overall_score).

Definition calculate_student_metrics (data : DataFrame)
  : result (list SectionAggregate * list OverallAggregate * list LearningRate) :=
  let data' := normalize data in
  student_section_performance <-
    mapM section_row (groupby pair_eqb pair_leb record_key data') ;;
  student_overall <-
    mapM overall_row (groupby Z.eqb Z.leb q_student_id data') ;;
  let learning_rates_df :=
    map (fun o => mkRate (oa_student_id o) 0) student_overall in
  Ok (student_section_performance, student_overall, learning_rates_df).

(** ** Cohort averages *)

Record SectionAverage : Type := mkAverage {
  av_section : string;
  av_avg_score_percentage : num
}.

Definition calculate_average_performance
  (student_section_performance : list SectionAggregate)
  (student_overall : list OverallAggregate)
  : list SectionAverage * num :=
  let avg_section_performance :=
    map (fun g => mkAverage (fst g) (mean (map sa_score_percentage (snd g))))
        (groupby String.eqb String.leb sa_section student_section_performance) in
  let avg_overall_performance := mean (map oa_overall_score student_overall) in
  (avg_section_performance, avg_overall_performance).

(** ** Strengths and weaknesses *)

Record Comparison : Type := mkComparison {
  c_section : string;
  c_score : num;
  c_avg_score : num;
  c_diff : num
}.

Record StrengthsWeaknesses : Type := mkStrengthsWeaknesses {
  strengths : list string;
  weaknesses : list string;
  comparison : list Comparison
}.

Definition num_leb (x y : num) : bool :=
  match x, y with
  | Num a, Num b => Qle_bool a b
  | _, _ => false
  end.

Section SortValues.
Context {R : Type} (key : R -> num).

Fixpoint insert_row (x : R) (l : list R) : list R :=
  match l with
  | [] => [x]
  | y :: t => if num_leb (key x) (key y) then x :: l else y :: insert_row x t
  end.

(** An ascending sort by insertion, which keeps equal keys in their
    order. *)
Definition insertion_sort (l : list R) : list R := fold_right insert_row [] l.
End SortValues.

(** [argsort] with the default kind, ['quicksort']: an ascending sort that
    promises nothing about the order of two rows whose keys are equal.
    The routine is a parameter of the model: what is proved of the
    classifier is proved for every routine that sorts. *)
Definition sorting_routine : Type := forall R : Type, (R -> num) -> list R -> list R.

(** Two such routines: one keeps equal keys in their order, the other
    turns them around. *)
Definition stable_argsort : sorting_routine :=
  fun R key l => insertion_sort key l.

Definition reversing_argsort : sorting_routine :=
  fun R key l => insertion_sort key (rev l).

(** [sort_values(key, ascending=False)]: the rows whose key is not missing
    are reversed, sorted in ascending order and reversed again; the rows
    whose key is missing come last. *)
Definition sort_values_descending (argsort : sorting_routine) {R : Type}
  (key : R -> num) (l : list R) : list R :=
  let non_nans := filter (fun r => negb (isna (key r))) l in
  let nans := filter (fun r => isna (key r)) l in
  rev (argsort R key (rev non_nans)) ++ nans.

Definition head {A : Type} (n : nat) (l : list A) : list A := firstn n l.

Definition tail {A : Type} (n : nat) (l : list A) : list A :=
  skipn (List.length l - n) l.

(** [avg[avg['section'] == section]['avg_score_percentage'].values[0]] *)
Definition avg_score_of (avg_section_performance : list SectionAverage)
  (section : string) : result num :=
  values0 (map av_avg_score_percentage
             (filter (fun a => (av_section a =? section)%string)
                     avg_section_performance)).

Definition rows_of_student (student_section_performance : list SectionAggregate)
  (student_id : Z) : list SectionAggregate :=
  filter (fun r => sa_student_id r =? student_id) student_section_performance.

Definition compare_row (avg_section_performance : list SectionAverage)
  (row : SectionAggregate) : result Comparison :=
  let section := sa_section row in
  let score := sa_score_percentage row in
  avg_score <- avg_score_of avg_section_performance section ;;
  let diff := nsub score avg_score in
  Ok (mkComparison section score avg_score diff).

Definition identify_strengths_weaknesses (argsort : sorting_routine)
  (student_section_performance : list SectionAggregate)
  (avg_section_performance : list SectionAverage)
  : result (list (Z * StrengthsWeaknesses)) :=
  mapM (fun student_id =>
          let student_data := rows_of_student student_section_performance student_id in
          comparison_df <- mapM (compare_row avg_section_performance) student_data ;;
          let sorted_comparison := sort_values_descending argsort c_diff comparison_df in
          let strengths := map c_section (head 2 sorted_comparison) in
          let weaknesses := map c_section (tail 2 sorted_comparison) in
          Ok (student_id, mkStrengthsWeaknesses strengths weaknesses comparison_df))
       (unique Z.eqb (map sa_student_id student_section_performance)).

(** ** Formatting *)

Definition round_half_even (q : Q) : Z :=
  let f := Qfloor q in
  match (q - inject_Z f ?= 1 # 2)%Q with
  | Lt => f
  | Gt => f + 1
  | Eq => if Z.even f then f else f + 1
  end.

Definition digits (z : Z) : string :=
  NilZero.string_of_uint (N.to_uint (Z.to_N z)).

(** [f"{x:.1f}"] *)
Definition fmt1 (x : num) : string :=
  match x with
  | NaN => "nan"
  | Num q =>
      let tenths := round_half_even (Qabs q * 10) in
      (if Qle_bool 0 q then "" else "-")
        ++ digits (tenths / 10) ++ "." ++ digits (tenths mod 10)
  end.

(** [f"{x:.2f}"] *)
Definition fmt2 (x : num) : string :=
  match x with
  | NaN => "nan"
  | Num q =>
      let hundredths := round_half_even (Qabs q * 100) in
      (if Qle_bool 0 q then "" else "-")
        ++ digits (hundredths / 100) ++ "."
        ++ digits (hundredths mod 100 / 10) ++ digits (hundredths mod 10)
  end.

(** ** Recommendations *)

(** Lines 163-164 *)
Definition performance_level (score : num) : string :=
  if nge score 80 then "excellent"
  else if nge score 60 then "good"
  else if nge score 40 then "fair"
  else "poor".

Definition relation_to_avg (diff : num) : string :=
  if ngt diff 5 then "above average"
  else if nlt diff (-5) then "below average"
  else "at the class average".

Definition get_section_specific_recommendations (section : string)
  (score avg_score diff : num) : list string :=
  let performance_level := performance_level score in
  let relation_to_avg := relation_to_avg diff in
  if (section =? "A")%string then
    if (performance_level =? "excellent")%string then
      ["Outstanding performance in Math! Your score (" ++
        fmt1 score ++
        "%) is " ++
        fmt1 (nabs diff) ++
        "% " ++
        relation_to_avg ++
        " (" ++
        fmt1 avg_score ++
        "%). Continue to challenge yourself with advanced mathematical concepts and complex problem-solving.";
       "To maintain your excellence: Practice with competitive math problems, explore calculus or statistics if not already familiar, and consider mentoring peers who struggle with math."]
    else if (performance_level =? "good")%string then
      ["Good performance in Math. Your score (" ++
        fmt1 score ++
        "%) is " ++
        fmt1 (nabs diff) ++
        "% " ++
        relation_to_avg ++
        " (" ++
        fmt1 avg_score ++
        "%). You have a solid foundation but can still improve in specific areas.";
       "To improve further: Focus on algebraic manipulations, quadratic equations, and geometry theorems. Try timed practice to improve speed and accuracy."]
    else if (performance_level =? "fair")%string then
      ["Fair performance in Math. Your score (" ++
        fmt1 score ++
        "%) is " ++
        fmt1 (nabs diff) ++
        "% " ++
        relation_to_avg ++
        " (" ++
        fmt1 avg_score ++
        "%). You need to strengthen your mathematical foundation.";
       "To build your skills: Review basic algebra, fractions, percentages, and geometric principles. Practice daily with gradual progression to more complex problems."]
    else
      ["You need significant improvement in Math. Your score (" ++
        fmt1 score ++
        "%) is " ++
        fmt1 (nabs diff) ++
        "% " ++
        relation_to_avg ++
        " (" ++
        fmt1 avg_score ++
        "%). Focus on establishing basic mathematical concepts.";
       "Essential steps for improvement: Start with arithmetic operations, fractions, and basic algebra. Use visual aids and practical examples to grasp concepts. Consider extra tutoring support.";
       "Recommended resources: Khan Academy's basic math courses, 'Math Made Easy' workbooks, or apps like Photomath to help understand step-by-step solutions."]
  else if (section =? "B")%string then
    if (performance_level =? "excellent")%string then
      ["Outstanding verbal reasoning skills! Your score (" ++
        fmt1 score ++
        "%) is " ++
        fmt1 (nabs diff) ++
        "% " ++
        relation_to_avg ++
        " (" ++
        fmt1 avg_score ++
        "%). You demonstrate exceptional language comprehension and vocabulary.";
       "To maintain your excellence: Read advanced literature and scholarly articles, practice writing persuasive essays, and expand your vocabulary with specialized or technical terms."]
    else if (performance_level =? "good")%string then
      ["Good verbal reasoning abilities. Your score (" ++
        fmt1 score ++
        "%) is " ++
        fmt1 (nabs diff) ++
        "% " ++
        relation_to_avg ++
        " (" ++
        fmt1 avg_score ++
        "%). You have solid language skills but can enhance specific areas.";
       "To improve further: Focus on analogies, sentence completions, and critical reading. Practice identifying author's tone and purpose in diverse texts."]
    else if (performance_level =? "fair")%string then
      ["Fair verbal performance. Your score (" ++
        fmt1 score ++
        "%) is " ++
        fmt1 (nabs diff) ++
        "% " ++
        relation_to_avg ++
        " (" ++
        fmt1 avg_score ++
        "%). You need to strengthen your vocabulary and reading comprehension.";
       "To build your skills: Read diverse materials daily, maintain a vocabulary journal, and practice synonym/antonym exercises. Focus on understanding context clues in passages."]
    else
      ["You need significant improvement in verbal reasoning. Your score (" ++
        fmt1 score ++
        "%) is " ++
        fmt1 (nabs diff) ++
        "% " ++
        relation_to_avg ++
        " (" ++
        fmt1 avg_score ++
        "%). Focus on building fundamental language skills.";
       "Essential steps for improvement: Start with basic vocabulary building exercises, grammar rules, and simple reading comprehension activities. Use flashcards for new words.";
       "Recommended resources: Vocabulary apps like Memrise or Quizlet, graded readers appropriate for your level, and websites like Grammar.com for language basics."]
  else if (section =? "C")%string then
    if (performance_level =? "excellent")%string then
      ["Exceptional non-verbal reasoning abilities! Your score (" ++
        fmt1 score ++
        "%) is " ++
        fmt1 (nabs diff) ++
        "% " ++
        relation_to_avg ++
        " (" ++
        fmt1 avg_score ++
        "%). You excel at pattern recognition and spatial reasoning.";
       "To maintain your excellence: Challenge yourself with advanced puzzle types, 3D visualization exercises, and abstract reasoning problems found in high-level aptitude tests."]
    else if (performance_level =? "good")%string then
      ["Good non-verbal reasoning skills. Your score (" ++
        fmt1 score ++
        "%) is " ++
        fmt1 (nabs diff) ++
        "% " ++
        relation_to_avg ++
        " (" ++
        fmt1 avg_score ++
        "%). You recognize patterns well but can improve in complex scenarios.";
       "To improve further: Practice with various pattern recognition exercises, spatial rotation tasks, and logical sequence problems with increasing difficulty."]
    else if (performance_level =? "fair")%string then
      ["Fair non-verbal performance. Your score (" ++
        fmt1 score ++
        "%) is " ++
        fmt1 (nabs diff) ++
        "% " ++
        relation_to_avg ++
        " (" ++
        fmt1 avg_score ++
        "%). You need to develop better pattern recognition abilities.";
       "To build your skills: Work regularly with visual puzzles, pattern completion exercises, and spatial reasoning tasks. Start with simpler patterns and progressively increase difficulty."]
    else
      ["You need significant improvement in non-verbal reasoning. Your score (" ++
        fmt1 score ++
        "%) is " ++
        fmt1 (nabs diff) ++
        "% " ++
        relation_to_avg ++
        " (" ++
        fmt1 avg_score ++
        "%). Focus on basic pattern recognition skills.";
       "Essential steps for improvement: Begin with simple pattern recognition exercises, shape matching, and basic sequence completion. Train your brain to identify similarities and differences in visual information.";
       "Recommended resources: Apps like Lumosity or Peak for pattern games, puzzle books with increasing difficulty levels, and tangram puzzles for spatial reasoning practice."]
  else if (section =? "D")%string then
    if (performance_level =? "excellent")%string then
      ["Outstanding reading comprehension skills! Your score (" ++
        fmt1 score ++
        "%) is " ++
        fmt1 (nabs diff) ++
        "% " ++
        relation_to_avg ++
        " (" ++
        fmt1 avg_score ++
        "%). You excel at understanding and analyzing complex texts.";
       "To maintain your excellence: Read scholarly articles and classic literature, practice critical analysis of complex arguments, and work on synthesizing information from multiple sources."]
    else if (performance_level =? "good")%string then
      ["Good reading comprehension abilities. Your score (" ++
        fmt1 score ++
        "%) is " ++
        fmt1 (nabs diff) ++
        "% " ++
        relation_to_avg ++
        " (" ++
        fmt1 avg_score ++
        "%). You understand most texts well but can improve with complex material.";
       "To improve further: Practice with more challenging reading materials, focus on inference questions, and work on identifying unstated assumptions and author's perspective."]
    else if (performance_level =? "fair")%string then
      ["Fair reading comprehension. Your score (" ++
        fmt1 score ++
        "%) is " ++
        fmt1 (nabs diff) ++
        "% " ++
        relation_to_avg ++
        " (" ++
        fmt1 avg_score ++
        "%). You understand basic texts but struggle with deeper analysis.";
       "To build your skills: Read diverse materials regularly, practice summarizing what you've read, and work on identifying main ideas versus supporting details. Try answering 'why' and 'how' questions about texts."]
    else
      ["You need significant improvement in reading comprehension. Your score (" ++
        fmt1 score ++
        "%) is " ++
        fmt1 (nabs diff) ++
        "% " ++
        relation_to_avg ++
        " (" ++
        fmt1 avg_score ++
        "%). Focus on basic reading skills.";
       "Essential steps for improvement: Start with shorter passages at an appropriate reading level. Practice identifying the main idea, key details, and simple inferences. Read actively by asking yourself questions about the text.";
       "Recommended resources: Graded reading materials with comprehension questions, websites like ReadWorks.org or Newsela that adjust text complexity, and guided reading workbooks."]
  else [].

(** The [section_names] dict. *)
Definition section_names (section : string) : result string :=
  if (section =? "A")%string then Ok "Math"
  else if (section =? "B")%string then Ok "Verbal"
  else if (section =? "C")%string then Ok "Non-verbal"
  else if (section =? "D")%string then Ok "Comprehension"
  else Raise KeyError.

(** Lines 119-149: the text appended for one weakness. *)
Definition weakness_recommendation (weakness subject : string)
  (score avg_score diff : num) : list string :=
  if (weakness =? "A")%string then
    if nlt score 40 then
      [subject ++
        " (Section " ++
        weakness ++
        "): You need significant improvement in mathematical concepts. Your score (" ++
        fmt1 score ++
        "%) is " ++
        fmt1 (nabs diff) ++
        "% below the class average (" ++
        fmt1 avg_score ++
        "%). Focus on basic arithmetic, algebra, and geometry fundamentals."]
    else if nlt score 60 then
      [subject ++
        " (Section " ++
        weakness ++
        "): Work on improving your mathematical problem-solving skills. Your score (" ++
        fmt1 score ++
        "%) is " ++
        fmt1 (nabs diff) ++
        "% below the class average (" ++
        fmt1 avg_score ++
        "%). Practice with timed exercises focusing on algebra and number theory."]
    else
      [subject ++
        " (Section " ++
        weakness ++
        "): You're doing well in math but still " ++
        fmt1 (nabs diff) ++
        "% below the class average (" ++
        fmt1 avg_score ++
        "%). Focus on advanced topics and complex problem-solving techniques."]
  else if (weakness =? "B")%string then
    if nlt score 40 then
      [subject ++
        " (Section " ++
        weakness ++
        "): Significant improvement needed in verbal reasoning. Your score (" ++
        fmt1 score ++
        "%) is " ++
        fmt1 (nabs diff) ++
        "% below the class average (" ++
        fmt1 avg_score ++
        "%). Focus on vocabulary building, synonyms/antonyms, and basic grammar rules."]
    else if nlt score 60 then
      [subject ++
        " (Section " ++
        weakness ++
        "): Work on improving your verbal comprehension. Your score (" ++
        fmt1 score ++
        "%) is " ++
        fmt1 (nabs diff) ++
        "% below the class average (" ++
        fmt1 avg_score ++
        "%). Practice with sentence completion exercises, reading short passages, and word relationships."]
    else
      [subject ++
        " (Section " ++
        weakness ++
        "): You're doing reasonably well in verbal skills but " ++
        fmt1 (nabs diff) ++
        "% below the class average (" ++
        fmt1 avg_score ++
        "%). Focus on complex sentence structures, advanced vocabulary, and nuanced language comprehension."]
  else if (weakness =? "C")%string then
    if nlt score 40 then
      [subject ++
        " (Section " ++
        weakness ++
        "): Significant improvement needed in pattern recognition and spatial reasoning. Your score (" ++
        fmt1 score ++
        "%) is " ++
        fmt1 (nabs diff) ++
        "% below the class average (" ++
        fmt1 avg_score ++
        "%). Practice with basic pattern completion exercises and spatial visualization tasks."]
    else if nlt score 60 then
      [subject ++
        " (Section " ++
        weakness ++
        "): Work on improving your non-verbal reasoning. Your score (" ++
        fmt1 score ++
        "%) is " ++
        fmt1 (nabs diff) ++
        "% below the class average (" ++
        fmt1 avg_score ++
        "%). Focus on identifying relationships in visual patterns, sequences, and spatial arrangements."]
    else
      [subject ++
        " (Section " ++
        weakness ++
        "): You're doing reasonably well in non-verbal reasoning but " ++
        fmt1 (nabs diff) ++
        "% below the class average (" ++
        fmt1 avg_score ++
        "%). Practice with complex pattern recognition, 3D visualization, and abstract reasoning problems."]
  else if (weakness =? "D")%string then
    if nlt score 40 then
      [subject ++
        " (Section " ++
        weakness ++
        "): Significant improvement needed in reading comprehension. Your score (" ++
        fmt1 score ++
        "%) is " ++
        fmt1 (nabs diff) ++
        "% below the class average (" ++
        fmt1 avg_score ++
        "%). Focus on understanding main ideas, basic inference skills, and identifying key information in passages."]
    else if nlt score 60 then
      [subject ++
        " (Section " ++
        weakness ++
        "): Work on improving your reading comprehension. Your score (" ++
        fmt1 score ++
        "%) is " ++
        fmt1 (nabs diff) ++
        "% below the class average (" ++
        fmt1 avg_score ++
        "%). Practice with medium-length passages and questions about explicit and implicit information."]
    else
      [subject ++
        " (Section " ++
        weakness ++
        "): You're doing reasonably well in comprehension but " ++
        fmt1 (nabs diff) ++
        "% below the class average (" ++
        fmt1 avg_score ++
        "%). Focus on critical analysis of complex texts, drawing nuanced conclusions, and understanding author's intent and tone."]
  else [].


(** [d[k]] on a dict keyed by student. *)
Fixpoint dict_get {V : Type} (d : list (Z * V)) (k : Z) : result V :=
  match d with
  | [] => Raise KeyError
  | (k', v) :: t => if k' =? k then Ok v else dict_get t k
  end.

(** What [generate_recommendations] stores for one student: a dict from
    section to text block when [all_sections] is set, a flat list
    otherwise. *)
Inductive Recommendation : Type :=
| SectionRecommendations (by_section : list (string * list string))
| WeaknessRecommendations (rec : list string).

Definition recommend_section (student_data : list SectionAggregate)
  (avg_section_performance : list SectionAverage) (section : string)
  : result (string * list string) :=
  let section_data :=
    filter (fun r => (sa_section r =? section)%string) student_data in
  match section_data with
  | [] => Ok (section, [])
  | r :: _ =>
      let score := sa_score_percentage r in
      avg_score <- avg_score_of avg_section_performance section ;;
      let diff := nsub score avg_score in
      Ok (section, get_section_specific_recommendations section score avg_score diff)
  end.

Definition recommend_weakness (student_data : list SectionAggregate)
  (avg_section_performance : list SectionAverage) (weakness : string)
  : result (list string) :=
  score <- values0 (map sa_score_percentage
                      (filter (fun r => (sa_section r =? weakness)%string)
                              student_data)) ;;
  avg_score <- avg_score_of avg_section_performance weakness ;;
  let diff := nsub score avg_score in
  subject <- section_names weakness ;;
  Ok (weakness_recommendation weakness subject score avg_score diff).

Definition generate_recommendations
  (strengths_weaknesses : list (Z * StrengthsWeaknesses))
  (learning_rates_df : list LearningRate)
  (student_section_performance : list SectionAggregate)
  (avg_section_performance : list SectionAverage)
  (all_sections : bool)
  : result (list (Z * Recommendation)) :=
  mapM (fun student_id =>
          let student_data := rows_of_student student_section_performance student_id in
          if all_sections then
            section_recommendations <-
              mapM (recommend_section student_data avg_section_performance)
                   ["A"; "B"; "C"; "D"] ;;
            Ok (student_id, SectionRecommendations section_recommendations)
          else
            entry <- dict_get strengths_weaknesses student_id ;;
            rec <- mapM (recommend_weakness student_data avg_section_performance)
                        (weaknesses entry) ;;
            Ok (student_id, WeaknessRecommendations (List.concat rec)))
       (unique Z.eqb (map sa_student_id student_section_performance)).

(** ** Model evaluation *)

Record Prediction : Type := mkPrediction {
  p_student_id : Z;
  p_predicted_performance : string;
  p_actual_performance : string;
  p_correct_prediction : bool
}.

Definition evaluate_model (data : DataFrame) (learning_rates_df : list LearningRate)
  : Q * Q * list Prediction :=
  (95%Q, 93%Q,
   map (fun student_id => mkPrediction student_id "Above Average" "Above Average" true)
       (unique Z.eqb (student_ids data))).

(** ** The pipeline of [app.py], lines 66-95 *)

(** The [section_mapping] dict of [app.py]; [Series.map(section_mapping)]
    leaves a section that is not a key without a subject. *)
Definition section_mapping (section : string) : option string :=
  if (section =? "A")%string then Some "Math"
  else if (section =? "B")%string then Some "Verbal"
  else if (section =? "C")%string then Some "Non-verbal"
  else if (section =? "D")%string then Some "Comprehension"
  else None.

(** [d[k]]: a key that is not in the dict raises. *)
Definition getitem {V : Type} (v : option V) : result V :=
  match v with
  | Some v => Ok v
  | None => Raise KeyError
  end.

(** Lines 81-84: the table of the cohort averages that the page shows, a
    label and a formatted average for each row. *)
Definition section_avg_data (avg_section_performance : list SectionAverage)
  : result (list (string * string)) :=
  labels <- mapM (fun row =>
                    subject <- getitem (section_mapping (av_section row)) ;;
                    Ok (subject ++ " (" ++ av_section row ++ ")"))
                 avg_section_performance ;;
  let average_scores :=
    map (fun row => fmt2 (av_avg_score_percentage row) ++ "%")
        avg_section_performance in
  Ok (combine labels average_scores).

Record Analysis : Type := mkAnalysis {
  an_student_section_performance : list SectionAggregate;
  an_student_overall : list OverallAggregate;
  an_avg_section_performance : list SectionAverage;
  an_avg_overall_performance : num;
  an_strengths_weaknesses : list (Z * StrengthsWeaknesses);
  an_all_section_recommendations : list (Z * Recommendation);
  an_model_results : Q * Q * list Prediction
}.

(** The tables the page computes; the table of line 81 is shown and not
    used again, it is built for the error it can raise. *)
Definition analyze (argsort : sorting_routine) (data : DataFrame) : result Analysis :=
  metrics <- calculate_student_metrics data ;;
  let '(student_section_performance, student_overall, learning_rates_df) := metrics in
  let '(avg_section_performance, avg_overall_performance) :=
    calculate_average_performance student_section_performance student_overall in
  shown <- section_avg_data avg_section_performance ;;
  strengths_weaknesses <-
    identify_strengths_weaknesses argsort student_section_performance
      avg_section_performance ;;
  all_section_recommendations <-
    generate_recommendations strengths_weaknesses learning_rates_df
      student_section_performance avg_section_performance true ;;
  Ok (mkAnalysis student_section_performance student_overall
        avg_section_performance avg_overall_performance strengths_weaknesses
        all_section_recommendations (evaluate_model data learning_rates_df)).

(** ** The upload of [app.py], lines 27-49 *)

(** The rows of a frame, the cells of a boolean column seen as objects. *)
Definition as_object (data : DataFrame) : list (QuestionRecord pyobj) :=
  match data with
  | BoolFrame rows => map (set_is_correct PyBool) rows
  | ObjectFrame rows => rows
  end.

(** [data[mask]] for a mask on the student_id column. *)
Definition select_students (mask : Z -> bool) (data : DataFrame) : DataFrame :=
  match data with
  | BoolFrame rows => BoolFrame (filter (fun r => mask (q_student_id r)) rows)
  | ObjectFrame rows => ObjectFrame (filter (fun r => mask (q_student_id r)) rows)
  end.

(** [pd.concat([a, b], ignore_index=True)]: the rows of [a], then the rows
    of [b]; two boolean columns give a boolean column, any other pair a
    column of objects. *)
Definition concat (a b : DataFrame) : DataFrame :=
  match a, b with
  | BoolFrame ra, BoolFrame rb => BoolFrame (ra ++ rb)
  | _, _ => ObjectFrame (as_object a ++ as_object b)
  end.

(** The data of the run after an upload; [existing_data] is [None] when the
    database file does not exist. *)
Definition upload_new_student (existing_data : option DataFrame)
  (new_student_data : DataFrame) : result DataFrame :=
  match existing_data with
  | None => Ok new_student_data
  | Some existing_data =>
      new_student_id <- values0 (unique Z.eqb (student_ids new_student_data)) ;;
      let existing_data :=
        if existsb (Z.eqb new_student_id) (unique Z.eqb (student_ids existing_data))
        then select_students (fun i => negb (i =? new_student_id)) existing_data
        else existing_data in
      Ok (concat existing_data new_student_data)
  end.

(** ** The section table of [app.py], lines 113-137 *)

Definition nle (x : num) (q : Q) : bool :=
  match x with Num a => Qle_bool a q | NaN => false end.

(** Line 132 *)
Definition performance_label (x : num) : string :=
  if ngt x 5 then "Above Average"
  else if nle (nabs x) 5 then "Average"
  else "Below Average".

Record SectionReport : Type := mkReport {
  rp_subject : option string;
  rp_section : string;
  rp_correct_answers : Z;
  rp_total_questions : Z;
  rp_score : num;
  rp_class_average : num;
  rp_difference : num;
  rp_performance : string
}.

Definition report_row (avg_section_performance : list SectionAverage)
  (row : SectionAggregate) : result SectionReport :=
  class_average <- avg_score_of avg_section_performance (sa_section row) ;;
  let difference := nsub (sa_score_percentage row) class_average in
  Ok (mkReport (section_mapping (sa_section row)) (sa_section row)
        (sa_sum row) (sa_count row) (sa_score_percentage row)
        class_average difference (performance_label difference)).

Definition section_report (student_section_performance : list SectionAggregate)
  (avg_section_performance : list SectionAverage) (selected_student : Z)
  : result (list SectionReport) :=
  mapM (report_row avg_section_performance)
       (rows_of_student student_section_performance selected_student).

(** ** Vocabulary of the properties *)

Definition section_key (r : SectionAggregate) : Z * string :=
  (sa_student_id r, sa_section r).

(** The (student_id, section) pairs of the input, one per record. *)
Definition frame_keys (data : DataFrame) : list (Z * string) :=
  match data with
  | BoolFrame rows => map record_key rows
  | ObjectFrame rows => map record_key rows
  end.

(** The number of records of the pair [k] whose raw [is_correct] satisfies
    [p]. *)
Definition count_records (p : pyobj -> bool) (rows : list (QuestionRecord pyobj))
  (k : Z * string) : Z :=
  Z.of_nat (List.length
              (filter (fun r => pair_eqb (record_key r) k && p (q_is_correct r)) rows)).

Definition is_true_string (v : pyobj) : bool :=
  match v with PyStr s => (s =? "true")%string | _ => false end.

Definition is_boolean_string (v : pyobj) : bool :=
  match v with
  | PyStr s => (s =? "true")%string || (s =? "false")%string
  | _ => false
  end.

(** [is_correct] is one of true, false, "true", "false". *)
Definition admissible (v : pyobj) : bool :=
  match v with
  | PyBool _ => true
  | PyStr s => (s =? "true")%string || (s =? "false")%string
  | PyNaN => false
  end.

(** Every (student_id, section) pair of the input has a record whose
    [is_correct] is a boolean after normalization. *)
Definition every_group_has_value (data : DataFrame) : bool :=
  let data' := normalize data in
  forallb (fun r =>
             existsb (fun r' => pair_eqb (record_key r') (record_key r)
                                && notna (q_is_correct r')) data')
          data'.

(** The input as section 3 of the specification types it: a boolean
    column, or a column of the strings "true" and "false". *)
Definition well_formed (data : DataFrame) : Prop :=
  match data with
  | BoolFrame _ => True
  | ObjectFrame rows =>
      Forall (fun r => q_is_correct r = PyStr "true" \/ q_is_correct r = PyStr "false") rows
  end.

(** The [score_percentage] values of the rows holding [section]. *)
Definition section_scores (student_section_performance : list SectionAggregate)
  (section : string) : list num :=
  map sa_score_percentage
      (filter (fun r => (sa_section r =? section)%string) student_section_performance).


(** The pooled ratio of the rows holding [section]: all correct answers
    over all questions. *)
Definition pooled_percentage (student_section_performance : list SectionAggregate)
  (section : string) : Q :=
  let rows := filter (fun r => (sa_section r =? section)%string)
                     student_section_performance in
  (inject_Z (fold_right Z.add 0%Z (map sa_sum rows))
   / inject_Z (fold_right Z.add 0%Z (map sa_count rows)) * 100)%Q.

(** Descending order on a key, the rows with a missing key last. *)
Definition descending {R : Type} (key : R -> num) (x y : R) : Prop :=
  match key x, key y with
  | Num a, Num b => (b <= a)%Q
  | _, NaN => True
  | NaN, Num _ => False
  end.

(** The rows whose key equals [d]; two missing keys count as equal. *)
Definition same_key {R : Type} (key : R -> num) (d : num) (r : R) : bool :=
  num_eqb (key r) d.

(** Every section of the aggregate table has a row in the cohort table. *)
Definition covers (avg_section_performance : list SectionAverage)
  (student_section_performance : list SectionAggregate) : bool :=
  forallb (fun r => existsb (fun a => (av_section a =? sa_section r)%string)
                            avg_section_performance)
          student_section_performance.

(** What is asked of the sorting routine: on keys none of which is
    missing it returns the rows it was given, in ascending order of the
    key. *)
Class Sorts (argsort : sorting_routine) : Prop :=
  sorts : forall (R : Type) (key : R -> num) (l : list R),
    (forall r, In r l -> isna (key r) = false) ->
    Permutation (argsort R key l) l /\
    StronglySorted (fun x y => num_leb (key x) (key y) = true) (argsort R key l).

(** What the classifier stores for one student. *)
Definition classified (argsort : sorting_routine)
  (ssp : list SectionAggregate) (avg : list SectionAverage)
  (sid : Z) (entry : Z * StrengthsWeaknesses) : Prop :=
  fst entry = sid /\
  exists cmp,
    mapM (compare_row avg) (rows_of_student ssp sid) = Ok cmp /\
    snd entry
    = mkStrengthsWeaknesses
        (map c_section (head 2 (sort_values_descending argsort c_diff cmp)))
        (map c_section (tail 2 (sort_values_descending argsort c_diff cmp)))
        cmp.

(** Every section of the frame is one of A, B, C, D. *)
Definition frame_sections_known (data : DataFrame) : bool :=
  forallb (fun k => existsb (String.eqb (snd k)) ["A"; "B"; "C"; "D"])
          (frame_keys data).

(** Every section of the aggregate table is one of A, B, C, D. *)
Definition known_sections (student_section_performance : list SectionAggregate) : bool :=
  forallb (fun r => existsb (String.eqb (sa_section r)) ["A"; "B"; "C"; "D"])
          student_section_performance.

(** [pattern] occurs in [text]. *)
Definition contains (text pattern : string) : Prop :=
  exists before after, text = before ++ pattern ++ after.

(** A scan for the letters "xc" in a row: [None] once they are found,
    otherwise whether the last letter read is an "x". *)
Fixpoint scan_xc (after_x : bool) (s : string) : option bool :=
  match s with
  | EmptyString => Some after_x
  | String c t =>
      if after_x && Ascii.eqb c "c" then None else scan_xc (Ascii.eqb c "x") t
  end.

(** A string of digits, signs and points, or "nan": no "x", no "c". *)
Definition plain (s : string) : Prop :=
  forall b, scan_xc b s = Some (match s with EmptyString => b | _ => false end).



(** The student's score in a section, as line 113 reads it. *)
Definition score_of (student_data : list SectionAggregate) (section : string)
  : result num :=
  values0 (map sa_score_percentage
             (filter (fun r => (sa_section r =? section)%string) student_data)).

(** The text emitted for the weakness [w] of a student with the rows
    [student_data]: the section is one of the four, the score and the
    average are the ones the engine looks up, and the block of the table
    for them is that single text. *)
Definition weakness_text (student_data : list SectionAggregate)
  (avg_section_performance : list SectionAverage) (w text : string)
  (subject : string) (score avg_score : num) : Prop :=
  In w ["A"; "B"; "C"; "D"] /\
  section_names w = Ok subject /\
  score_of student_data w = Ok score /\
  avg_score_of avg_section_performance w = Ok avg_score /\
  weakness_recommendation w subject score avg_score (nsub score avg_score) = [text].




Definition Zsum (l : list Z) : Z := fold_right Z.add 0 l.

(** The distinct student ids of the input. *)
Definition students (data : DataFrame) : list Z := unique Z.eqb (student_ids data).

(** The [is_correct] column has dtype bool. *)
Definition boolean_column (data : DataFrame) : bool :=
  match data with BoolFrame _ => true | ObjectFrame _ => false end.

(** Every row of the aggregate table whose section is one of A, B, C, D
    has a row in the cohort table. *)
Definition covers_known (avg_section_performance : list SectionAverage)
  (student_section_performance : list SectionAggregate) : bool :=
  forallb (fun r =>
             negb (existsb (String.eqb (sa_section r)) ["A"; "B"; "C"; "D"])
             || existsb (fun a => (av_section a =? sa_section r)%string)
                        avg_section_performance)
          student_section_performance.

(** * Properties *)

(** ** The error monad *)

Lemma bind_ok {A B : Type} (m : result A) (f : A -> result B) (b : B) :
  bind m f = Ok b -> exists a, m = Ok a /\ f a = Ok b.
Proof.
  destruct m as [a | e]; simpl; intros H; [eauto | discriminate].
Qed.

Lemma mapM_ok {A B : Type} (f : A -> result B) (l : list A) (l' : list B) :
  mapM f l = Ok l' -> Forall2 (fun a b => f a = Ok b) l l'.
Proof.
  revert l'; induction l as [| a t IH]; simpl; intros l' H.
  - injection H as <-. constructor.
  - apply bind_ok in H as (b & Hb & H).
    apply bind_ok in H as (bs & Hbs & H).
    injection H as <-. constructor; auto.
Qed.

Lemma mapM_total {A B : Type} (f : A -> result B) (l : list A) :
  (forall a, In a l -> exists b, f a = Ok b) -> exists l', mapM f l = Ok l'.
Proof.
  induction l as [| a t IH]; simpl; intros H.
  - eauto.
  - destruct (H a) as (b & Hb); [now left |].
    destruct IH as (bs & Hbs); [intros; apply H; now right |].
    rewrite Hb, Hbs. simpl. eauto.
Qed.

Lemma mapM_raise {A B : Type} (f : A -> result B) (l : list A) (e : exn) :
  (forall a, In a l -> (exists b, f a = Ok b) \/ f a = Raise e) ->
  (exists a, In a l /\ f a = Raise e) ->
  mapM f l = Raise e.
Proof.
  induction l as [| a t IH]; simpl; intros H (x & Hx & Hfx).
  - contradiction.
  - destruct (H a) as [(b & Hb) | Hb]; [now left | | now rewrite Hb].
    rewrite Hb. simpl.
    rewrite IH; [reflexivity | intros; apply H; now right |].
    destruct Hx as [-> | Hx]; [congruence | eauto].
Qed.

Lemma Forall2_map_eq {A B C : Type} (f : A -> C) (g : B -> C) (P : A -> B -> Prop)
  (l : list A) (l' : list B) :
  Forall2 P l l' -> (forall a b, P a b -> f a = g b) -> map f l = map g l'.
Proof.
  induction 1; simpl; intros HP; [reflexivity |].
  f_equal; auto.
Qed.

Lemma Forall2_in_r {A B : Type} (P : A -> B -> Prop) (l : list A) (l' : list B) (b : B) :
  Forall2 P l l' -> In b l' -> exists a, In a l /\ P a b.
Proof.
  induction 1; simpl; intros Hin; [contradiction |].
  destruct Hin as [<- | Hin]; [eauto |].
  destruct (IHForall2 Hin) as (a & Ha & HP); eauto.
Qed.

(** ** Grouping *)

Section GroupByFacts.
Context {K : Type} (eqb : K -> K -> bool).
Hypothesis eqb_eq : forall a b, eqb a b = true <-> a = b.

Lemma unique_in (l : list K) (k : K) : In k (unique eqb l) <-> In k l.
Proof.
  induction l as [| x t IH]; simpl; [tauto |].
  rewrite filter_In, IH, negb_true_iff.
  split.
  - intros [H | [H _]]; auto.
  - intros [H | H]; auto.
    destruct (eqb x k) eqn:E; [left; now apply eqb_eq | right; auto].
Qed.

Lemma unique_nodup (l : list K) : NoDup (unique eqb l).
Proof.
  induction l as [| x t IH]; simpl; constructor.
  - rewrite filter_In, negb_true_iff. intros [_ H].
    assert (eqb x x = true) by now apply eqb_eq. congruence.
  - now apply NoDup_filter.
Qed.

Variable leb : K -> K -> bool.

Lemma insert_key_perm (k : K) (l : list K) : Permutation (insert_key leb k l) (k :: l).
Proof.
  induction l as [| x t IH]; simpl; [reflexivity |].
  destruct (leb k x); [reflexivity |].
  rewrite IH. apply perm_swap.
Qed.

Lemma sort_keys_perm (l : list K) : Permutation (sort_keys leb l) l.
Proof.
  induction l as [| x t IH]; simpl; [reflexivity |].
  rewrite insert_key_perm. now constructor.
Qed.

Lemma groupby_keys {R : Type} (key : R -> K) (rows : list R) :
  map fst (groupby eqb leb key rows) = sort_keys leb (unique eqb (map key rows)).
Proof.
  unfold groupby. rewrite map_map. simpl. apply map_id.
Qed.

Lemma groupby_keys_nodup {R : Type} (key : R -> K) (rows : list R) :
  NoDup (map fst (groupby eqb leb key rows)).
Proof.
  rewrite groupby_keys.
  eapply Permutation_NoDup; [symmetry; apply sort_keys_perm | apply unique_nodup].
Qed.

Lemma groupby_keys_in {R : Type} (key : R -> K) (rows : list R) (k : K) :
  In k (map fst (groupby eqb leb key rows)) <-> In k (map key rows).
Proof.
  rewrite groupby_keys, <- (unique_in (map key rows)).
  split; apply Permutation_in; [| symmetry]; apply sort_keys_perm.
Qed.

Lemma groupby_in {R : Type} (key : R -> K) (rows : list R) (g : K * list R) :
  In g (groupby eqb leb key rows) ->
  In (fst g) (map key rows) /\
  snd g = filter (fun r => eqb (key r) (fst g)) rows.
Proof.
  unfold groupby. rewrite in_map_iff. intros (k & <- & Hk). simpl.
  split; [| reflexivity].
  apply unique_in. eapply Permutation_in; [apply sort_keys_perm | exact Hk].
Qed.
End GroupByFacts.

Lemma pair_eqb_eq (a b : Z * string) : pair_eqb a b = true <-> a = b.
Proof.
  destruct a as [i s], b as [j t]. unfold pair_eqb. simpl.
  rewrite andb_true_iff, Z.eqb_eq, String.eqb_eq.
  split; [intros [-> ->]; reflexivity | intros H; injection H; auto].
Qed.

(** ** The aggregator *)

Lemma agg_sum_count (l : list (option bool)) : 0 <= agg_sum l <= agg_count l.
Proof.
  unfold agg_sum, agg_count.
  induction l as [| [[|] |] t IH]; simpl; lia.
Qed.

Lemma agg_count_pos (l : list (option bool)) :
  (exists c, In c l /\ notna c = true) -> 1 <= agg_count l.
Proof.
  unfold agg_count. intros (c & Hin & Hc).
  induction l as [| x t IH]; simpl in *; [contradiction |].
  destruct Hin as [-> | Hin].
  - destruct c; [simpl; lia | discriminate].
  - specialize (IH Hin). destruct x; simpl; lia.
Qed.

Lemma percentage_ok (sum count : Z) (x : num) :
  percentage sum count = Ok x ->
  count <> 0 /\
  x = float_value
        (PrimFloat.mul (PrimFloat.div (float_of_int sum) (float_of_int count))
           (float_of_int 100)).
Proof.
  unfold percentage. destruct (count =? 0) eqn:E; [discriminate |].
  intros H; injection H as <-. apply Z.eqb_neq in E. auto.
Qed.

Lemma percentage_total (sum count : Z) :
  count <> 0 -> exists x, percentage sum count = Ok x.
Proof.
  unfold percentage. intros H. apply Z.eqb_neq in H. rewrite H. eauto.
Qed.

Lemma section_row_ok g r :
  section_row g = Ok r ->
  let cells := map q_is_correct (snd g) in
  section_key r = fst g /\ sa_sum r = agg_sum cells /\ sa_count r = agg_count cells /\
  sa_count r <> 0 /\
  sa_score_percentage r
  = float_value
      (PrimFloat.mul
         (PrimFloat.div (float_of_int (sa_sum r)) (float_of_int (sa_count r)))
         (float_of_int 100)).
Proof.
  unfold section_row. intros H.
  apply bind_ok in H as (x & Hx & H). injection H as <-.
  apply percentage_ok in Hx as (Hc & ->).
  destruct g as [[i s] rows]; simpl. auto.
Qed.

Lemma normalize_keys (data : DataFrame) :
  map record_key (normalize data) = frame_keys data.
Proof.
  destruct data as [rows | rows]; simpl; rewrite map_map; reflexivity.
Qed.

Lemma group_has_value (data : DataFrame) (r : QuestionRecord (option bool)) :
  every_group_has_value data = true ->
  In r (normalize data) ->
  exists r', In r' (normalize data) /\ record_key r' = record_key r /\
             notna (q_is_correct r') = true.
Proof.
  unfold every_group_has_value. intros H Hr.
  rewrite forallb_forall in H. specialize (H r Hr).
  apply existsb_exists in H as (r' & Hr' & H).
  apply andb_true_iff in H as (Hk & Hv).
  apply pair_eqb_eq in Hk. eauto.
Qed.

Lemma section_groups_counted (data : DataFrame) g :
  every_group_has_value data = true ->
  In g (groupby pair_eqb pair_leb record_key (normalize data)) ->
  1 <= agg_count (map q_is_correct (snd g)).
Proof.
  intros H Hg.
  apply (groupby_in _ pair_eqb_eq) in Hg as (Hk & Hrows).
  apply in_map_iff in Hk as (r & Hkr & Hr).
  destruct (group_has_value data r H Hr) as (r' & Hr' & Hk' & Hv).
  apply agg_count_pos. exists (q_is_correct r'). split; [| exact Hv].
  apply in_map. rewrite Hrows. apply filter_In. split; [exact Hr' |].
  apply pair_eqb_eq. congruence.
Qed.

Lemma overall_groups_counted (data : DataFrame) g :
  every_group_has_value data = true ->
  In g (groupby Z.eqb Z.leb q_student_id (normalize data)) ->
  1 <= agg_count (map q_is_correct (snd g)).
Proof.
  intros H Hg.
  apply (groupby_in _ Z.eqb_eq) in Hg as (Hk & Hrows).
  apply in_map_iff in Hk as (r & Hkr & Hr).
  destruct (group_has_value data r H Hr) as (r' & Hr' & Hk' & Hv).
  apply agg_count_pos. exists (q_is_correct r'). split; [| exact Hv].
  apply in_map. rewrite Hrows. apply filter_In. split; [exact Hr' |].
  apply Z.eqb_eq. rewrite <- Hkr.
  unfold record_key in Hk'. congruence.
Qed.

Lemma calculate_student_metrics_total (data : DataFrame) :
  every_group_has_value data = true ->
  exists ssp so lr, calculate_student_metrics data = Ok (ssp, so, lr).
Proof.
  intros H. unfold calculate_student_metrics.
  destruct (mapM_total section_row
              (groupby pair_eqb pair_leb record_key (normalize data))) as (ssp & Hssp).
  { intros g Hg. pose proof (section_groups_counted data g H Hg) as Hc.
    unfold section_row.
    destruct (percentage_total (agg_sum (map q_is_correct (snd g)))
                (agg_count (map q_is_correct (snd g)))) as (x & ->); [lia |].
    simpl. eauto. }
  destruct (mapM_total overall_row
              (groupby Z.eqb Z.leb q_student_id (normalize data))) as (so & Hso).
  { intros g Hg. pose proof (overall_groups_counted data g H Hg) as Hc.
    unfold overall_row.
    destruct (percentage_total (agg_sum (map q_is_correct (snd g)))
                (agg_count (map q_is_correct (snd g)))) as (x & ->); [lia |].
    simpl. eauto. }
  rewrite Hssp, Hso. simpl. eauto.
Qed.

Lemma calculate_student_metrics_sections (data : DataFrame) ssp so lr :
  calculate_student_metrics data = Ok (ssp, so, lr) ->
  Forall2 (fun g r => section_row g = Ok r)
          (groupby pair_eqb pair_leb record_key (normalize data)) ssp.
Proof.
  unfold calculate_student_metrics. intros H.
  apply bind_ok in H as (ssp' & Hssp & H).
  apply bind_ok in H as (so' & Hso & H).
  injection H as <- <- <-. now apply mapM_ok.
Qed.

Lemma section_keys_of_groups (data : DataFrame) ssp so lr :
  calculate_student_metrics data = Ok (ssp, so, lr) ->
  map section_key ssp
  = map fst (groupby pair_eqb pair_leb record_key (normalize data)).
Proof.
  intros H. apply calculate_student_metrics_sections in H.
  symmetry. eapply Forall2_map_eq; [exact H |].
  intros g r Hr. apply section_row_ok in Hr. simpl in Hr. symmetry. tauto.
Qed.

(** C7, as stated, fails: the score is not [100 * correct_count /
    total_count] exactly.  The aggregator divides first and multiplies the
    rounded quotient: of 20 answers with 11 correct it makes
    55.00000000000001, the binary64 number 7740561859543041 / 2^47, and
    not 55. *)
Lemma eleven_of_twenty_is_not_55 :
  let data := BoolFrame (repeat (mkRecord 1 "A" true) 11
                         ++ repeat (mkRecord 1 "A" false) 9) in
  every_group_has_value data = true /\
  exists r so lr,
    calculate_student_metrics data = Ok ([r], so, lr) /\
    sa_sum r = 11 /\ sa_count r = 20 /\
    sa_score_percentage r = Num (7740561859543041 # 140737488355328) /\
    ~ num_eq (sa_score_percentage r)
             (Num (100 * inject_Z (sa_sum r) / inject_Z (sa_count r))).
Proof.
  intros data. split; [reflexivity |].
  exists (mkSection 1 "A" 11 20 (Num (7740561859543041 # 140737488355328))).
  do 2 eexists. split; [vm_compute; reflexivity |].
  repeat split. vm_compute. discriminate.
Qed.

(** C7, amended.  Whenever every (student_id, section) pair of the input
    holds a record with a boolean [is_correct] - as every well-formed
    record set does - the aggregator returns, and every row of its section
    table has [0 <= correct_count <= total_count], [total_count >= 1] and
    as [score_percentage] the binary64 product by 100 of the binary64
    quotient of [correct_count] by [total_count]; the table has one row
    per pair present in the input. *)
Theorem section_aggregate_invariant (data : DataFrame) :
  every_group_has_value data = true ->
  exists ssp so lr,
    calculate_student_metrics data = Ok (ssp, so, lr) /\
    (forall r, In r ssp ->
       0 <= sa_sum r <= sa_count r /\ 1 <= sa_count r /\
       sa_score_percentage r
       = float_value
           (PrimFloat.mul
              (PrimFloat.div (float_of_int (sa_sum r)) (float_of_int (sa_count r)))
              (float_of_int 100))) /\
    NoDup (map section_key ssp) /\
    (forall k, In k (map section_key ssp) <-> In k (frame_keys data)).
Proof.
  intros H.
  destruct (calculate_student_metrics_total data H) as (ssp & so & lr & Hrun).
  exists ssp, so, lr. split; [exact Hrun |].
  pose proof (section_keys_of_groups data ssp so lr Hrun) as Hkeys.
  split; [| split].
  - intros r Hr.
    destruct (Forall2_in_r _ _ _ r (calculate_student_metrics_sections _ _ _ _ Hrun) Hr)
      as (g & Hg & Hrow).
    apply section_row_ok in Hrow. simpl in Hrow.
    destruct Hrow as (_ & Hs & Hc & Hnz & Hscore).
    pose proof (agg_sum_count (map q_is_correct (snd g))) as Hle.
    rewrite <- Hs, <- Hc in Hle.
    split; [exact Hle |]. split; [lia |]. exact Hscore.
  - rewrite Hkeys. apply groupby_keys_nodup. exact pair_eqb_eq.
  - intros k. rewrite Hkeys, (groupby_keys_in _ pair_eqb_eq), normalize_keys.
    reflexivity.
Qed.

Lemma well_formed_has_values (data : DataFrame) :
  well_formed data -> every_group_has_value data = true.
Proof.
  unfold every_group_has_value. intros H.
  apply forallb_forall. intros r Hr. apply existsb_exists.
  exists r. split; [exact Hr |].
  apply andb_true_iff. split; [now apply pair_eqb_eq |].
  destruct data as [rows | rows]; simpl in *.
  - apply in_map_iff in Hr as (r0 & <- & _). reflexivity.
  - apply in_map_iff in Hr as (r0 & <- & Hr0).
    rewrite Forall_forall in H. specialize (H r0 Hr0).
    simpl. destruct H as [-> | ->]; reflexivity.
Qed.

Lemma section_aggregate_invariant_witness :
  let data := ObjectFrame [mkRecord 7 "B" (PyStr "true");
                           mkRecord 7 "A" (PyStr "false");
                           mkRecord 7 "B" (PyStr "false");
                           mkRecord 3 "A" (PyStr "true")] in
  every_group_has_value data = true /\
  exists ssp so lr,
    calculate_student_metrics data = Ok (ssp, so, lr) /\
    (forall r, In r ssp ->
       0 <= sa_sum r <= sa_count r /\ 1 <= sa_count r /\
       sa_score_percentage r
       = float_value
           (PrimFloat.mul
              (PrimFloat.div (float_of_int (sa_sum r)) (float_of_int (sa_count r)))
              (float_of_int 100))) /\
    NoDup (map section_key ssp) /\
    (forall k, In k (map section_key ssp) <-> In k (frame_keys data)).
Proof.
  intros data. split; [reflexivity |].
  apply (section_aggregate_invariant data). reflexivity.
Defined.

Example aggregate_sorted_rows :
  calculate_student_metrics
    (ObjectFrame [mkRecord 7 "B" (PyStr "true"); mkRecord 7 "A" (PyStr "false");
                  mkRecord 7 "B" (PyStr "false"); mkRecord 3 "A" (PyStr "true")])
  = Ok ([mkSection 3 "A" 1 1 (Num (1 / 1 * 100));
         mkSection 7 "A" 0 1 (Num (0 / 1 * 100));
         mkSection 7 "B" 1 2 (Num 50)],
        [mkOverall 3 1 1 (Num 100);
         mkOverall 7 1 3 (Num (2345624805922133 # 70368744177664))],
        [mkRate 3 0; mkRate 7 0]).
Proof. vm_compute. reflexivity. Qed.

(** ** Empty input *)

(** C4, as stated, fails: on an empty record collection the aggregator
    raises nothing and returns empty tables, whatever the dtype of the
    empty column. *)
Lemma empty_dataset_is_aggregated :
  calculate_student_metrics (ObjectFrame []) = Ok ([], [], []) /\
  ~ (exists data e, frame_length data = 0%nat /\
                    calculate_student_metrics data = Raise e).
Proof.
  split; [reflexivity |].
  intros ([[| r rows] | [| r rows]] & e & Hlen & Hraise);
    simpl in Hlen; discriminate.
Qed.

(** C4, amended.  On an empty record collection the aggregator returns
    three empty tables, and the whole pipeline runs to its end: empty
    averages (the overall one is [nan]), no classification, no
    recommendation and no prediction row, whatever the sorting routine. *)
Theorem empty_dataset_gives_empty_tables (argsort : sorting_routine)
  (data : DataFrame) :
  frame_length data = 0%nat ->
  calculate_student_metrics data = Ok ([], [], []) /\
  analyze argsort data = Ok (mkAnalysis [] [] [] NaN [] [] (95%Q, 93%Q, [])).
Proof.
  destruct data as [[| r rows] | [| r rows]]; simpl; intros H;
    try discriminate H; split; reflexivity.
Qed.

Lemma empty_dataset_gives_empty_tables_witness :
  frame_length (BoolFrame []) = 0%nat /\
  calculate_student_metrics (BoolFrame []) = Ok ([], [], []) /\
  analyze stable_argsort (BoolFrame [])
  = Ok (mkAnalysis [] [] [] NaN [] [] (95%Q, 93%Q, [])).
Proof.
  split; [reflexivity |].
  apply (empty_dataset_gives_empty_tables stable_argsort (BoolFrame [])).
  reflexivity.
Defined.

(** ** Malformed cells *)

Lemma Forall2_in_l {A B : Type} (P : A -> B -> Prop) (l : list A) (l' : list B) (a : A) :
  Forall2 P l l' -> In a l -> exists b, In b l' /\ P a b.
Proof.
  induction 1; simpl; intros Hin; [contradiction |].
  destruct Hin as [<- | Hin]; [eauto |].
  destruct (IHForall2 Hin) as (b & Hb & HP); eauto.
Qed.

Lemma map_true_false_value (v : pyobj) :
  notna (map_true_false v) = is_boolean_string v.
Proof.
  destruct v as [b | s |]; simpl; try reflexivity.
  destruct (s =? "true")%string; [reflexivity |].
  destruct (s =? "false")%string; reflexivity.
Qed.

Lemma map_true_false_true (v : pyobj) :
  is_true (map_true_false v) = is_true_string v.
Proof.
  destruct v as [b | s |]; simpl; try reflexivity.
  destruct (s =? "true")%string; [reflexivity |].
  destruct (s =? "false")%string; reflexivity.
Qed.

Lemma object_group_count (rows : list (QuestionRecord pyobj)) (k : Z * string) :
  agg_count (map q_is_correct
               (filter (fun r => pair_eqb (record_key r) k)
                       (map (set_is_correct map_true_false) rows)))
  = count_records is_boolean_string rows k.
Proof.
  unfold agg_count, count_records. f_equal.
  induction rows as [| r t IH]; simpl; [reflexivity |].
  change (record_key (set_is_correct map_true_false r)) with (record_key r).
  destruct (pair_eqb (record_key r) k); simpl; [| exact IH].
  rewrite map_true_false_value.
  destruct (is_boolean_string (q_is_correct r)); simpl; now rewrite IH.
Qed.

Lemma object_group_sum (rows : list (QuestionRecord pyobj)) (k : Z * string) :
  agg_sum (map q_is_correct
             (filter (fun r => pair_eqb (record_key r) k)
                     (map (set_is_correct map_true_false) rows)))
  = count_records is_true_string rows k.
Proof.
  unfold agg_sum, count_records. f_equal.
  induction rows as [| r t IH]; simpl; [reflexivity |].
  change (record_key (set_is_correct map_true_false r)) with (record_key r).
  destruct (pair_eqb (record_key r) k); simpl; [| exact IH].
  rewrite map_true_false_true.
  destruct (is_true_string (q_is_correct r)); simpl; now rewrite IH.
Qed.

(** C5, as stated, fails: "yes" is outside the four admissible values, yet
    the aggregator raises nothing and returns a row for the pair of that
    record. *)
Lemma malformed_record_is_not_rejected :
  admissible (PyStr "yes") = false /\
  calculate_student_metrics
    (ObjectFrame [mkRecord 1 "A" (PyStr "true"); mkRecord 1 "A" (PyStr "yes")])
  = Ok ([mkSection 1 "A" 1 1 (Num (1 / 1 * 100))],
        [mkOverall 1 1 1 (Num (1 / 1 * 100))],
        [mkRate 1 0]).
Proof. split; reflexivity. Qed.

(** C5, amended.  In a column of dtype object a cell that is not one of the
    strings "true" and "false" becomes a missing value: whenever every pair
    keeps a record with such a string, the aggregator returns, every record
    - the malformed ones too - has the row of its pair in the section
    table, and that row counts in [count] the records of the pair holding
    "true" or "false" and in [sum] those holding "true". *)
Theorem malformed_cells_are_skipped (rows : list (QuestionRecord pyobj)) :
  every_group_has_value (ObjectFrame rows) = true ->
  exists ssp so lr,
    calculate_student_metrics (ObjectFrame rows) = Ok (ssp, so, lr) /\
    forall record, In record rows ->
      exists r, In r ssp /\ section_key r = record_key record /\
        sa_count r = count_records is_boolean_string rows (record_key record) /\
        sa_sum r = count_records is_true_string rows (record_key record).
Proof.
  intros H.
  destruct (calculate_student_metrics_total _ H) as (ssp & so & lr & Hrun).
  exists ssp, so, lr. split; [exact Hrun |].
  intros record Hrec.
  pose proof (calculate_student_metrics_sections _ _ _ _ Hrun) as Hrows.
  assert (Hk : In (record_key record)
                  (map fst (groupby pair_eqb pair_leb record_key
                              (normalize (ObjectFrame rows))))).
  { apply (groupby_keys_in _ pair_eqb_eq). rewrite normalize_keys.
    simpl. now apply in_map. }
  apply in_map_iff in Hk as (g & Hg & Hin).
  destruct (Forall2_in_l _ _ _ g Hrows Hin) as (r & Hr & Hrow).
  apply section_row_ok in Hrow. simpl in Hrow.
  destruct Hrow as (Hkey & Hs & Hc & _).
  apply (groupby_in _ pair_eqb_eq) in Hin as (_ & Hsnd).
  exists r. split; [exact Hr |]. split; [congruence |].
  rewrite Hc, Hs, Hsnd, Hg. simpl.
  split; [apply object_group_count | apply object_group_sum].
Qed.

Lemma malformed_cells_are_skipped_witness :
  let rows := [mkRecord 1 "A" (PyStr "true"); mkRecord 1 "A" (PyStr "yes");
               mkRecord 1 "A" (PyStr "false"); mkRecord 2 "A" PyNaN;
               mkRecord 2 "A" (PyStr "true")] in
  every_group_has_value (ObjectFrame rows) = true /\
  exists ssp so lr,
    calculate_student_metrics (ObjectFrame rows) = Ok (ssp, so, lr) /\
    forall record, In record rows ->
      exists r, In r ssp /\ section_key r = record_key record /\
        sa_count r = count_records is_boolean_string rows (record_key record) /\
        sa_sum r = count_records is_true_string rows (record_key record).
Proof.
  intros rows. split; [reflexivity |].
  apply (malformed_cells_are_skipped rows). reflexivity.
Defined.

(** ** The evaluation stub *)

(** C9.  Whatever the records and the learning rates, the stub returns the
    accuracy 95.0, the precision 93.0 and, in order of first appearance, one
    row per distinct student_id, each labelled "Above Average" twice and
    flagged correct. *)
Theorem evaluate_model_is_constant (data : DataFrame) (learning_rates_df : list LearningRate) :
  exists rows,
    evaluate_model data learning_rates_df = (95%Q, 93%Q, rows) /\
    map p_student_id rows = unique Z.eqb (student_ids data) /\
    NoDup (map p_student_id rows) /\
    (forall id, In id (map p_student_id rows) <-> In id (student_ids data)) /\
    Forall (fun p => p_predicted_performance p = "Above Average" /\
                     p_actual_performance p = "Above Average" /\
                     p_correct_prediction p = true) rows.
Proof.
  unfold evaluate_model. eexists. split; [reflexivity |].
  assert (Hids : forall l : list Z,
             map p_student_id
               (map (fun i => mkPrediction i "Above Average" "Above Average" true) l) = l).
  { intros l. rewrite map_map. simpl. apply map_id. }
  rewrite Hids.
  split; [reflexivity |]. split; [apply (unique_nodup _ Z.eqb_eq) |].
  split; [intros id; apply (unique_in _ Z.eqb_eq) |].
  apply Forall_forall. intros p Hp.
  apply in_map_iff in Hp as (i & <- & _). simpl. auto.
Qed.

Example evaluate_model_two_students :
  evaluate_model (BoolFrame [mkRecord 5 "A" false; mkRecord 2 "C" false;
                             mkRecord 5 "B" true]) []
  = (95%Q, 93%Q, [mkPrediction 5 "Above Average" "Above Average" true;
                  mkPrediction 2 "Above Average" "Above Average" true]).
Proof. reflexivity. Qed.

(** ** Tiers *)

Lemma nge_spec (x : num) (q : Q) : nge x q = true <-> num_ge x q.
Proof.
  destruct x as [a |]; simpl; [apply Qle_bool_iff | split; [discriminate | tauto]].
Qed.

Lemma ngt_spec (x : num) (q : Q) : ngt x q = true <-> num_gt x q.
Proof.
  destruct x as [a |]; simpl; [| split; [discriminate | tauto]].
  rewrite negb_true_iff, <- not_true_iff_false, Qle_bool_iff.
  split; [apply Qnot_le_lt | apply Qlt_not_le].
Qed.

Lemma nlt_spec (x : num) (q : Q) : nlt x q = true <-> num_lt x q.
Proof.
  destruct x as [a |]; simpl; [| split; [discriminate | tauto]].
  rewrite negb_true_iff, <- not_true_iff_false, Qle_bool_iff.
  split; [apply Qnot_le_lt | apply Qlt_not_le].
Qed.

Lemma Qle_bool_false (a b : Q) : Qle_bool a b = false <-> (b < a)%Q.
Proof.
  rewrite <- not_true_iff_false, Qle_bool_iff.
  split; [apply Qnot_le_lt | apply Qlt_not_le].
Qed.

Ltac decide_Qle a b :=
  let E := fresh "E" in
  destruct (Qle_bool a b) eqn:E;
  [apply Qle_bool_iff in E | apply Qle_bool_false in E].

(** C2.  The two tiers are cut exactly as stated: "excellent" from 80,
    "good" on [60, 80), "fair" on [40, 60), "poor" otherwise; "above
    average" for a difference over 5, "below average" for one under -5,
    "at the class average" otherwise, a difference of exactly 5 included. *)
Theorem tier_boundaries (score diff : num) :
  (performance_level score = "excellent" <-> num_ge score 80) /\
  (performance_level score = "good" <-> num_ge score 60 /\ num_lt score 80) /\
  (performance_level score = "fair" <-> num_ge score 40 /\ num_lt score 60) /\
  (performance_level score = "poor" <-> ~ num_ge score 40) /\
  (relation_to_avg diff = "above average" <-> num_gt diff 5) /\
  (relation_to_avg diff = "below average" <-> num_lt diff (-5)) /\
  (relation_to_avg diff = "at the class average"
     <-> ~ num_gt diff 5 /\ ~ num_lt diff (-5)) /\
  relation_to_avg (Num 5) = "at the class average".
Proof.
  assert (Hscore :
    (performance_level score = "excellent" <-> num_ge score 80) /\
    (performance_level score = "good" <-> num_ge score 60 /\ num_lt score 80) /\
    (performance_level score = "fair" <-> num_ge score 40 /\ num_lt score 60) /\
    (performance_level score = "poor" <-> ~ num_ge score 40)).
  { unfold performance_level. destruct score as [s |]; simpl.
    - decide_Qle 80%Q s; [| decide_Qle 60%Q s; [| decide_Qle 40%Q s]];
        repeat split; intros; try discriminate; try reflexivity; try lra.
    - repeat split; intros; try discriminate; try reflexivity; tauto. }
  assert (Hdiff :
    (relation_to_avg diff = "above average" <-> num_gt diff 5) /\
    (relation_to_avg diff = "below average" <-> num_lt diff (-5)) /\
    (relation_to_avg diff = "at the class average"
       <-> ~ num_gt diff 5 /\ ~ num_lt diff (-5))).
  { unfold relation_to_avg. destruct diff as [d |]; simpl.
    - decide_Qle d 5%Q; simpl; [decide_Qle (-5)%Q d; simpl |];
        repeat split; intros; try discriminate; try reflexivity; try lra.
    - repeat split; intros; try discriminate; try reflexivity; tauto. }
  destruct Hscore as (H1 & H2 & H3 & H4), Hdiff as (H5 & H6 & H7).
  repeat (split; [assumption |]). reflexivity.
Qed.

Example tier_boundary_values :
  performance_level (Num 80) = "excellent" /\
  performance_level (Num 60) = "good" /\
  performance_level (Num 40) = "fair" /\
  performance_level (Num (399 # 10)) = "poor" /\
  relation_to_avg (Num 5) = "at the class average" /\
  relation_to_avg (Num (51 # 10)) = "above average" /\
  relation_to_avg (Num (-5)) = "at the class average" /\
  relation_to_avg (Num (-51 # 10)) = "below average".
Proof. repeat split. Qed.

(** ** Cohort averages *)

Section FilterKey.
Context {K : Type} (eqb : K -> K -> bool).
Hypothesis eqb_eq : forall a b, eqb a b = true <-> a = b.

Lemma filter_absent (l : list K) (x : K) :
  ~ In x l -> filter (fun k => eqb k x) l = [].
Proof.
  induction l as [| y t IH]; simpl; intros H; [reflexivity |].
  destruct (eqb y x) eqn:E.
  - apply eqb_eq in E. subst. tauto.
  - apply IH. tauto.
Qed.

Lemma filter_single (l : list K) (x : K) :
  NoDup l -> In x l -> filter (fun k => eqb k x) l = [x].
Proof.
  induction 1 as [| y t Hy Ht IH]; simpl; intros Hin; [contradiction |].
  destruct (eqb y x) eqn:E.
  - apply eqb_eq in E. subst. now rewrite filter_absent.
  - destruct Hin as [-> | Hin]; [| now apply IH].
    assert (eqb x x = true) by now apply eqb_eq. congruence.
Qed.
End FilterKey.

Lemma filter_map_comm {A B : Type} (p : B -> bool) (f : A -> B) (l : list A) :
  filter p (map f l) = map f (filter (fun a => p (f a)) l).
Proof.
  induction l as [| a t IH]; simpl; [reflexivity |].
  destruct (p (f a)); simpl; now rewrite IH.
Qed.



Lemma section_average_row (ssp : list SectionAggregate) (so : list OverallAggregate)
  (section : string) :
  In section (map sa_section ssp) ->
  filter (fun a => (av_section a =? section)%string)
         (fst (calculate_average_performance ssp so))
  = [mkAverage section (mean (section_scores ssp section))].
Proof.
  intros Hin. unfold calculate_average_performance, groupby, section_scores. simpl.
  rewrite map_map, filter_map_comm. simpl.
  rewrite (filter_single _ String.eqb_eq).
  - reflexivity.
  - eapply Permutation_NoDup; [symmetry; apply sort_keys_perm |].
    apply unique_nodup, String.eqb_eq.
  - eapply Permutation_in; [symmetry; apply sort_keys_perm |].
    now apply (unique_in _ String.eqb_eq).
Qed.



(** The case of the specification, from the records on: 8 of 10 and 3 of 5
    in section A average to 70, while the pooled ratio is 1100/15. *)
Example unequal_question_counts :
  let answers := fun (student : Z) (right wrong : nat) =>
    (repeat (mkRecord student "A" true) right
     ++ repeat (mkRecord student "A" false) wrong)%list in
  exists ssp so lr average,
    calculate_student_metrics (BoolFrame (answers 1 8%nat 2%nat ++ answers 2 3%nat 2%nat)%list)
    = Ok (ssp, so, lr) /\
    map sa_sum ssp = [8; 3] /\ map sa_count ssp = [10; 5] /\
    avg_score_of (fst (calculate_average_performance ssp so)) "A" = Ok (Num average) /\
    (average == 70)%Q /\
    (pooled_percentage ssp "A" == 1100 # 15)%Q /\
    ~ (average == pooled_percentage ssp "A")%Q.
Proof.
  intros answers. do 4 eexists.
  split; [reflexivity |]. split; [reflexivity |]. split; [reflexivity |].
  split; [reflexivity |]. split; [reflexivity |]. split; [reflexivity |].
  intros H. discriminate H.
Qed.

(** ** Sorting *)

Lemma StronglySorted_app {A : Type} (R : A -> A -> Prop) (l1 l2 : list A) :
  StronglySorted R l1 -> StronglySorted R l2 ->
  (forall a b, In a l1 -> In b l2 -> R a b) ->
  StronglySorted R (l1 ++ l2).
Proof.
  induction l1 as [| x t IH]; simpl; intros H1 H2 H; [exact H2 |].
  inversion H1 as [| ? ? Ht Hx]; subst.
  constructor.
  - apply IH; auto.
  - apply Forall_app. split; [exact Hx |].
    apply Forall_forall. intros b Hb. apply H; auto.
Qed.

Lemma StronglySorted_rev {A : Type} (R : A -> A -> Prop) (l : list A) :
  StronglySorted R l -> StronglySorted (fun a b => R b a) (rev l).
Proof.
  induction 1 as [| x t Ht IH Hx]; simpl; [constructor |].
  apply StronglySorted_app; [exact IH | repeat constructor |].
  intros a b Ha [<- | []]. apply in_rev in Ha.
  rewrite Forall_forall in Hx. now apply Hx.
Qed.

Section SortFacts.
Context {R : Type} (key : R -> num).

Let finite (r : R) : Prop := isna (key r) = false.
Let ascending (x y : R) : Prop := num_leb (key x) (key y) = true.

Lemma insert_row_perm (x : R) (l : list R) :
  Permutation (insert_row key x l) (x :: l).
Proof.
  induction l as [| y t IH]; simpl; [reflexivity |].
  destruct (num_leb (key x) (key y)); [reflexivity |].
  rewrite IH. apply perm_swap.
Qed.

Lemma insertion_sort_perm (l : list R) : Permutation (insertion_sort key l) l.
Proof.
  induction l as [| x t IH]; simpl; [reflexivity |].
  rewrite insert_row_perm. now constructor.
Qed.

Lemma ascending_total (x y : R) :
  finite x -> finite y -> num_leb (key x) (key y) = false -> ascending y x.
Proof.
  unfold finite, ascending.
  destruct (key x) as [a |], (key y) as [b |]; simpl; try discriminate.
  intros _ _ H. apply Qle_bool_false in H. apply Qle_bool_iff. lra.
Qed.

Lemma ascending_trans (x y z : R) : ascending x y -> ascending y z -> ascending x z.
Proof.
  unfold ascending.
  destruct (key x) as [a |], (key y) as [b |], (key z) as [c |]; simpl;
    try discriminate.
  rewrite !Qle_bool_iff. lra.
Qed.

Lemma insert_row_sorted (x : R) (l : list R) :
  finite x -> Forall finite l ->
  StronglySorted ascending l -> StronglySorted ascending (insert_row key x l).
Proof.
  intros Hx. induction l as [| y t IH]; simpl; intros Hfin Hs.
  - repeat constructor.
  - inversion Hs as [| ? ? Ht Hy]; subst.
    inversion Hfin as [| ? ? Hfy Hft]; subst.
    destruct (num_leb (key x) (key y)) eqn:E.
    + constructor; [exact Hs |].
      constructor; [exact E |].
      eapply Forall_impl; [| exact Hy].
      intros z Hz. now apply ascending_trans with y.
    + constructor; [now apply IH |].
      apply Forall_forall. intros z Hz.
      apply (Permutation_in _ (insert_row_perm x t)) in Hz.
      destruct Hz as [<- | Hz].
      * now apply ascending_total.
      * rewrite Forall_forall in Hy. now apply Hy.
Qed.

Lemma insertion_sort_sorted (l : list R) :
  Forall finite l -> StronglySorted ascending (insertion_sort key l).
Proof.
  induction l as [| x t IH]; simpl; intros H; [constructor |].
  inversion H as [| ? ? Hx Ht]; subst.
  apply insert_row_sorted; auto.
  eapply Permutation_Forall; [symmetry; apply insertion_sort_perm | exact Ht].
Qed.

Lemma insert_row_stable (q : Q) (x : R) (l : list R) :
  filter (same_key key (Num q)) (insert_row key x l)
  = filter (same_key key (Num q)) (x :: l).
Proof.
  induction l as [| y t IH]; simpl; [reflexivity |].
  destruct (num_leb (key x) (key y)) eqn:E; [reflexivity |].
  simpl in *. rewrite IH.
  destruct (same_key key (Num q) x) eqn:Ex, (same_key key (Num q) y) eqn:Ey;
    try reflexivity.
  exfalso. unfold same_key in Ex, Ey.
  destruct (key x) as [a |], (key y) as [b |]; simpl in *; try discriminate.
  apply Qeq_bool_iff in Ex, Ey. apply Qle_bool_false in E. lra.
Qed.

Lemma insertion_sort_stable (q : Q) (l : list R) :
  filter (same_key key (Num q)) (insertion_sort key l)
  = filter (same_key key (Num q)) l.
Proof.
  induction l as [| x t IH]; simpl; [reflexivity |].
  rewrite insert_row_stable. simpl. now rewrite IH.
Qed.

Lemma filter_filter_same (p q : R -> bool) (l : list R) :
  (forall r, q r = true -> p r = true) -> filter q (filter p l) = filter q l.
Proof.
  intros H. induction l as [| x t IH]; simpl; [reflexivity |].
  destruct (p x) eqn:Ep; simpl.
  - now rewrite IH.
  - destruct (q x) eqn:Eq; [| exact IH].
    apply H in Eq. congruence.
Qed.

Lemma filter_filter_none (p q : R -> bool) (l : list R) :
  (forall r, q r = true -> p r = false) -> filter q (filter p l) = [].
Proof.
  intros H. induction l as [| x t IH]; simpl; [reflexivity |].
  destruct (p x) eqn:Ep; simpl; [| exact IH].
  destruct (q x) eqn:Eq; [| exact IH].
  apply H in Eq. congruence.
Qed.

End SortFacts.

(** Both routines sort. *)
#[export] Instance stable_argsort_sorts : Sorts stable_argsort.
Proof.
  intros R key l H. split.
  - apply insertion_sort_perm.
  - apply insertion_sort_sorted. now apply Forall_forall.
Qed.


Section SortValuesFacts.
Context {argsort : sorting_routine} {argsort_sorts : Sorts argsort}.
Context {R : Type} (key : R -> num).

Lemma non_nans_finite (l : list R) (r : R) :
  In r (rev (filter (fun r => negb (isna (key r))) l)) -> isna (key r) = false.
Proof.
  intros Hr. apply in_rev, filter_In in Hr as (_ & Hr).
  now apply negb_true_iff in Hr.
Qed.

Lemma sort_values_perm (l : list R) :
  Permutation (sort_values_descending argsort key l) l.
Proof.
  unfold sort_values_descending.
  rewrite <- Permutation_rev.
  rewrite (proj1 (sorts R key _ (non_nans_finite l))), <- Permutation_rev.
  induction l as [| x t IH]; simpl; [reflexivity |].
  destruct (isna (key x)); simpl.
  - rewrite <- Permutation_middle. now constructor.
  - now constructor.
Qed.

Lemma sort_values_sorted (l : list R) :
  StronglySorted (descending key) (sort_values_descending argsort key l).
Proof.
  unfold sort_values_descending.
  destruct (sorts R key _ (non_nans_finite l)) as (Hperm & Hsorted).
  apply StronglySorted_app.
  - pose proof (StronglySorted_rev _ _ Hsorted) as Hs.
    assert (Hall : Forall (fun r => isna (key r) = false)
              (rev (argsort R key (rev (filter (fun r => negb (isna (key r))) l))))).
    { apply Forall_forall. intros r Hr. apply in_rev in Hr.
      apply (Permutation_in _ Hperm) in Hr. now apply non_nans_finite in Hr. }
    clear Hperm Hsorted. revert Hs Hall.
    generalize (rev (argsort R key (rev (filter (fun r => negb (isna (key r))) l)))).
    induction 1 as [| x t Ht IH Hx]; intros Hall; constructor.
    + apply IH. now inversion Hall.
    + eapply Forall_impl; [| exact Hx].
      intros y Hy. unfold descending. cbv beta in Hy.
      destruct (key x) as [a |], (key y) as [b |]; simpl in Hy; try discriminate.
      now apply Qle_bool_iff.
  - clear Hperm Hsorted. induction l as [| x t IH]; simpl; [constructor |].
    destruct (isna (key x)) eqn:E; [| exact IH].
    constructor; [exact IH |].
    apply Forall_forall. intros y Hy. apply filter_In in Hy as (_ & Hy).
    unfold descending. destruct (key x), (key y); simpl in *; try discriminate; exact I.
  - intros a b _ Hb. apply filter_In in Hb as (_ & Hb).
    unfold descending. destruct (key a), (key b); simpl in *; try discriminate; exact I.
Qed.
End SortValuesFacts.

(** With the routine that keeps equal keys in their order, so does
    [sort_values]. *)
Lemma sort_values_stable {R : Type} (key : R -> num) (d : num) (l : list R) :
  filter (same_key key d) (sort_values_descending stable_argsort key l)
  = filter (same_key key d) l.
Proof.
  unfold sort_values_descending, stable_argsort. rewrite filter_app.
  destruct d as [q |].
  - rewrite filter_rev, insertion_sort_stable, <- filter_rev, rev_involutive.
    rewrite filter_filter_same, filter_filter_none.
    + apply app_nil_r.
    + intros r. unfold same_key. destruct (key r); simpl; [reflexivity | discriminate].
    + intros r. unfold same_key. destruct (key r); simpl; [reflexivity | discriminate].
  - assert (Hnone : forall l', Forall (fun r => isna (key r) = false) l' ->
                               filter (same_key key NaN) l' = []).
    { induction 1 as [| x t Hx Ht IH]; simpl; [reflexivity |].
      unfold same_key at 1.
      destruct (key x); simpl in *; [exact IH | discriminate]. }
    rewrite Hnone.
    + simpl. apply filter_filter_same.
      intros r. unfold same_key. destruct (key r); simpl; [discriminate | reflexivity].
    + apply Forall_forall. intros r Hr.
      apply in_rev in Hr. apply (Permutation_in _ (insertion_sort_perm _ _)) in Hr.
      apply in_rev, filter_In in Hr as (_ & Hr). now apply negb_true_iff in Hr.
Qed.

(** ** The classifier *)

Lemma avg_score_of_total (avg : list SectionAverage) (section : string) :
  existsb (fun a => (av_section a =? section)%string) avg = true ->
  exists x, avg_score_of avg section = Ok x.
Proof.
  unfold avg_score_of. intros H.
  apply existsb_exists in H as (a & Ha & Hs).
  assert (Hin : In a (filter (fun a => (av_section a =? section)%string) avg))
    by (apply filter_In; auto).
  destruct (filter (fun a => (av_section a =? section)%string) avg);
    [contradiction | simpl; eauto].
Qed.

Lemma compare_row_ok (avg : list SectionAverage) (row : SectionAggregate) (c : Comparison) :
  compare_row avg row = Ok c ->
  c_section c = sa_section row /\
  c_score c = sa_score_percentage row /\
  avg_score_of avg (sa_section row) = Ok (c_avg_score c) /\
  c_diff c = nsub (c_score c) (c_avg_score c).
Proof.
  unfold compare_row. intros H.
  apply bind_ok in H as (x & Hx & H). injection H as <-. simpl. auto.
Qed.

Lemma rows_of_student_in (ssp : list SectionAggregate) (sid : Z) (r : SectionAggregate) :
  In r (rows_of_student ssp sid) -> In r ssp /\ sa_student_id r = sid.
Proof.
  unfold rows_of_student. rewrite filter_In, Z.eqb_eq. tauto.
Qed.

Lemma covers_row (avg : list SectionAverage) (ssp : list SectionAggregate) (r : SectionAggregate) :
  covers avg ssp = true -> In r ssp ->
  exists x, avg_score_of avg (sa_section r) = Ok x.
Proof.
  unfold covers. rewrite forallb_forall. intros H Hr.
  apply avg_score_of_total. now apply H.
Qed.

Lemma comparison_total (avg : list SectionAverage) (ssp : list SectionAggregate) (sid : Z) :
  covers avg ssp = true ->
  exists cmp, mapM (compare_row avg) (rows_of_student ssp sid) = Ok cmp.
Proof.
  intros H. apply mapM_total. intros r Hr.
  apply rows_of_student_in in Hr as (Hr & _).
  destruct (covers_row avg ssp r H Hr) as (x & Hx).
  unfold compare_row. rewrite Hx. simpl. eauto.
Qed.

Lemma identify_entries {argsort : sorting_routine}
  (ssp : list SectionAggregate) (avg : list SectionAverage) sw :
  identify_strengths_weaknesses argsort ssp avg = Ok sw ->
  Forall2 (classified argsort ssp avg) (unique Z.eqb (map sa_student_id ssp)) sw.
Proof.
  unfold identify_strengths_weaknesses. intros H.
  apply mapM_ok in H.
  eapply Forall2_impl; [| exact H].
  intros sid entry Hentry. simpl in Hentry.
  apply bind_ok in Hentry as (cmp & Hcmp & Hentry).
  injection Hentry as <-. split; [reflexivity |]. exists cmp. auto.
Qed.

Lemma identify_total {argsort : sorting_routine}
  (ssp : list SectionAggregate) (avg : list SectionAverage) :
  covers avg ssp = true ->
  exists sw, identify_strengths_weaknesses argsort ssp avg = Ok sw.
Proof.
  intros H. unfold identify_strengths_weaknesses.
  apply mapM_total. intros sid _.
  destruct (comparison_total avg ssp sid H) as (cmp & ->). simpl. eauto.
Qed.

Lemma identify_keys {argsort : sorting_routine}
  (ssp : list SectionAggregate) (avg : list SectionAverage) sw :
  identify_strengths_weaknesses argsort ssp avg = Ok sw ->
  map fst sw = unique Z.eqb (map sa_student_id ssp).
Proof.
  intros H. apply identify_entries in H.
  symmetry. rewrite <- (map_id (unique Z.eqb (map sa_student_id ssp))).
  eapply Forall2_map_eq; [exact H |].
  intros sid entry (Hfst & _). now rewrite Hfst.
Qed.

Lemma identify_entry {argsort : sorting_routine}
  (ssp : list SectionAggregate) (avg : list SectionAverage) sw sid e :
  identify_strengths_weaknesses argsort ssp avg = Ok sw ->
  In (sid, e) sw -> classified argsort ssp avg sid (sid, e).
Proof.
  intros H Hin. apply identify_entries in H.
  destruct (Forall2_in_r _ _ _ _ H Hin) as (sid' & _ & Hc).
  destruct Hc as (Hfst & Hrest). simpl in Hfst. subst sid'.
  split; [reflexivity | exact Hrest].
Qed.

Lemma comparison_sections (avg : list SectionAverage) (rows : list SectionAggregate) cmp :
  mapM (compare_row avg) rows = Ok cmp -> map c_section cmp = map sa_section rows.
Proof.
  intros H. apply mapM_ok in H. symmetry.
  eapply Forall2_map_eq; [exact H |].
  intros r c Hc. apply compare_row_ok in Hc. symmetry. tauto.
Qed.







(** Three sections tie at +10, before the section at -5.  The routine that
    keeps equal keys in their order makes the first two of them the
    strengths; the routine that turns them around makes the last two the
    strengths. *)
Example classify_ties_by_routine :
  let ssp := [mkSection 1 "A" 6 10 (Num 60); mkSection 1 "B" 6 10 (Num 60);
              mkSection 1 "C" 9 20 (Num 45); mkSection 1 "D" 3 5 (Num 60)] in
  let avg := [mkAverage "A" (Num 50); mkAverage "B" (Num 50);
              mkAverage "C" (Num 50); mkAverage "D" (Num 50)] in
  exists cmp,
    identify_strengths_weaknesses stable_argsort ssp avg
    = Ok [(1, mkStrengthsWeaknesses ["A"; "B"] ["D"; "C"] cmp)] /\
    identify_strengths_weaknesses reversing_argsort ssp avg
    = Ok [(1, mkStrengthsWeaknesses ["D"; "B"] ["A"; "C"] cmp)].
Proof. eexists. split; reflexivity. Qed.

(** A section of the student without a row in the cohort table makes the
    lookup fail. *)
Example classify_missing_average :
  identify_strengths_weaknesses stable_argsort [mkSection 1 "A" 6 10 (Num 60)] []
  = Raise IndexError.
Proof. reflexivity. Qed.

(** ** Recommendations for all sections *)

Lemma section_block_nonempty (section : string) (score avg_score diff : num) :
  In section ["A"; "B"; "C"; "D"] ->
  get_section_specific_recommendations section score avg_score diff <> [].
Proof.
  intros [<- | [<- | [<- | [<- | []]]]];
    unfold get_section_specific_recommendations;
    cbn [String.eqb Ascii.eqb Bool.eqb];
    destruct (performance_level score =? "excellent")%string;
    try discriminate;
    destruct (performance_level score =? "good")%string;
    try discriminate;
    destruct (performance_level score =? "fair")%string;
    discriminate.
Qed.

Lemma recommend_section_spec (ssp : list SectionAggregate) (avg : list SectionAverage)
  (sid : Z) (section : string) :
  covers avg ssp = true ->
  exists block,
    recommend_section (rows_of_student ssp sid) avg section = Ok (section, block) /\
    (~ In section (map sa_section (rows_of_student ssp sid)) -> block = []) /\
    (In section ["A"; "B"; "C"; "D"] ->
     In section (map sa_section (rows_of_student ssp sid)) -> block <> []).
Proof.
  intros Hcov. unfold recommend_section.
  destruct (filter (fun r => (sa_section r =? section)%string) (rows_of_student ssp sid))
    as [| r t] eqn:E.
  - exists []. split; [reflexivity |]. split; [reflexivity |].
    intros _ Hin. exfalso.
    apply in_map_iff in Hin as (r & Hs & Hr).
    assert (Hf : In r (filter (fun r => (sa_section r =? section)%string)
                              (rows_of_student ssp sid)))
      by (apply filter_In; split; [exact Hr | now apply String.eqb_eq]).
    rewrite E in Hf. exact Hf.
  - assert (Hr : In r (filter (fun r => (sa_section r =? section)%string)
                              (rows_of_student ssp sid)))
      by (rewrite E; now left).
    apply filter_In in Hr as (Hr & Hs). apply String.eqb_eq in Hs.
    apply rows_of_student_in in Hr as (Hr & _).
    destruct (covers_row avg ssp r Hcov Hr) as (x & Hx).
    rewrite Hs in Hx. rewrite Hx. cbn [bind].
    eexists. split; [reflexivity |]. split.
    + intros Hout. exfalso. apply Hout.
      assert (Hf : In r (rows_of_student ssp sid)).
      { assert (Hf : In r (filter (fun r => (sa_section r =? section)%string)
                               (rows_of_student ssp sid))) by (rewrite E; now left).
        now apply filter_In in Hf. }
      rewrite <- Hs. now apply in_map.
    + intros Hknown _. now apply section_block_nonempty.
Qed.


Lemma all_sections_run
  (sw : list (Z * StrengthsWeaknesses)) (lr : list LearningRate)
  (ssp : list SectionAggregate) (avg : list SectionAverage) :
  covers avg ssp = true ->
  exists recs,
    generate_recommendations sw lr ssp avg true = Ok recs /\
    Forall2 (fun sid entry =>
               exists by_section,
                 mapM (recommend_section (rows_of_student ssp sid) avg)
                      ["A"; "B"; "C"; "D"] = Ok by_section /\
                 entry = (sid, SectionRecommendations by_section))
            (unique Z.eqb (map sa_student_id ssp)) recs.
Proof.
  intros Hcov.
  destruct (mapM_total
              (fun student_id =>
                 section_recommendations <-
                   mapM (recommend_section (rows_of_student ssp student_id) avg)
                        ["A"; "B"; "C"; "D"] ;;
                 Ok (student_id, SectionRecommendations section_recommendations))
              (unique Z.eqb (map sa_student_id ssp))) as (recs & Hrecs).
  { intros sid _.
    destruct (mapM_total (recommend_section (rows_of_student ssp sid) avg)
                ["A"; "B"; "C"; "D"]) as (m & Hm).
    { intros s _. destruct (recommend_section_spec ssp avg sid s Hcov) as (b & Hb & _).
      eauto. }
    rewrite Hm. cbn [bind]. eauto. }
  exists recs. split; [exact Hrecs |].
  apply mapM_ok in Hrecs.
  eapply Forall2_impl; [| exact Hrecs].
  intros sid entry Hentry. cbn beta in Hentry.
  apply bind_ok in Hentry as (m & Hm & Hentry).
  injection Hentry as <-. eauto.
Qed.

Lemma append_assoc (a b c : string) : (a ++ b) ++ c = a ++ (b ++ c).
Proof.
  induction a as [| x a IH]; simpl; [reflexivity | now rewrite IH].
Qed.

Lemma contains_after (prefix text pattern : string) :
  contains text pattern -> contains (prefix ++ text) pattern.
Proof.
  intros (before & after & ->). exists (prefix ++ before), after.
  now rewrite append_assoc.
Qed.

Lemma contains_score_line (x l1 y l2 z l3 w rest after : string) :
  rest = "%)" ++ after ->
  contains (x ++ l1 ++ y ++ l2 ++ z ++ l3 ++ w ++ rest)
           (x ++ l1 ++ y ++ l2 ++ z ++ l3 ++ w ++ "%)").
Proof.
  intros ->. exists "", after. simpl.
  now rewrite !append_assoc.
Qed.





(** The scenario of the specification: 90 in section A against an average
    of 70 selects the "excellent" block with "above average"; the sections
    C and D, which the student does not hold, are mapped to the empty
    list. *)
Example all_sections_scenario :
  exists block_B,
    generate_recommendations [] []
      [mkSection 1 "A" 9 10 (Num 90); mkSection 1 "B" 3 10 (Num 30)]
      [mkAverage "A" (Num 70); mkAverage "B" (Num 60)] true
    = Ok [(1, SectionRecommendations
                [("A", ["Outstanding performance in Math! Your score (90.0%) is 20.0% above average (70.0%). Continue to challenge yourself with advanced mathematical concepts and complex problem-solving.";
                        "To maintain your excellence: Practice with competitive math problems, explore calculus or statistics if not already familiar, and consider mentoring peers who struggle with math."]);
                 ("B", block_B); ("C", []); ("D", [])])].
Proof. eexists. reflexivity. Qed.

(** ** Texts *)

Lemma contains_here (x l y rest after : string) :
  rest = "%)" ++ after ->
  contains (x ++ l ++ y ++ rest) (x ++ l ++ y ++ "%)").
Proof.
  intros ->. exists "", after. simpl.
  now rewrite !append_assoc.
Qed.

Lemma scan_xc_app (b : bool) (s t : string) :
  scan_xc b (s ++ t)
  = match scan_xc b s with None => None | Some b' => scan_xc b' t end.
Proof.
  revert b. induction s as [| c s IH]; simpl; intros b; [reflexivity |].
  destruct (b && Ascii.eqb c "c"); [reflexivity | apply IH].
Qed.

Lemma scan_xc_found (b : bool) (s : string) :
  contains s "xc" -> scan_xc b s = None.
Proof.
  intros (before & after & ->). rewrite scan_xc_app.
  destruct (scan_xc b before) as [b' |]; [| reflexivity].
  simpl. destruct b'; reflexivity.
Qed.

Lemma contains_excellent_xc (s : string) : contains s "excellent" -> contains s "xc".
Proof.
  intros (before & after & ->).
  exists (before ++ "e"), ("ellent" ++ after).
  rewrite append_assoc. reflexivity.
Qed.

Lemma plain_app (s t : string) : plain s -> plain t -> plain (s ++ t).
Proof.
  intros Hs Ht b. rewrite scan_xc_app, Hs.
  destruct s as [| c s]; simpl; [apply Ht |].
  rewrite Ht. destruct t; reflexivity.
Qed.

Lemma plain_uint (d : Decimal.uint) : plain (NilEmpty.string_of_uint d).
Proof.
  induction d; intros b; simpl; try reflexivity;
    rewrite andb_false_r, IHd;
    destruct (NilEmpty.string_of_uint d); reflexivity.
Qed.

Lemma plain_digits (z : Z) : plain (digits z).
Proof.
  unfold digits, NilZero.string_of_uint.
  destruct (N.to_uint (Z.to_N z)) as [| u | u | u | u | u | u | u | u | u | u];
    [intros b; destruct b; reflexivity | ..];
    match goal with |- plain ?s => apply (plain_uint _) end.
Qed.

Lemma scan_xc_fmt1 (x : num) (b : bool) : scan_xc b (fmt1 x) = Some false.
Proof.
  destruct x as [q |]; [| destruct b; reflexivity].
  unfold fmt1.
  assert (Hp : plain (digits (round_half_even (Qabs q * 10) / 10) ++ "."
                      ++ digits (round_half_even (Qabs q * 10) mod 10))).
  { apply plain_app; [apply plain_digits |].
    apply (plain_app "."); [intros b'; destruct b'; reflexivity | apply plain_digits]. }
  destruct (Qle_bool 0 q).
  - simpl. rewrite Hp.
    destruct (digits (round_half_even (Qabs q * 10) / 10)); reflexivity.
  - change (scan_xc b ("-" ++ digits (round_half_even (Qabs q * 10) / 10) ++ "."
                       ++ digits (round_half_even (Qabs q * 10) mod 10)) = Some false).
    rewrite scan_xc_app. replace (scan_xc b "-") with (Some false) by (destruct b; reflexivity).
    rewrite Hp.
    destruct (digits (round_half_even (Qabs q * 10) / 10)); reflexivity.
Qed.

Ltac find_pattern :=
  repeat first [ eapply contains_here; reflexivity | apply contains_after ].

Ltac scan_text H :=
  repeat (simpl in H; rewrite ?scan_xc_app, ?scan_xc_fmt1 in H);
  discriminate H.

Lemma weakness_text_spec (weakness subject : string) (score avg_score diff : num) :
  In weakness ["A"; "B"; "C"; "D"] ->
  section_names weakness = Ok subject ->
  exists text,
    weakness_recommendation weakness subject score avg_score diff = [text] /\
    contains text (fmt1 (nabs diff) ++ "% below the class average ("
                   ++ fmt1 avg_score ++ "%)") /\
    ~ contains text "excellent".
Proof.
  intros [<- | [<- | [<- | [<- | []]]]] Hsubject;
    injection Hsubject as <-;
    unfold weakness_recommendation;
    cbn [String.eqb Ascii.eqb Bool.eqb];
    (destruct (nlt score 40); [| destruct (nlt score 60)]);
    (eexists; split; [reflexivity |]; split;
     [ find_pattern
     | let H := fresh "H" in
       intros H; apply contains_excellent_xc, (scan_xc_found false) in H;
       scan_text H ]).
Qed.



(** ** Recommendations for the weaknesses *)

Lemma dict_get_in {V : Type} (d : list (Z * V)) (k : Z) :
  In k (map fst d) -> exists v, dict_get d k = Ok v /\ In (k, v) d.
Proof.
  induction d as [| [k' v'] t IH]; simpl; intros H; [contradiction |].
  destruct (k' =? k) eqn:E.
  - apply Z.eqb_eq in E. subst. eauto.
  - destruct H as [H | H]; [apply Z.eqb_neq in E; contradiction |].
    destruct (IH H) as (v & Hv & Hin). eauto.
Qed.

Lemma known_sections_row (ssp : list SectionAggregate) (r : SectionAggregate) :
  known_sections ssp = true -> In r ssp -> In (sa_section r) ["A"; "B"; "C"; "D"].
Proof.
  unfold known_sections. rewrite forallb_forall. intros H Hr.
  specialize (H r Hr). apply existsb_exists in H as (s & Hs & E).
  apply String.eqb_eq in E. now rewrite E.
Qed.

Lemma section_names_total (section : string) :
  In section ["A"; "B"; "C"; "D"] -> exists subject, section_names section = Ok subject.
Proof.
  intros [<- | [<- | [<- | [<- | []]]]]; eexists; reflexivity.
Qed.

Lemma tail_incl {A : Type} (n : nat) (l : list A) (a : A) : In a (tail n l) -> In a l.
Proof.
  unfold tail. intros H. rewrite <- (firstn_skipn (List.length l - n) l).
  apply in_or_app. now right.
Qed.

(** What line 113-149 computes for one weakness. *)
Lemma recommend_weakness_spec (ssp : list SectionAggregate) (avg : list SectionAverage)
  (sid : Z) (r : SectionAggregate) :
  known_sections ssp = true ->
  In r (rows_of_student ssp sid) ->
  (exists x, avg_score_of avg (sa_section r) = Ok x) ->
  exists subject score avg_score,
    section_names (sa_section r) = Ok subject /\
    score_of (rows_of_student ssp sid) (sa_section r) = Ok score /\
    avg_score_of avg (sa_section r) = Ok avg_score /\
    recommend_weakness (rows_of_student ssp sid) avg (sa_section r)
    = Ok (weakness_recommendation (sa_section r) subject score avg_score
            (nsub score avg_score)).
Proof.
  intros Hknown Hr (x & Hx).
  assert (Hsec : In (sa_section r) ["A"; "B"; "C"; "D"]).
  { apply known_sections_row with ssp; [exact Hknown |].
    now apply rows_of_student_in in Hr. }
  destruct (section_names_total _ Hsec) as (subject & Hsubject).
  assert (Hscore : exists score,
             score_of (rows_of_student ssp sid) (sa_section r) = Ok score).
  { unfold score_of.
    assert (Hf : In r (filter (fun r' => (sa_section r' =? sa_section r)%string)
                              (rows_of_student ssp sid)))
      by (apply filter_In; split; [exact Hr | apply String.eqb_refl]).
    destruct (filter (fun r' => (sa_section r' =? sa_section r)%string)
                     (rows_of_student ssp sid)); [contradiction | simpl; eauto]. }
  destruct Hscore as (score & Hscore).
  exists subject, score, x. repeat split; try assumption.
  unfold recommend_weakness. unfold score_of in Hscore.
  rewrite Hscore. cbn [bind]. rewrite Hx. cbn [bind]. rewrite Hsubject. reflexivity.
Qed.

Lemma mapM_singletons {A B : Type} (f : A -> result (list B)) (Q : A -> B -> Prop)
  (l : list A) :
  (forall a, In a l -> exists b, f a = Ok [b] /\ Q a b) ->
  exists bs, mapM f l = Ok (map (fun b => [b]) bs) /\ Forall2 Q l bs.
Proof.
  induction l as [| a t IH]; simpl; intros H.
  - exists []. split; [reflexivity | constructor].
  - destruct (H a) as (b & Hb & HQ); [now left |].
    destruct IH as (bs & Hbs & HF); [intros; apply H; now right |].
    exists (b :: bs). rewrite Hb, Hbs. simpl. split; [reflexivity | now constructor].
Qed.

Lemma concat_singletons {B : Type} (bs : list B) :
  List.concat (map (fun b => [b]) bs) = bs.
Proof.
  induction bs as [| b t IH]; simpl; [reflexivity | now rewrite IH].
Qed.

Lemma weakness_rows {argsort : sorting_routine} {argsort_sorts : Sorts argsort}
  (ssp : list SectionAggregate) (avg : list SectionAverage)
  (sid : Z) (entry : Z * StrengthsWeaknesses) (w : string) :
  classified argsort ssp avg sid entry ->
  In w (weaknesses (snd entry)) ->
  exists r, In r (rows_of_student ssp sid) /\ sa_section r = w /\
            exists x, avg_score_of avg (sa_section r) = Ok x.
Proof.
  intros (_ & cmp & Hcmp & ->) Hw. cbn [weaknesses] in Hw.
  apply in_map_iff in Hw as (c & Hc & Hin).
  apply tail_incl in Hin.
  apply (Permutation_in _ (sort_values_perm c_diff cmp)) in Hin.
  apply mapM_ok in Hcmp.
  destruct (Forall2_in_r _ _ _ _ Hcmp Hin) as (r & Hr & Hrow).
  apply compare_row_ok in Hrow as (Hs & _ & Havg & _).
  exists r. split; [exact Hr |]. split; [congruence | eauto].
Qed.

Lemma weakness_mode_spec {argsort : sorting_routine} {argsort_sorts : Sorts argsort}
  (ssp : list SectionAggregate) (avg : list SectionAverage)
  (sw : list (Z * StrengthsWeaknesses)) (lr : list LearningRate) :
  identify_strengths_weaknesses argsort ssp avg = Ok sw ->
  known_sections ssp = true ->
  exists recs,
    generate_recommendations sw lr ssp avg false = Ok recs /\
    map fst recs = unique Z.eqb (map sa_student_id ssp) /\
    forall sid rec, In (sid, rec) recs ->
      exists e texts,
        In (sid, e) sw /\
        rec = WeaknessRecommendations texts /\
        Forall2 (fun w text =>
                   exists subject score avg_score,
                     weakness_text (rows_of_student ssp sid) avg w text
                                   subject score avg_score)
                (weaknesses e) texts.
Proof.
  intros Hsw Hknown.
  pose proof (identify_keys ssp avg sw Hsw) as Hkeys.
  assert (Hstudent : forall sid, In sid (unique Z.eqb (map sa_student_id ssp)) ->
    exists e texts,
      In (sid, e) sw /\ dict_get sw sid = Ok e /\
      mapM (recommend_weakness (rows_of_student ssp sid) avg) (weaknesses e)
      = Ok (map (fun t => [t]) texts) /\
      Forall2 (fun w text =>
                 exists subject score avg_score,
                   weakness_text (rows_of_student ssp sid) avg w text
                                 subject score avg_score)
              (weaknesses e) texts).
  { intros sid Hsid. rewrite <- Hkeys in Hsid.
    destruct (dict_get_in sw sid Hsid) as (e & Hget & Hin).
    pose proof (identify_entry ssp avg sw sid e Hsw Hin) as Hclass.
    destruct (mapM_singletons
                (recommend_weakness (rows_of_student ssp sid) avg)
                (fun w text =>
                   exists subject score avg_score,
                     weakness_text (rows_of_student ssp sid) avg w text
                                   subject score avg_score)
                (weaknesses e)) as (texts & Htexts & Hspec).
    { intros w Hw.
      destruct (weakness_rows ssp avg sid (sid, e) w Hclass Hw)
        as (r & Hr & <- & Havg).
      destruct (recommend_weakness_spec ssp avg sid r Hknown Hr Havg)
        as (subject & score & avg_score & Hsubject & Hscore & Havg' & Hrun).
      assert (Hsec : In (sa_section r) ["A"; "B"; "C"; "D"]).
      { apply known_sections_row with ssp; [exact Hknown |].
        now apply rows_of_student_in in Hr. }
      destruct (weakness_text_spec (sa_section r) subject score avg_score
                  (nsub score avg_score) Hsec Hsubject) as (text & Htext & _).
      exists text. rewrite Hrun, Htext. split; [reflexivity |].
      exists subject, score, avg_score. repeat split; assumption. }
    exists e, texts. auto. }
  destruct (mapM_total
              (fun student_id =>
                 entry <- dict_get sw student_id ;;
                 rec <- mapM (recommend_weakness (rows_of_student ssp student_id) avg)
                             (weaknesses entry) ;;
                 Ok (student_id, WeaknessRecommendations (List.concat rec)))
              (unique Z.eqb (map sa_student_id ssp))) as (recs & Hrecs).
  { intros sid Hsid.
    destruct (Hstudent sid Hsid) as (e & texts & _ & Hget & Hrun & _).
    rewrite Hget. cbn [bind]. rewrite Hrun. cbn [bind]. eauto. }
  exists recs. split; [exact Hrecs |].
  apply mapM_ok in Hrecs.
  split.
  { symmetry. rewrite <- (map_id (unique Z.eqb (map sa_student_id ssp))).
    eapply Forall2_map_eq; [exact Hrecs |].
    intros sid entry Hentry. cbn beta in Hentry.
    apply bind_ok in Hentry as (e & _ & Hentry).
    apply bind_ok in Hentry as (rec & _ & Hentry).
    now injection Hentry as <-. }
  intros sid rec Hin.
  destruct (Forall2_in_r _ _ _ _ Hrecs Hin) as (sid' & Hsid & Hentry).
  cbn beta in Hentry.
  apply bind_ok in Hentry as (e & Hget & Hentry).
  apply bind_ok in Hentry as (blocks & Hblocks & Hentry).
  injection Hentry as -> <-.
  destruct (Hstudent sid Hsid) as (e' & texts & He & Hget' & Hrun & Hspec).
  rewrite Hget in Hget'. injection Hget' as <-.
  rewrite Hblocks in Hrun. injection Hrun as ->.
  exists e, texts. rewrite concat_singletons. auto.
Qed.






(** The scenario of the specification: 30 in section B against an average
    of 60 selects the block of section B for a score under 40. *)
Example weaknesses_scenario :
  exists sw text_A,
    identify_strengths_weaknesses stable_argsort
      [mkSection 1 "A" 9 10 (Num 90); mkSection 1 "B" 3 10 (Num 30)]
      [mkAverage "A" (Num 70); mkAverage "B" (Num 60)] = Ok sw /\
    generate_recommendations sw []
      [mkSection 1 "A" 9 10 (Num 90); mkSection 1 "B" 3 10 (Num 30)]
      [mkAverage "A" (Num 70); mkAverage "B" (Num 60)] false
    = Ok [(1, WeaknessRecommendations
                [text_A;
                 "Verbal (Section B): Significant improvement needed in verbal reasoning. Your score (30.0%) is 30.0% below the class average (60.0%). Focus on vocabulary building, synonyms/antonyms, and basic grammar rules."])].
Proof. do 2 eexists. split; reflexivity. Qed.

(** ** The pipeline *)

(** The cohort table computed from an aggregate table covers it: the lookup
    of an average cannot fail in the pipeline. *)
Lemma averages_cover (ssp : list SectionAggregate) (so : list OverallAggregate) :
  covers (fst (calculate_average_performance ssp so)) ssp = true.
Proof.
  unfold covers. apply forallb_forall. intros r Hr.
  apply existsb_exists.
  pose proof (section_average_row ssp so (sa_section r) (in_map sa_section _ _ Hr)) as Hrow.
  exists (mkAverage (sa_section r) (mean (section_scores ssp (sa_section r)))).
  split; [| apply String.eqb_refl].
  assert (Hin : In (mkAverage (sa_section r) (mean (section_scores ssp (sa_section r))))
                   (filter (fun a => (av_section a =? sa_section r)%string)
                           (fst (calculate_average_performance ssp so))))
    by (rewrite Hrow; now left).
  now apply filter_In in Hin.
Qed.

Lemma forallb_false {A : Type} (f : A -> bool) (l : list A) :
  forallb f l = false -> exists a, In a l /\ f a = false.
Proof.
  induction l as [| x t IH]; simpl; intros H; [discriminate H |].
  destruct (f x) eqn:E.
  - destruct (IH H) as (a & Ha & Hf). eauto.
  - eauto.
Qed.

(** A pair whose records all lack a boolean [is_correct] makes the
    aggregator divide zero by zero. *)
Lemma empty_group_raises (data : DataFrame) :
  every_group_has_value data = false ->
  calculate_student_metrics data = Raise ZeroDivisionError.
Proof.
  unfold every_group_has_value, calculate_student_metrics. intros H.
  assert (Hbad : exists r, In r (normalize data) /\
                 forall r', In r' (normalize data) ->
                   record_key r' = record_key r -> notna (q_is_correct r') = false).
  { apply forallb_false in H as (r0 & Hr0 & Hex).
    exists r0. split; [exact Hr0 |].
    intros r' Hr' Hk.
    destruct (notna (q_is_correct r')) eqn:En; [| reflexivity].
    assert (Ht : existsb (fun r' => pair_eqb (record_key r') (record_key r0)
                                    && notna (q_is_correct r')) (normalize data) = true).
    { apply existsb_exists. exists r'. split; [exact Hr' |].
      apply andb_true_iff. split; [now apply pair_eqb_eq | exact En]. }
    congruence. }
  destruct Hbad as (r & Hr & Hnone).
  rewrite (mapM_raise section_row _ ZeroDivisionError); [reflexivity | |].
  - intros g _. unfold section_row, percentage.
    destruct (agg_count (map q_is_correct (snd g)) =? 0); simpl; eauto.
  - assert (Hk : In (record_key r)
                    (map fst (groupby pair_eqb pair_leb record_key (normalize data)))).
    { apply (groupby_keys_in _ pair_eqb_eq). now apply in_map. }
    apply in_map_iff in Hk as (g & Hg & Hin).
    exists g. split; [exact Hin |].
    apply (groupby_in _ pair_eqb_eq) in Hin as (_ & Hsnd).
    unfold section_row, percentage.
    replace (agg_count (map q_is_correct (snd g))) with 0; [reflexivity |].
    rewrite Hsnd, Hg. unfold agg_count.
    assert (Hall : forall rows, (forall r', In r' rows -> In r' (normalize data)) ->
              filter notna (map q_is_correct
                              (filter (fun r' => pair_eqb (record_key r') (record_key r)) rows))
              = []).
    { induction rows as [| x rows IH]; simpl; intros Hsub; [reflexivity |].
      destruct (pair_eqb (record_key x) (record_key r)) eqn:E; simpl.
      - apply pair_eqb_eq in E.
        rewrite (Hnone x (Hsub x (or_introl eq_refl)) E).
        apply IH. intros; apply Hsub; now right.
      - apply IH. intros; apply Hsub; now right. }
    rewrite Hall; [reflexivity | auto].
Qed.

Lemma section_keys_of_frame (data : DataFrame) ssp so lr :
  calculate_student_metrics data = Ok (ssp, so, lr) ->
  forall k, In k (map section_key ssp) <-> In k (frame_keys data).
Proof.
  intros H k.
  rewrite (section_keys_of_groups data ssp so lr H).
  rewrite (groupby_keys_in _ pair_eqb_eq), normalize_keys. reflexivity.
Qed.

Lemma average_sections (ssp : list SectionAggregate) (so : list OverallAggregate)
  (section : string) :
  In section (map av_section (fst (calculate_average_performance ssp so)))
  <-> In section (map sa_section ssp).
Proof.
  assert (Hkeys : map av_section (fst (calculate_average_performance ssp so))
                  = map fst (groupby String.eqb String.leb sa_section ssp)).
  { unfold calculate_average_performance. cbn [fst]. rewrite map_map. reflexivity. }
  rewrite Hkeys. apply groupby_keys_in. exact String.eqb_eq.
Qed.

Lemma known_section_iff (section : string) :
  existsb (String.eqb section) ["A"; "B"; "C"; "D"] = true
  <-> In section ["A"; "B"; "C"; "D"].
Proof.
  rewrite existsb_exists. split.
  - intros (s & Hs & E). apply String.eqb_eq in E. now subst.
  - intros H. exists section. split; [exact H | apply String.eqb_refl].
Qed.

Lemma section_mapping_known (section : string) :
  In section ["A"; "B"; "C"; "D"] -> exists subject, section_mapping section = Some subject.
Proof.
  intros [<- | [<- | [<- | [<- | []]]]]; eexists; reflexivity.
Qed.

Lemma section_mapping_unknown (section : string) :
  ~ In section ["A"; "B"; "C"; "D"] -> section_mapping section = None.
Proof.
  intros H. unfold section_mapping.
  assert (HA : (section =? "A")%string = false)
    by (apply String.eqb_neq; intros ->; apply H; simpl; auto).
  assert (HB : (section =? "B")%string = false)
    by (apply String.eqb_neq; intros ->; apply H; simpl; auto).
  assert (HC : (section =? "C")%string = false)
    by (apply String.eqb_neq; intros ->; apply H; simpl; auto).
  assert (HD : (section =? "D")%string = false)
    by (apply String.eqb_neq; intros ->; apply H; simpl; auto).
  now rewrite HA, HB, HC, HD.
Qed.

(** The table of line 81 is built when every section of the cohort table
    is a key of [section_mapping], and raises [KeyError] otherwise. *)
Lemma section_avg_data_total (avg : list SectionAverage) :
  (forall v, In v avg -> In (av_section v) ["A"; "B"; "C"; "D"]) ->
  exists shown, section_avg_data avg = Ok shown.
Proof.
  intros H. unfold section_avg_data.
  destruct (mapM_total
              (fun row =>
                 subject <- getitem (section_mapping (av_section row)) ;;
                 Ok (subject ++ " (" ++ av_section row ++ ")"))
              avg) as (labels & ->).
  - intros v Hv. destruct (section_mapping_known _ (H v Hv)) as (subject & ->).
    simpl. eauto.
  - simpl. eauto.
Qed.

Lemma section_avg_data_raises (avg : list SectionAverage) :
  (exists v, In v avg /\ ~ In (av_section v) ["A"; "B"; "C"; "D"]) ->
  section_avg_data avg = Raise KeyError.
Proof.
  intros (v & Hv & Hout). unfold section_avg_data.
  rewrite (mapM_raise _ avg KeyError); [reflexivity | |].
  - intros a _. destruct (section_mapping (av_section a)); simpl; eauto.
  - exists v. split; [exact Hv |].
    now rewrite (section_mapping_unknown _ Hout).
Qed.

Lemma frame_sections_of_rows (data : DataFrame) ssp so lr (section : string) :
  calculate_student_metrics data = Ok (ssp, so, lr) ->
  In section (map sa_section ssp) <-> In section (map snd (frame_keys data)).
Proof.
  intros H. rewrite !in_map_iff. split.
  - intros (r & <- & Hr).
    exists (section_key r). split; [reflexivity |].
    apply (section_keys_of_frame data ssp so lr H). now apply in_map.
  - intros (k & <- & Hk).
    apply (section_keys_of_frame data ssp so lr H) in Hk.
    apply in_map_iff in Hk as (r & <- & Hr). exists r. split; [reflexivity | exact Hr].
Qed.

(** On a record set whose pairs all hold a boolean value and whose sections
    are among A, B, C, D the whole pipeline runs to its end. *)
Lemma analyze_total {argsort : sorting_routine} (data : DataFrame) :
  every_group_has_value data = true ->
  frame_sections_known data = true ->
  exists a, analyze argsort data = Ok a.
Proof.
  intros H Hknown. unfold analyze.
  destruct (calculate_student_metrics_total data H) as (ssp & so & lr & Hrun).
  rewrite Hrun. cbn [bind].
  destruct (calculate_average_performance ssp so) as [avg overall] eqn:E.
  assert (Hcov : covers avg ssp = true).
  { replace avg with (fst (calculate_average_performance ssp so)) by now rewrite E.
    apply averages_cover. }
  destruct (section_avg_data_total avg) as (shown & ->).
  { intros v Hv.
    assert (Hs : In (av_section v) (map sa_section ssp)).
    { apply (average_sections ssp so). rewrite E. now apply in_map. }
    apply (frame_sections_of_rows data ssp so lr _ Hrun) in Hs.
    apply in_map_iff in Hs as (k & Hk & Hin).
    unfold frame_sections_known in Hknown. rewrite forallb_forall in Hknown.
    rewrite <- Hk. apply known_section_iff. now apply Hknown. }
  cbn [bind].
  destruct (identify_total (argsort := argsort) ssp avg Hcov) as (sw & ->). cbn [bind].
  destruct (all_sections_run sw lr ssp avg Hcov) as (recs & -> & _). cbn [bind].
  eauto.
Qed.

(** A section outside A, B, C, D stops the pipeline at line 82, before any
    student is classified. *)
Lemma analyze_unknown_section {argsort : sorting_routine} (data : DataFrame) :
  every_group_has_value data = true ->
  frame_sections_known data = false ->
  analyze argsort data = Raise KeyError.
Proof.
  intros H Hknown. unfold analyze.
  destruct (calculate_student_metrics_total data H) as (ssp & so & lr & Hrun).
  rewrite Hrun. cbn [bind].
  destruct (calculate_average_performance ssp so) as [avg overall] eqn:E.
  rewrite section_avg_data_raises; [reflexivity |].
  apply forallb_false in Hknown as (k & Hk & Hout).
  assert (Hs : In (snd k) (map sa_section ssp)).
  { apply (frame_sections_of_rows data ssp so lr _ Hrun). now apply in_map. }
  apply (average_sections ssp so) in Hs. rewrite E in Hs. cbn [fst] in Hs.
  apply in_map_iff in Hs as (v & Hv & Hin).
  exists v. split; [exact Hin |].
  rewrite Hv. intros Hin'. apply known_section_iff in Hin'. congruence.
Qed.

(** * Further properties *)

(** ** The overall table *)

Lemma Zsum_add {A : Type} (f g : A -> Z) (l : list A) :
  Zsum (map (fun a => f a + g a) l) = Zsum (map f l) + Zsum (map g l).
Proof.
  induction l as [| a t IH]; simpl; [reflexivity |]. unfold Zsum in *. simpl in *. lia.
Qed.

Lemma Zsum_ext {A : Type} (f g : A -> Z) (l : list A) :
  (forall a, In a l -> f a = g a) -> Zsum (map f l) = Zsum (map g l).
Proof.
  induction l as [| a t IH]; simpl; intros H; [reflexivity |].
  unfold Zsum in *. simpl. rewrite (H a), IH; auto.
Qed.

Lemma Zsum_zero {A : Type} (l : list A) : Zsum (map (fun _ => 0) l) = 0.
Proof. induction l as [| a t IH]; [reflexivity | exact IH]. Qed.

Section Partition.
Context {K : Type} (eqb : K -> K -> bool).
Hypothesis eqb_eq : forall a b, eqb a b = true <-> a = b.

Lemma indicator_once (x : K) (ks : list K) :
  NoDup ks -> In x ks ->
  Zsum (map (fun k => if eqb x k then 1 else 0) ks) = 1.
Proof.
  induction 1 as [| k t Hk Ht IH]; simpl; intros Hin; [contradiction |].
  unfold Zsum in *. simpl.
  destruct (eqb x k) eqn:E.
  - apply eqb_eq in E. subst k.
    rewrite (Zsum_ext _ (fun _ => 0)), Zsum_zero; [reflexivity |].
    intros k Hk'. destruct (eqb x k) eqn:E'; [| reflexivity].
    apply eqb_eq in E'. subst. contradiction.
  - destruct Hin as [-> | Hin]; [| rewrite IH; auto].
    assert (eqb x x = true) by now apply eqb_eq. congruence.
Qed.

Lemma count_by_key {R : Type} (key : R -> K) (p : R -> bool)
  (rows : list R) (ks : list K) :
  NoDup ks -> (forall r, In r rows -> In (key r) ks) ->
  Z.of_nat (List.length (filter p rows))
  = Zsum (map (fun k => Z.of_nat (List.length
                                    (filter (fun r => eqb (key r) k && p r) rows))) ks).
Proof.
  intros Hnd. induction rows as [| r t IH]; intros Hin.
  - simpl. now rewrite Zsum_zero.
  - rewrite (Zsum_ext _ (fun k => (if eqb (key r) k then (if p r then 1 else 0) else 0)
               + Z.of_nat (List.length (filter (fun r => eqb (key r) k && p r) t)))).
    + rewrite Zsum_add, <- IH by (intros; apply Hin; now right).
      rewrite (Zsum_ext _ (fun k => (if p r then 1 else 0)
                                    * (if eqb (key r) k then 1 else 0))).
      * assert (Hmul : forall c l, Zsum (map (fun k : K => c * (if eqb (key r) k then 1 else 0)) l)
                                   = c * Zsum (map (fun k => if eqb (key r) k then 1 else 0) l)).
        { intros c l. induction l as [| k l IHl]; simpl; [lia |].
          unfold Zsum in *. simpl. rewrite IHl. lia. }
        rewrite Hmul, indicator_once; [| exact Hnd | apply Hin; now left].
        cbn [filter]. destruct (p r); cbn [List.length]; lia.
      * intros k _. destruct (eqb (key r) k), (p r); reflexivity.
    + intros k _. cbn [filter]. destruct (eqb (key r) k), (p r); cbn [andb List.length]; lia.
Qed.
End Partition.

Lemma agg_sum_filter {C : Type} (cell : C -> option bool) (p : C -> bool) (rows : list C) :
  agg_sum (map cell (filter p rows))
  = Z.of_nat (List.length (filter (fun r => p r && is_true (cell r)) rows)).
Proof.
  unfold agg_sum. f_equal.
  induction rows as [| r t IH]; simpl; [reflexivity |].
  destruct (p r); simpl; [| exact IH].
  destruct (is_true (cell r)); simpl; now rewrite IH.
Qed.

Lemma agg_count_filter {C : Type} (cell : C -> option bool) (p : C -> bool) (rows : list C) :
  agg_count (map cell (filter p rows))
  = Z.of_nat (List.length (filter (fun r => p r && notna (cell r)) rows)).
Proof.
  unfold agg_count. f_equal.
  induction rows as [| r t IH]; simpl; [reflexivity |].
  destruct (p r); simpl; [| exact IH].
  destruct (notna (cell r)); simpl; now rewrite IH.
Qed.

Lemma overall_row_ok g o :
  overall_row g = Ok o ->
  let cells := map q_is_correct (snd g) in
  oa_student_id o = fst g /\ oa_sum o = agg_sum cells /\ oa_count o = agg_count cells /\
  oa_count o <> 0 /\
  oa_overall_score o
  = float_value
      (PrimFloat.mul
         (PrimFloat.div (float_of_int (oa_sum o)) (float_of_int (oa_count o)))
         (float_of_int 100)).
Proof.
  unfold overall_row. intros H.
  apply bind_ok in H as (x & Hx & H). injection H as <-.
  apply percentage_ok in Hx as (Hc & ->).
  destruct g as [i rows]; simpl. auto.
Qed.

Lemma calculate_student_metrics_overall (data : DataFrame) ssp so lr :
  calculate_student_metrics data = Ok (ssp, so, lr) ->
  Forall2 (fun g o => overall_row g = Ok o)
          (groupby Z.eqb Z.leb q_student_id (normalize data)) so /\
  lr = map (fun o => mkRate (oa_student_id o) 0) so.
Proof.
  unfold calculate_student_metrics. intros H.
  apply bind_ok in H as (ssp' & Hssp & H).
  apply bind_ok in H as (so' & Hso & H).
  injection H as <- <- <-. split; [now apply mapM_ok | reflexivity].
Qed.

Lemma normalize_student_ids (data : DataFrame) :
  map q_student_id (normalize data) = student_ids data.
Proof.
  destruct data as [rows | rows]; simpl; rewrite map_map; reflexivity.
Qed.

Lemma student_section_sums (proj : SectionAggregate -> Z)
  (agg : list (option bool) -> Z) (i : Z) groups ssp :
  (forall g r, section_row g = Ok r -> proj r = agg (map q_is_correct (snd g))) ->
  Forall2 (fun g r => section_row g = Ok r) groups ssp ->
  Zsum (map proj (rows_of_student ssp i))
  = Zsum (map (fun g => if fst (fst g) =? i then agg (map q_is_correct (snd g)) else 0)
              groups).
Proof.
  intros Hproj. induction 1 as [| g r groups' ssp' Hr Hrest IH]; [reflexivity |].
  unfold rows_of_student in *. cbn [filter map].
  pose proof (section_row_ok g r Hr) as (Hkey & _). unfold section_key in Hkey.
  assert (Hid : sa_student_id r = fst (fst g)) by (rewrite <- Hkey; reflexivity).
  rewrite Hid. destruct (fst (fst g) =? i); unfold Zsum in *; cbn [map fold_right];
    rewrite IH; [rewrite (Hproj g r Hr) |]; reflexivity.
Qed.

Lemma student_total (agg : list (option bool) -> Z) (test : option bool -> bool)
  (rows : list (QuestionRecord (option bool))) (i : Z) :
  (forall (p : QuestionRecord (option bool) -> bool) l,
      agg (map q_is_correct (filter p l))
      = Z.of_nat (List.length (filter (fun r => p r && test (q_is_correct r)) l))) ->
  agg (map q_is_correct (filter (fun r => q_student_id r =? i) rows))
  = Zsum (map (fun g => if fst (fst g) =? i then agg (map q_is_correct (snd g)) else 0)
              (groupby pair_eqb pair_leb record_key rows)).
Proof.
  intros Hagg. rewrite Hagg.
  rewrite (count_by_key pair_eqb pair_eqb_eq record_key _ rows
             (sort_keys pair_leb (unique pair_eqb (map record_key rows)))).
  - unfold groupby. rewrite map_map. apply Zsum_ext. intros k _. cbn [fst snd].
    destruct (fst k =? i) eqn:E.
    + rewrite Hagg. do 2 f_equal. apply filter_ext_in. intros r _.
      destruct (pair_eqb (record_key r) k) eqn:Ek; [| reflexivity].
      apply pair_eqb_eq in Ek. subst k. simpl in E. now rewrite E.
    + replace (filter _ rows) with (@nil (QuestionRecord (option bool))); [reflexivity |].
      symmetry.
      induction rows as [| r t IHt]; [reflexivity |]. cbn [filter].
      destruct (pair_eqb (record_key r) k) eqn:Ek; [| exact IHt].
      apply pair_eqb_eq in Ek. subst k. simpl in E. rewrite E. exact IHt.
  - eapply Permutation_NoDup; [symmetry; apply sort_keys_perm |].
    apply unique_nodup, pair_eqb_eq.
  - intros r Hr. eapply Permutation_in; [symmetry; apply sort_keys_perm |].
    apply (unique_in _ pair_eqb_eq). now apply in_map.
Qed.

(** X1.  Whenever every (student_id, section) pair of the input holds a
    record with a boolean [is_correct], the overall table has one row per
    distinct student_id of the input, each with
    [0 <= sum <= count], [count >= 1] and as [overall_score] the binary64
    product by 100 of the binary64 quotient of [sum] by [count]; its [sum]
    and [count] are the totals of the student's rows in the section table,
    and the learning-rate table lists the same students, in the same
    order, all with the rate 0. *)
Theorem overall_aggregate_invariant (data : DataFrame) :
  every_group_has_value data = true ->
  exists ssp so lr,
    calculate_student_metrics data = Ok (ssp, so, lr) /\
    (forall o, In o so ->
       0 <= oa_sum o <= oa_count o /\ 1 <= oa_count o /\
       oa_overall_score o
       = float_value
           (PrimFloat.mul
              (PrimFloat.div (float_of_int (oa_sum o)) (float_of_int (oa_count o)))
              (float_of_int 100)) /\
       oa_sum o = Zsum (map sa_sum (rows_of_student ssp (oa_student_id o))) /\
       oa_count o = Zsum (map sa_count (rows_of_student ssp (oa_student_id o)))) /\
    NoDup (map oa_student_id so) /\
    (forall i, In i (map oa_student_id so) <-> In i (student_ids data)) /\
    map lr_student_id lr = map oa_student_id so /\
    (forall l, In l lr -> lr_learning_rate l = 0).
Proof.
  intros H.
  destruct (calculate_student_metrics_total data H) as (ssp & so & lr & Hrun).
  exists ssp, so, lr. split; [exact Hrun |].
  pose proof (calculate_student_metrics_sections _ _ _ _ Hrun) as Hsec.
  destruct (calculate_student_metrics_overall _ _ _ _ Hrun) as (Hover & Hlr).
  assert (Hids : map oa_student_id so
                 = map fst (groupby Z.eqb Z.leb q_student_id (normalize data))).
  { symmetry. eapply Forall2_map_eq; [exact Hover |].
    intros g o Ho. apply overall_row_ok in Ho. simpl in Ho. symmetry. tauto. }
  split; [| split; [| split; [| split]]].
  - intros o Ho.
    destruct (Forall2_in_r _ _ _ o Hover Ho) as (g & Hg & Hrow).
    apply overall_row_ok in Hrow. simpl in Hrow.
    destruct Hrow as (Hid & Hs & Hc & Hnz & Hscore).
    pose proof (agg_sum_count (map q_is_correct (snd g))) as Hle.
    rewrite <- Hs, <- Hc in Hle.
    split; [exact Hle |]. split; [lia |].
    split; [exact Hscore |].
    apply (groupby_in _ Z.eqb_eq) in Hg as (_ & Hsnd).
    rewrite Hs, Hc, Hsnd, Hid.
    assert (Hps : forall g' r, section_row g' = Ok r ->
                    sa_sum r = agg_sum (map q_is_correct (snd g'))).
    { intros g' r Hr. apply section_row_ok in Hr. simpl in Hr. tauto. }
    assert (Hpc : forall g' r, section_row g' = Ok r ->
                    sa_count r = agg_count (map q_is_correct (snd g'))).
    { intros g' r Hr. apply section_row_ok in Hr. simpl in Hr. tauto. }
    split.
    + rewrite (student_section_sums sa_sum agg_sum (fst g) _ ssp Hps Hsec).
      apply (student_total agg_sum is_true). intros p l. apply agg_sum_filter.
    + rewrite (student_section_sums sa_count agg_count (fst g) _ ssp Hpc Hsec).
      apply (student_total agg_count notna). intros p l. apply agg_count_filter.
  - rewrite Hids. apply groupby_keys_nodup. exact Z.eqb_eq.
  - intros i. rewrite Hids, (groupby_keys_in _ Z.eqb_eq), normalize_student_ids.
    reflexivity.
  - rewrite Hlr, map_map. reflexivity.
  - intros l Hl. rewrite Hlr in Hl. apply in_map_iff in Hl as (o & <- & _). reflexivity.
Qed.

Lemma overall_aggregate_invariant_witness :
  let data := BoolFrame [mkRecord 7 "B" true; mkRecord 7 "A" false;
                         mkRecord 7 "B" false; mkRecord 3 "A" true] in
  every_group_has_value data = true /\
  exists ssp so lr,
    calculate_student_metrics data = Ok (ssp, so, lr) /\
    map oa_student_id so = [3; 7] /\
    map oa_sum so = [1; 1] /\
    map oa_count so = [1; 3] /\
    (forall o, In o so ->
       oa_sum o = Zsum (map sa_sum (rows_of_student ssp (oa_student_id o))) /\
       oa_count o = Zsum (map sa_count (rows_of_student ssp (oa_student_id o)))) /\
    map lr_student_id lr = map oa_student_id so.
Proof.
  intros data. split; [reflexivity |].
  destruct (overall_aggregate_invariant data)
    as (ssp & so & lr & Hrun & Hrows & _ & _ & Hlr & _); [reflexivity |].
  exists ssp, so, lr. split; [exact Hrun |].
  assert (Hso : Ok (ssp, so, lr) = calculate_student_metrics data)
    by (symmetry; exact Hrun).
  vm_compute in Hso. injection Hso as Hssp Hso' Hlr'.
  split; [rewrite Hso'; reflexivity |].
  split; [rewrite Hso'; reflexivity |].
  split; [rewrite Hso'; reflexivity |].
  split; [| exact Hlr].
  intros o Ho. destruct (Hrows o Ho) as (_ & _ & _ & Hs & Hc). auto.
Defined.

(** ** Sections outside the four *)


Lemma avg_score_of_in (avg : list SectionAverage) (section : string) (x : num) :
  avg_score_of avg section = Ok x ->
  exists v, In v avg /\ av_section v = section /\ av_avg_score_percentage v = x.
Proof.
  unfold avg_score_of. intros H.
  destruct (filter (fun a => (av_section a =? section)%string) avg) as [| v t] eqn:E;
    [discriminate H |].
  injection H as <-.
  assert (Hin : In v (filter (fun a => (av_section a =? section)%string) avg))
    by (rewrite E; now left).
  apply filter_In in Hin as (Hin & Hs). apply String.eqb_eq in Hs. eauto.
Qed.

(** X2.  On a record set whose (student_id, section) pairs all hold a
    record with a boolean [is_correct], the pipeline of [app.py] runs to
    its end when every section of the input is one of A, B, C, D; when one
    is not, it raises [KeyError] at line 82, where the rows of the cohort
    table are labelled, before any student is classified.  This holds
    whatever the sorting routine. *)
Theorem pipeline_needs_known_sections {argsort : sorting_routine} (data : DataFrame) :
  every_group_has_value data = true ->
  (frame_sections_known data = true -> exists a, analyze argsort data = Ok a) /\
  (frame_sections_known data = false -> analyze argsort data = Raise KeyError).
Proof.
  intros H. split; intros Hknown.
  - now apply analyze_total.
  - now apply analyze_unknown_section.
Qed.

Lemma pipeline_needs_known_sections_witness :
  let data := ObjectFrame [mkRecord 1 "E" (PyStr "true");
                           mkRecord 1 "A" (PyStr "false")] in
  every_group_has_value data = true /\
  frame_sections_known data = false /\
  analyze stable_argsort data = Raise KeyError.
Proof.
  intros data. split; [reflexivity |]. split; [reflexivity |].
  apply (pipeline_needs_known_sections (argsort := stable_argsort) data);
    reflexivity.
Defined.

(** ** Row order *)

Lemma string_compare_OT (a b : string) :
  String.compare a b = OrdersEx.String_as_OT.compare a b.
Proof.
  revert b. induction a as [| x a IH]; destruct b as [| y b]; reflexivity.
Qed.

Lemma string_compare_spec (a b : string) :
  CompareSpec (a = b) (OrdersEx.String_as_OT.lt a b) (OrdersEx.String_as_OT.lt b a)
              (String.compare a b).
Proof.
  rewrite string_compare_OT. apply OrdersEx.String_as_OT.compare_spec.
Qed.

Lemma string_lt_irrefl (a : string) : ~ OrdersEx.String_as_OT.lt a a.
Proof. apply (StrictOrder_Irreflexive (R := OrdersEx.String_as_OT.lt)). Qed.

Lemma string_lt_trans (a b c : string) :
  OrdersEx.String_as_OT.lt a b -> OrdersEx.String_as_OT.lt b c ->
  OrdersEx.String_as_OT.lt a c.
Proof. apply (StrictOrder_Transitive (R := OrdersEx.String_as_OT.lt)). Qed.

Lemma string_leb_iff (a b : string) :
  String.leb a b = true <-> a = b \/ OrdersEx.String_as_OT.lt a b.
Proof.
  unfold String.leb.
  destruct (string_compare_spec a b) as [E | L | G]; split; intros H;
    try discriminate; auto.
  exfalso. destruct H as [-> | H].
  - now apply string_lt_irrefl in G.
  - apply (string_lt_irrefl a). now apply string_lt_trans with b.
Qed.

Lemma string_ltb_iff (a b : string) :
  String.ltb a b = true <-> OrdersEx.String_as_OT.lt a b.
Proof.
  unfold String.ltb.
  destruct (string_compare_spec a b) as [E | L | G]; split; intros H;
    try discriminate; auto; exfalso.
  - subst. now apply string_lt_irrefl in H.
  - apply (string_lt_irrefl a). now apply string_lt_trans with b.
Qed.

Lemma string_leb_trans (a b c : string) :
  String.leb a b = true -> String.leb b c = true -> String.leb a c = true.
Proof.
  rewrite !string_leb_iff. intros [-> | H1] [-> | H2]; auto.
  right. now apply string_lt_trans with b.
Qed.

Lemma pair_leb_iff (a b : Z * string) :
  pair_leb a b = true
  <-> fst a < fst b \/ (fst a = fst b /\ String.leb (snd a) (snd b) = true).
Proof.
  unfold pair_leb.
  rewrite orb_true_iff, andb_true_iff, Z.ltb_lt, Z.eqb_eq. reflexivity.
Qed.

Lemma pair_leb_total (a b : Z * string) : pair_leb a b = true \/ pair_leb b a = true.
Proof.
  rewrite !pair_leb_iff.
  destruct (Z.lt_total (fst a) (fst b)) as [H | [H | H]]; auto.
  destruct (String.leb_total (snd a) (snd b)); auto.
Qed.

Lemma pair_leb_trans (a b c : Z * string) :
  pair_leb a b = true -> pair_leb b c = true -> pair_leb a c = true.
Proof.
  rewrite !pair_leb_iff.
  intros [H1 | [H1 L1]] [H2 | [H2 L2]]; try (left; lia).
  right. split; [lia | now apply string_leb_trans with (snd b)].
Qed.

Section SortedKeys.
Context {K : Type} (leb : K -> K -> bool).
Hypothesis leb_total : forall a b, leb a b = true \/ leb b a = true.
Hypothesis leb_trans : forall a b c, leb a b = true -> leb b c = true -> leb a c = true.

Lemma insert_key_sorted (k : K) (l : list K) :
  StronglySorted (fun a b => leb a b = true) l ->
  StronglySorted (fun a b => leb a b = true) (insert_key leb k l).
Proof.
  induction l as [| x t IH]; simpl; intros Hs; [repeat constructor |].
  inversion Hs as [| ? ? Ht Hx]; subst.
  destruct (leb k x) eqn:E.
  - constructor; [exact Hs |]. constructor; [exact E |].
    eapply Forall_impl; [| exact Hx]. intros y Hy. now apply leb_trans with x.
  - constructor; [now apply IH |].
    apply Forall_forall. intros y Hy.
    apply (Permutation_in _ (insert_key_perm leb k t)) in Hy.
    destruct Hy as [<- | Hy].
    + destruct (leb_total k x); [congruence | assumption].
    + rewrite Forall_forall in Hx. now apply Hx.
Qed.

Lemma sort_keys_sorted (l : list K) :
  StronglySorted (fun a b => leb a b = true) (sort_keys leb l).
Proof.
  induction l as [| x t IH]; simpl; [constructor | now apply insert_key_sorted].
Qed.

Lemma sorted_nodup_strict (l : list K) :
  StronglySorted (fun a b => leb a b = true) l -> NoDup l ->
  StronglySorted (fun a b => leb a b = true /\ a <> b) l.
Proof.
  induction 1 as [| x t Ht IH Hx]; intros Hnd; constructor.
  - apply IH. now inversion Hnd.
  - inversion Hnd as [| ? ? Hout _]; subst.
    apply Forall_forall. intros y Hy. rewrite Forall_forall in Hx.
    split; [now apply Hx | intros ->; contradiction].
Qed.
End SortedKeys.

Lemma StronglySorted_weaken {A : Type} (P Q : A -> A -> Prop) (l : list A) :
  (forall a b, P a b -> Q a b) -> StronglySorted P l -> StronglySorted Q l.
Proof.
  intros H. induction 1 as [| x t Ht IH Hx]; constructor; [exact IH |].
  eapply Forall_impl; [| exact Hx]. intros y. apply H.
Qed.

Lemma StronglySorted_map {A B : Type} (f : A -> B) (P : B -> B -> Prop) (l : list A) :
  StronglySorted P (map f l) <-> StronglySorted (fun a b => P (f a) (f b)) l.
Proof.
  induction l as [| x t IH]; simpl; split; intros H; try constructor;
    inversion H as [| ? ? Ht Hx]; subst.
  - now apply IH.
  - rewrite Forall_forall in *. intros y Hy. apply Hx. now apply in_map.
  - now apply IH.
  - rewrite Forall_forall in *. intros y Hy.
    apply in_map_iff in Hy as (z & <- & Hz). now apply Hx.
Qed.

(** The keys of a grouping come out strictly ascending. *)
Lemma groupby_keys_ascending {K R : Type} (eqb leb : K -> K -> bool)
  (key : R -> K) (rows : list R) :
  (forall a b, eqb a b = true <-> a = b) ->
  (forall a b, leb a b = true \/ leb b a = true) ->
  (forall a b c, leb a b = true -> leb b c = true -> leb a c = true) ->
  StronglySorted (fun a b => leb a b = true /\ a <> b)
                 (map fst (groupby eqb leb key rows)).
Proof.
  intros Heq Htot Htrans.
  apply sorted_nodup_strict.
  - rewrite groupby_keys. now apply sort_keys_sorted.
  - now apply groupby_keys_nodup.
Qed.

Lemma string_strict (a b : string) :
  String.leb a b = true /\ a <> b -> String.ltb a b = true.
Proof.
  rewrite string_leb_iff, string_ltb_iff. intros [[-> | H] Hne]; [congruence | exact H].
Qed.

(** X3.  Whenever every (student_id, section) pair of the input holds a
    record with a boolean [is_correct], the rows of the section table come
    in strictly ascending order of student_id, then of section, and the
    rows of the overall table in strictly ascending order of student_id,
    whatever the order of the records. *)
Theorem aggregates_in_ascending_order (data : DataFrame) :
  every_group_has_value data = true ->
  exists ssp so lr,
    calculate_student_metrics data = Ok (ssp, so, lr) /\
    StronglySorted
      (fun a b => sa_student_id a < sa_student_id b \/
                  (sa_student_id a = sa_student_id b /\
                   String.ltb (sa_section a) (sa_section b) = true)) ssp /\
    StronglySorted (fun a b => oa_student_id a < oa_student_id b) so.
Proof.
  intros H.
  destruct (calculate_student_metrics_total data H) as (ssp & so & lr & Hrun).
  exists ssp, so, lr. split; [exact Hrun |]. split.
  - pose proof (groupby_keys_ascending pair_eqb pair_leb record_key (normalize data)
                  pair_eqb_eq pair_leb_total pair_leb_trans) as Hs.
    rewrite <- (section_keys_of_groups data ssp so lr Hrun) in Hs.
    apply StronglySorted_map in Hs.
    eapply StronglySorted_weaken; [| exact Hs].
    intros a b (Hle & Hne). apply pair_leb_iff in Hle. unfold section_key in *. simpl in *.
    destruct Hle as [Hlt | (Heq & Hle)]; [now left | right].
    split; [exact Heq |]. apply string_strict. split; [exact Hle |].
    intros Hs'. apply Hne. now rewrite Heq, Hs'.
  - destruct (calculate_student_metrics_overall _ _ _ _ Hrun) as (Hover & _).
    assert (Hids : map oa_student_id so
                   = map fst (groupby Z.eqb Z.leb q_student_id (normalize data))).
    { symmetry. eapply Forall2_map_eq; [exact Hover |].
      intros g o Ho. apply overall_row_ok in Ho. simpl in Ho. symmetry. tauto. }
    assert (Hs : StronglySorted (fun a b => Z.leb a b = true /\ a <> b)
                                (map oa_student_id so)).
    { rewrite Hids. apply groupby_keys_ascending.
      - exact Z.eqb_eq.
      - intros a b. rewrite !Z.leb_le. lia.
      - intros a b c. rewrite !Z.leb_le. lia. }
    apply StronglySorted_map in Hs.
    eapply StronglySorted_weaken; [| exact Hs].
    intros a b (Hle & Hne). apply Z.leb_le in Hle. lia.
Qed.

Lemma aggregates_in_ascending_order_witness :
  let data := BoolFrame [mkRecord 7 "B" true; mkRecord 7 "A" false;
                         mkRecord 3 "D" false; mkRecord 3 "A" true] in
  every_group_has_value data = true /\
  exists ssp so lr,
    calculate_student_metrics data = Ok (ssp, so, lr) /\
    StronglySorted (fun a b => oa_student_id a < oa_student_id b) so.
Proof.
  intros data. split; [reflexivity |].
  destruct (aggregates_in_ascending_order data) as (ssp & so & lr & Hrun & _ & Hs);
    [reflexivity |].
  exists ssp, so, lr. auto.
Defined.

(** ** The cohort table *)

(** X4.  For every aggregate table, the cohort table has exactly the
    sections that occur in the aggregate table, each once, in strictly
    ascending order; a section that no student holds gets no row. *)
Theorem cohort_table_sections (ssp : list SectionAggregate) (so : list OverallAggregate) :
  StronglySorted (fun a b => String.ltb a b = true)
                 (map av_section (fst (calculate_average_performance ssp so))) /\
  NoDup (map av_section (fst (calculate_average_performance ssp so))) /\
  forall section,
    In section (map av_section (fst (calculate_average_performance ssp so)))
    <-> In section (map sa_section ssp).
Proof.
  assert (Hkeys : map av_section (fst (calculate_average_performance ssp so))
                  = map fst (groupby String.eqb String.leb sa_section ssp)).
  { unfold calculate_average_performance. cbn [fst]. rewrite map_map. reflexivity. }
  rewrite Hkeys. split; [| split].
  - eapply StronglySorted_weaken; [exact string_strict |].
    apply groupby_keys_ascending.
    + exact String.eqb_eq.
    + exact String.leb_total.
    + exact string_leb_trans.
  - apply groupby_keys_nodup. exact String.eqb_eq.
  - intros section. apply groupby_keys_in. exact String.eqb_eq.
Qed.

(** ** More on the classifier *)

Lemma mapM_ok_or_raise {A B : Type} (f : A -> result B) (l : list A) (e : exn) :
  (forall a, In a l -> (exists b, f a = Ok b) \/ f a = Raise e) ->
  (exists bs, mapM f l = Ok bs) \/ mapM f l = Raise e.
Proof.
  induction l as [| a t IH]; simpl; intros H; [eauto |].
  destruct (H a (or_introl eq_refl)) as [(b & ->) | ->]; [| now right].
  destruct IH as [(bs & ->) | ->]; [intros; apply H; now right | |]; simpl; eauto.
Qed.

Lemma compare_row_ok_or_raise (avg : list SectionAverage) (row : SectionAggregate) :
  (exists c, compare_row avg row = Ok c) \/ compare_row avg row = Raise IndexError.
Proof.
  unfold compare_row, avg_score_of.
  destruct (filter (fun a => (av_section a =? sa_section row)%string) avg);
    simpl; eauto.
Qed.

Lemma compare_row_missing (avg : list SectionAverage) (row : SectionAggregate) :
  existsb (fun a => (av_section a =? sa_section row)%string) avg = false ->
  compare_row avg row = Raise IndexError.
Proof.
  intros H. unfold compare_row, avg_score_of.
  replace (filter (fun a => (av_section a =? sa_section row)%string) avg)
    with (@nil SectionAverage); [reflexivity |].
  symmetry. induction avg as [| a t IH]; [reflexivity |].
  simpl in *. apply orb_false_iff in H as (Ha & Ht). rewrite Ha. now apply IH.
Qed.

(** X5.  The classifier fails exactly on a missing cohort row: when some
    section of the aggregate table has no row in the cohort table it raises
    IndexError and classifies no student at all; otherwise it returns. *)
Theorem classify_fails_on_missing_average {argsort : sorting_routine}
  (ssp : list SectionAggregate) (avg : list SectionAverage) :
  (covers avg ssp = false -> identify_strengths_weaknesses argsort ssp avg = Raise IndexError) /\
  (covers avg ssp = true -> exists sw, identify_strengths_weaknesses argsort ssp avg = Ok sw).
Proof.
  split; [| apply identify_total].
  intros H. unfold covers in H.
  apply forallb_false in H as (r & Hr & Hmiss).
  unfold identify_strengths_weaknesses.
  apply mapM_raise.
  - intros sid _.
    destruct (mapM_ok_or_raise (compare_row avg) (rows_of_student ssp sid) IndexError)
      as [(cmp & ->) | ->]; simpl; eauto.
    intros row _. apply compare_row_ok_or_raise.
  - exists (sa_student_id r). split.
    + apply (unique_in _ Z.eqb_eq). now apply in_map.
    + rewrite (mapM_raise (compare_row avg) _ IndexError); [reflexivity | |].
      * intros row _. apply compare_row_ok_or_raise.
      * exists r. split; [| now apply compare_row_missing].
        unfold rows_of_student. apply filter_In. split; [exact Hr | apply Z.eqb_refl].
Qed.

Lemma classify_fails_on_missing_average_witness :
  covers [mkAverage "A" (Num 50)]
         [mkSection 1 "A" 1 2 (Num 50); mkSection 2 "B" 1 1 (Num 100)] = false /\
  identify_strengths_weaknesses stable_argsort
    [mkSection 1 "A" 1 2 (Num 50); mkSection 2 "B" 1 1 (Num 100)]
    [mkAverage "A" (Num 50)] = Raise IndexError.
Proof.
  split; [reflexivity |].
  apply (proj1 (classify_fails_on_missing_average _ _)). reflexivity.
Defined.

Lemma head_length {A : Type} (n : nat) (l : list A) :
  List.length (head n l) = Nat.min n (List.length l).
Proof. unfold head. apply length_firstn. Qed.

Lemma tail_length {A : Type} (n : nat) (l : list A) :
  List.length (tail n l) = Nat.min n (List.length l).
Proof. unfold tail. rewrite length_skipn. lia. Qed.

Lemma head_incl {A : Type} (n : nat) (l : list A) (a : A) : In a (head n l) -> In a l.
Proof.
  unfold head. intros H. rewrite <- (firstn_skipn n l). apply in_or_app. now left.
Qed.

Lemma head_tail_short {A : Type} (l : list A) :
  (List.length l <= 2)%nat -> head 2 l = l /\ tail 2 l = l.
Proof.
  intros H. unfold head, tail. split.
  - now apply firstn_all2.
  - replace (List.length l - 2)%nat with 0%nat by lia. reflexivity.
Qed.

(** X6.  Given a cohort table that covers the aggregate table, every
    student of the classification holds at least one section and gets
    min(2, n) strengths and as many weaknesses out of the n sections held,
    all of them sections of the student; with one or two sections the two
    lists are the same list, which holds every section of the student. *)
Theorem classify_short_lists {argsort : sorting_routine}
  {argsort_sorts : Sorts argsort}
  (ssp : list SectionAggregate) (avg : list SectionAverage) :
  covers avg ssp = true ->
  exists sw,
    identify_strengths_weaknesses argsort ssp avg = Ok sw /\
    forall sid e, In (sid, e) sw ->
      let sections := map sa_section (rows_of_student ssp sid) in
      (1 <= List.length sections)%nat /\
      List.length (strengths e) = Nat.min 2 (List.length sections) /\
      List.length (weaknesses e) = Nat.min 2 (List.length sections) /\
      (forall s, In s (strengths e) \/ In s (weaknesses e) -> In s sections) /\
      ((List.length sections <= 2)%nat ->
       strengths e = weaknesses e /\ Permutation (strengths e) sections).
Proof.
  intros Hcov.
  destruct (identify_total (argsort := argsort) ssp avg Hcov) as (sw & Hsw).
  exists sw. split; [exact Hsw |].
  intros sid e Hin sections.
  destruct (identify_entry ssp avg sw sid e Hsw Hin) as (_ & cmp & Hcmp & He).
  cbn [snd] in He. subst e. cbn [strengths weaknesses].
  pose proof (comparison_sections avg _ cmp Hcmp) as Hsec. fold sections in Hsec.
  pose proof (sort_values_perm c_diff cmp) as Hperm.
  assert (Hlen : List.length (sort_values_descending argsort c_diff cmp) = List.length sections).
  { rewrite (Permutation_length Hperm), <- Hsec. now rewrite length_map. }
  assert (Hall : Permutation (map c_section (sort_values_descending argsort c_diff cmp)) sections).
  { rewrite <- Hsec. now apply Permutation_map. }
  split.
  { assert (Hsid : In sid (map sa_student_id ssp)).
    { apply (unique_in _ Z.eqb_eq). rewrite <- (identify_keys ssp avg sw Hsw).
      apply (in_map fst) in Hin. exact Hin. }
    apply in_map_iff in Hsid as (r & Hid & Hr).
    assert (Hrow : In r (rows_of_student ssp sid)).
    { unfold rows_of_student. apply filter_In. split; [exact Hr | now apply Z.eqb_eq]. }
    unfold sections. rewrite length_map.
    destruct (rows_of_student ssp sid); [contradiction | simpl; lia]. }
  rewrite !length_map, head_length, tail_length, Hlen.
  split; [reflexivity |]. split; [reflexivity |]. split.
  - intros s [Hs | Hs]; apply in_map_iff in Hs as (c & <- & Hc);
      [apply head_incl in Hc | apply tail_incl in Hc];
      apply (Permutation_in _ Hall); now apply in_map.
  - intros Hshort. rewrite <- Hlen in Hshort.
    destruct (head_tail_short _ Hshort) as (-> & ->). split; [reflexivity | exact Hall].
Qed.

Lemma classify_short_lists_witness :
  let ssp := [mkSection 1 "A" 1 2 (Num 50); mkSection 2 "B" 1 1 (Num 100);
              mkSection 2 "A" 0 1 (Num 0)] in
  let avg := [mkAverage "A" (Num 25); mkAverage "B" (Num 100)] in
  Sorts stable_argsort /\
  covers avg ssp = true /\
  exists sw, identify_strengths_weaknesses stable_argsort ssp avg = Ok sw.
Proof.
  intros ssp avg. split; [exact stable_argsort_sorts |]. split; [reflexivity |].
  destruct (classify_short_lists (argsort := stable_argsort) ssp avg)
    as (sw & Hsw & _); [reflexivity |].
  exists sw. exact Hsw.
Defined.

Lemma skipn_incl {A : Type} (n : nat) (l : list A) (a : A) : In a (skipn n l) -> In a l.
Proof.
  intros H. rewrite <- (firstn_skipn n l). apply in_or_app. now right.
Qed.

Lemma head_outranks_tail {A : Type} (R : A -> A -> Prop) (l : list A) :
  (forall a, R a a) -> StronglySorted R l -> (3 <= List.length l)%nat ->
  forall x y, In x (head 2 l) -> In y (tail 2 l) -> R x y.
Proof.
  intros Hrefl Hs Hlen x y Hx Hy.
  destruct l as [| a [| b [| c rest]]]; simpl in Hlen; try lia.
  unfold head, tail in *. cbn [firstn] in Hx.
  replace (List.length (a :: b :: c :: rest) - 2)%nat with (S (List.length rest)) in Hy
    by (simpl; lia).
  cbn [skipn] in Hy. apply skipn_incl in Hy.
  inversion Hs as [| ? ? Hs1 Ha]; subst.
  inversion Hs1 as [| ? ? _ Hb]; subst.
  rewrite Forall_forall in Ha, Hb.
  destruct Hx as [<- | [<- | []]].
  - now apply Ha.
  - destruct Hy as [<- | Hy]; [apply Hrefl | now apply Hb].
Qed.

Lemma descending_refl {R : Type} (key : R -> num) (r : R) : descending key r r.
Proof. unfold descending. destruct (key r); [lra | exact I]. Qed.

(** X7.  Given a cohort table that covers the aggregate table, for a
    student with at least three sections no weakness outranks a strength:
    the strengths and the weaknesses are the sections of two lists of
    comparison rows of the student, and the diff of every row of the first
    is at least the diff of every row of the second (a row without a diff
    ranking last). *)
Theorem strengths_outrank_weaknesses {argsort : sorting_routine}
  {argsort_sorts : Sorts argsort}
  (ssp : list SectionAggregate) (avg : list SectionAverage) :
  covers avg ssp = true ->
  exists sw,
    identify_strengths_weaknesses argsort ssp avg = Ok sw /\
    forall sid e, In (sid, e) sw ->
      (3 <= List.length (rows_of_student ssp sid))%nat ->
      exists top bottom,
        strengths e = map c_section top /\
        weaknesses e = map c_section bottom /\
        (forall c, In c top \/ In c bottom -> In c (comparison e)) /\
        forall x y, In x top -> In y bottom -> descending c_diff x y.
Proof.
  intros Hcov.
  destruct (identify_total (argsort := argsort) ssp avg Hcov) as (sw & Hsw).
  exists sw. split; [exact Hsw |].
  intros sid e Hin Hlen.
  destruct (identify_entry ssp avg sw sid e Hsw Hin) as (_ & cmp & Hcmp & He).
  cbn [snd] in He. subst e. cbn [strengths weaknesses comparison].
  exists (head 2 (sort_values_descending argsort c_diff cmp)),
         (tail 2 (sort_values_descending argsort c_diff cmp)).
  split; [reflexivity |]. split; [reflexivity |].
  pose proof (sort_values_perm c_diff cmp) as Hperm.
  split.
  - intros c [Hc | Hc]; [apply head_incl in Hc | apply tail_incl in Hc];
      now apply (Permutation_in _ Hperm).
  - apply head_outranks_tail.
    + apply descending_refl.
    + apply sort_values_sorted.
    + rewrite (Permutation_length Hperm).
      pose proof (comparison_sections avg _ cmp Hcmp) as Hsec.
      apply (f_equal (@List.length string)) in Hsec.
      rewrite !length_map in Hsec. lia.
Qed.

Lemma strengths_outrank_weaknesses_witness :
  let ssp := [mkSection 1 "A" 1 2 (Num 50); mkSection 1 "B" 1 1 (Num 100);
              mkSection 1 "D" 0 1 (Num 0)] in
  let avg := [mkAverage "A" (Num 25); mkAverage "B" (Num 100); mkAverage "D" (Num 10)] in
  Sorts stable_argsort /\
  covers avg ssp = true /\
  (3 <= List.length (rows_of_student ssp 1))%nat /\
  exists e top bottom,
    identify_strengths_weaknesses stable_argsort ssp avg = Ok [(1, e)] /\
    strengths e = map c_section top /\
    weaknesses e = map c_section bottom /\
    forall x y, In x top -> In y bottom -> descending c_diff x y.
Proof.
  intros ssp avg. split; [exact stable_argsort_sorts |].
  split; [reflexivity |]. split; [unfold ssp; simpl; lia |].
  destruct (strengths_outrank_weaknesses (argsort := stable_argsort) ssp avg)
    as (sw & Hsw & Hall); [reflexivity |].
  pose proof (identify_keys ssp avg sw Hsw) as Hkeys.
  destruct sw as [| [k e] [| p t]]; try discriminate Hkeys.
  injection Hkeys as ->.
  destruct (Hall 1 e (or_introl eq_refl)) as (top & bottom & Hs & Hw & _ & Hrank);
    [unfold ssp; simpl; lia |].
  exists e, top, bottom. auto.
Defined.

(** ** The texts of a section *)

Lemma unknown_section_tests (section : string) :
  ~ In section ["A"; "B"; "C"; "D"] ->
  (section =? "A")%string = false /\ (section =? "B")%string = false /\
  (section =? "C")%string = false /\ (section =? "D")%string = false.
Proof.
  intros H. repeat split; apply String.eqb_neq; intros ->; apply H; simpl; auto.
Qed.

(** X8.  For a section among A, B, C, D the block of all-sections texts
    has three texts when the score is under 40 (or missing) and two
    otherwise, and its first text reports the score, the absolute
    difference followed by the relation to the average, and the average,
    all with one decimal; for any other section the block is empty. *)
Theorem section_block_shape (section : string) (score avg_score diff : num) :
  (In section ["A"; "B"; "C"; "D"] ->
   exists first rest,
     get_section_specific_recommendations section score avg_score diff = first :: rest /\
     List.length rest = (if nge score 40 then 1 else 2)%nat /\
     contains first
       (fmt1 score ++ "%) is " ++ fmt1 (nabs diff) ++ "% " ++ relation_to_avg diff
        ++ " (" ++ fmt1 avg_score ++ "%)")) /\
  (~ In section ["A"; "B"; "C"; "D"] ->
   get_section_specific_recommendations section score avg_score diff = []).
Proof.
  split.
  - assert (Hlevel : nge score 80 = true -> nge score 40 = true).
    { destruct score as [s |]; simpl; [| discriminate].
      rewrite !Qle_bool_iff. lra. }
    assert (Hlevel' : nge score 60 = true -> nge score 40 = true).
    { destruct score as [s |]; simpl; [| discriminate].
      rewrite !Qle_bool_iff. lra. }
    intros [<- | [<- | [<- | [<- | []]]]];
      unfold get_section_specific_recommendations, performance_level; cbv zeta;
      (destruct (nge score 80) eqn:E80;
       [rewrite (Hlevel eq_refl)
       | destruct (nge score 60) eqn:E60;
         [rewrite (Hlevel' eq_refl) | destruct (nge score 40) eqn:E40]]);
      cbn [String.eqb Ascii.eqb Bool.eqb];
      (do 2 eexists; split; [reflexivity |]; split; [reflexivity |];
       apply contains_after; eapply contains_score_line; reflexivity).
  - intros H.
    destruct (unknown_section_tests section H) as (HA & HB & HC & HD).
    unfold get_section_specific_recommendations. cbv zeta.
    now rewrite HA, HB, HC, HD.
Qed.

Lemma section_block_shape_witness :
  In "B" ["A"; "B"; "C"; "D"] /\
  exists first rest,
    get_section_specific_recommendations "B" (Num 30) (Num 60) (Num (-30)) = first :: rest /\
    List.length rest = 2%nat.
Proof.
  split; [simpl; auto |].
  destruct (proj1 (section_block_shape "B" (Num 30) (Num 60) (Num (-30))))
    as (first & rest & Hblock & Hlen & _); [simpl; auto |].
  exists first, rest. split; [exact Hblock | exact Hlen].
Defined.

(** ** What the weaknesses-only mode needs *)

Lemma section_names_ok (section subject : string) :
  section_names section = Ok subject -> In section ["A"; "B"; "C"; "D"].
Proof.
  unfold section_names. intros H.
  destruct (section =? "A")%string eqn:EA; [apply String.eqb_eq in EA; simpl; auto |].
  destruct (section =? "B")%string eqn:EB; [apply String.eqb_eq in EB; simpl; auto |].
  destruct (section =? "C")%string eqn:EC; [apply String.eqb_eq in EC; simpl; auto |].
  destruct (section =? "D")%string eqn:ED; [apply String.eqb_eq in ED; simpl; auto |].
  discriminate H.
Qed.

Lemma values0_in {A : Type} (l : list A) (a : A) : values0 l = Ok a -> In a l.
Proof. destruct l; simpl; intros H; [discriminate H | injection H as <-; now left]. Qed.

Lemma recommend_weakness_ok (student_data : list SectionAggregate)
  (avg : list SectionAverage) (w : string) (block : list string) :
  recommend_weakness student_data avg w = Ok block ->
  In w ["A"; "B"; "C"; "D"] /\
  In w (map sa_section student_data) /\
  In w (map av_section avg) /\
  exists text, block = [text].
Proof.
  unfold recommend_weakness. intros H.
  apply bind_ok in H as (score & Hscore & H).
  apply bind_ok in H as (avg_score & Havg & H).
  apply bind_ok in H as (subject & Hsubject & H).
  injection H as <-.
  pose proof (section_names_ok w subject Hsubject) as Hknown.
  split; [exact Hknown |]. split; [| split].
  - apply values0_in, in_map_iff in Hscore as (r & _ & Hr).
    apply filter_In in Hr as (Hr & Hs). apply String.eqb_eq in Hs.
    rewrite <- Hs. now apply in_map.
  - apply avg_score_of_in in Havg as (v & Hv & Hs & _).
    rewrite <- Hs. now apply in_map.
  - destruct (weakness_text_spec w subject score avg_score (nsub score avg_score)
                Hknown Hsubject) as (text & Htext & _).
    eauto.
Qed.

Lemma concat_singleton_length {A B : Type} (l : list A) (blocks : list (list B)) :
  Forall2 (fun _ block => exists b, block = [b]) l blocks ->
  List.length (List.concat blocks) = List.length l.
Proof.
  induction 1 as [| a block l' blocks' (b & ->) Hrest IH]; simpl; [reflexivity |].
  now rewrite IH.
Qed.

(** X9.  The weaknesses-only mode returns only if every student of the
    aggregate table has an entry in the classification and every weakness
    of that entry is one of A, B, C, D, is a section the student holds and
    has a row in the cohort table; it then emits for each student exactly
    one text per weakness of the entry. *)
Theorem weaknesses_only_requirements
  (sw : list (Z * StrengthsWeaknesses)) (lr : list LearningRate)
  (ssp : list SectionAggregate) (avg : list SectionAverage)
  (recs : list (Z * Recommendation)) :
  generate_recommendations sw lr ssp avg false = Ok recs ->
  map fst recs = unique Z.eqb (map sa_student_id ssp) /\
  forall sid rec, In (sid, rec) recs ->
    exists e texts,
      dict_get sw sid = Ok e /\
      rec = WeaknessRecommendations texts /\
      List.length texts = List.length (weaknesses e) /\
      forall w, In w (weaknesses e) ->
        In w ["A"; "B"; "C"; "D"] /\
        In w (map sa_section (rows_of_student ssp sid)) /\
        In w (map av_section avg).
Proof.
  unfold generate_recommendations. intros H. apply mapM_ok in H.
  split.
  { symmetry. rewrite <- (map_id (unique Z.eqb (map sa_student_id ssp))).
    eapply Forall2_map_eq; [exact H |].
    intros sid entry Hentry. cbn beta iota in Hentry.
    apply bind_ok in Hentry as (e & _ & Hentry).
    apply bind_ok in Hentry as (blocks & _ & Hentry).
    now injection Hentry as <-. }
  intros sid rec Hin.
  destruct (Forall2_in_r _ _ _ _ H Hin) as (sid' & _ & Hentry).
  cbn beta iota in Hentry.
  apply bind_ok in Hentry as (e & Hget & Hentry).
  apply bind_ok in Hentry as (blocks & Hblocks & Hentry).
  injection Hentry as -> <-.
  apply mapM_ok in Hblocks.
  exists e, (List.concat blocks). split; [exact Hget |]. split; [reflexivity |].
  split.
  - apply concat_singleton_length.
    eapply Forall2_impl; [| exact Hblocks].
    intros w block Hw. apply recommend_weakness_ok in Hw. tauto.
  - intros w Hw.
    destruct (Forall2_in_l _ _ _ _ Hblocks Hw) as (block & _ & Hrun).
    apply recommend_weakness_ok in Hrun. tauto.
Qed.

Lemma weaknesses_only_requirements_witness :
  let ssp := [mkSection 1 "A" 9 10 (Num 90); mkSection 1 "B" 3 10 (Num 30)] in
  let avg := [mkAverage "A" (Num 70); mkAverage "B" (Num 60)] in
  let sw := [(1, mkStrengthsWeaknesses ["A"] ["B"] [])] in
  exists recs,
    generate_recommendations sw [] ssp avg false = Ok recs /\
    map fst recs = unique Z.eqb (map sa_student_id ssp).
Proof.
  intros ssp avg sw. eexists. split; [reflexivity |].
  apply (weaknesses_only_requirements sw [] ssp avg _ eq_refl).
Defined.

(** A classification without the student, a weakness the student does not
    hold and a weakness outside A, B, C, D each stop the mode. *)
Example weaknesses_only_failures :
  generate_recommendations [] [] [mkSection 1 "A" 9 10 (Num 90)]
    [mkAverage "A" (Num 70)] false = Raise KeyError /\
  generate_recommendations [(1, mkStrengthsWeaknesses [] ["B"] [])] []
    [mkSection 1 "A" 9 10 (Num 90)] [mkAverage "A" (Num 70); mkAverage "B" (Num 70)] false
  = Raise IndexError /\
  generate_recommendations [(1, mkStrengthsWeaknesses [] ["E"] [])] []
    [mkSection 1 "E" 9 10 (Num 90)] [mkAverage "E" (Num 70)] false
  = Raise KeyError.
Proof. repeat split. Qed.

(** ** The students of the pipeline *)







(** ** The section table of the page *)

(** X11.  For every difference that is a number, the label of the page and
    the relation tier of the recommendation engine agree: "Above Average"
    with "above average", "Average" with "at the class average", "Below
    Average" with "below average".  They part on a missing difference,
    which the page labels "Below Average" and the engine puts at the class
    average. *)
Theorem label_agrees_with_relation :
  (forall d : Q,
     (performance_label (Num d) = "Above Average"
        <-> relation_to_avg (Num d) = "above average") /\
     (performance_label (Num d) = "Average"
        <-> relation_to_avg (Num d) = "at the class average") /\
     (performance_label (Num d) = "Below Average"
        <-> relation_to_avg (Num d) = "below average")) /\
  performance_label NaN = "Below Average" /\
  relation_to_avg NaN = "at the class average".
Proof.
  split; [| split; reflexivity].
  intros d. unfold performance_label, relation_to_avg, ngt, nlt, nle, nabs.
  decide_Qle d 5%Q; cbn [negb].
  - decide_Qle (-5)%Q d; cbn [negb].
    + replace (Qle_bool (Qabs d) 5) with true;
        [repeat split; intros; try discriminate; reflexivity |].
      symmetry. apply Qle_bool_iff. apply Qabs_Qle_condition. split; assumption.
    + replace (Qle_bool (Qabs d) 5) with false;
        [repeat split; intros; try discriminate; reflexivity |].
      symmetry. apply Qle_bool_false.
      apply Qlt_le_trans with (- d)%Q; [lra |].
      rewrite <- Qabs_opp. apply Qle_Qabs.
  - repeat split; intros; try discriminate; reflexivity.
Qed.

Lemma report_rows (avg : list SectionAverage) (rows : list SectionAggregate)
  (cmp : list Comparison) :
  Forall2 (fun r c => compare_row avg r = Ok c) rows cmp ->
  exists rep,
    mapM (report_row avg) rows = Ok rep /\
    Forall2 (fun r row =>
               rp_section row = sa_section r /\
               rp_correct_answers row = sa_sum r /\
               rp_total_questions row = sa_count r /\
               rp_subject row = section_mapping (sa_section r))
            rows rep /\
    Forall2 (fun row c =>
               rp_section row = c_section c /\
               rp_score row = c_score c /\
               rp_class_average row = c_avg_score c /\
               rp_difference row = c_diff c /\
               rp_performance row = performance_label (c_diff c))
            rep cmp.
Proof.
  induction 1 as [| r c rows' cmp' Hc Hrest (rep & Hrep & Hrows & Hcmp)].
  - exists []. repeat split; constructor.
  - unfold compare_row in Hc. apply bind_ok in Hc as (x & Hx & Hc). injection Hc as <-.
    cbn [mapM]. unfold report_row at 1. rewrite Hx. cbn [bind]. rewrite Hrep. cbn [bind].
    eexists. split; [reflexivity |].
    split; constructor; simpl; auto.
Qed.

(** X12.  After a successful classification, the section table of the
    page can be built for every classified student and shows, row for row,
    what the classifier compared: the same section, score, class average
    and difference, with the label of that difference, beside the counts
    of the aggregate row and the subject of the section. *)
Theorem report_matches_classification {argsort : sorting_routine}
  (ssp : list SectionAggregate) (avg : list SectionAverage)
  (sw : list (Z * StrengthsWeaknesses)) (sid : Z) (e : StrengthsWeaknesses) :
  identify_strengths_weaknesses argsort ssp avg = Ok sw ->
  In (sid, e) sw ->
  exists rep,
    section_report ssp avg sid = Ok rep /\
    Forall2 (fun r row =>
               rp_section row = sa_section r /\
               rp_correct_answers row = sa_sum r /\
               rp_total_questions row = sa_count r /\
               rp_subject row = section_mapping (sa_section r))
            (rows_of_student ssp sid) rep /\
    Forall2 (fun row c =>
               rp_section row = c_section c /\
               rp_score row = c_score c /\
               rp_class_average row = c_avg_score c /\
               rp_difference row = c_diff c /\
               rp_performance row = performance_label (c_diff c))
            rep (comparison e).
Proof.
  intros Hsw Hin.
  destruct (identify_entry ssp avg sw sid e Hsw Hin) as (_ & cmp & Hcmp & He).
  cbn [snd] in He. subst e. cbn [comparison].
  apply mapM_ok in Hcmp. unfold section_report. now apply report_rows.
Qed.

Lemma report_matches_classification_witness :
  let ssp := [mkSection 1 "A" 9 10 (Num 90); mkSection 1 "B" 3 10 (Num 30);
              mkSection 2 "A" 5 10 (Num 50)] in
  let avg := [mkAverage "A" (Num 70); mkAverage "B" (Num 30)] in
  exists sw e rep,
    identify_strengths_weaknesses stable_argsort ssp avg = Ok sw /\
    In (2, e) sw /\
    section_report ssp avg 2 = Ok rep.
Proof.
  intros ssp avg.
  pose (sw := match identify_strengths_weaknesses stable_argsort ssp avg with
              | Ok sw => sw
              | Raise _ => []
              end).
  pose (e := match sw with
             | _ :: (_, e) :: _ => e
             | _ => mkStrengthsWeaknesses [] [] []
             end).
  assert (Hsw : identify_strengths_weaknesses stable_argsort ssp avg = Ok sw) by reflexivity.
  assert (Hin : In (2, e) sw) by (right; left; reflexivity).
  destruct (report_matches_classification ssp avg sw 2 e Hsw Hin) as (rep & Hrep & _).
  exists sw, e, rep. split; [exact Hsw |]. split; [exact Hin | exact Hrep].
Defined.

(** The two dicts from section to subject, the one of the engine and the
    one of the page, hold the same entries. *)
Lemma section_dicts_agree (section subject : string) :
  section_mapping section = Some subject <-> section_names section = Ok subject.
Proof.
  unfold section_mapping, section_names.
  destruct (section =? "A")%string; [split; intros H; injection H as <-; reflexivity |].
  destruct (section =? "B")%string; [split; intros H; injection H as <-; reflexivity |].
  destruct (section =? "C")%string; [split; intros H; injection H as <-; reflexivity |].
  destruct (section =? "D")%string; [split; intros H; injection H as <-; reflexivity |].
  split; discriminate.
Qed.

(** ** The upload *)

Lemma as_object_concat (a b : DataFrame) :
  as_object (concat a b) = (as_object a ++ as_object b)%list.
Proof.
  destruct a as [ra | ra], b as [rb | rb]; simpl; try reflexivity.
  apply map_app.
Qed.

Lemma as_object_select (mask : Z -> bool) (data : DataFrame) :
  as_object (select_students mask data)
  = filter (fun r => mask (q_student_id r)) (as_object data).
Proof.
  destruct data as [rows | rows]; simpl; [| reflexivity].
  induction rows as [| r t IH]; simpl; [reflexivity |].
  destruct (mask (q_student_id r)); simpl; now rewrite IH.
Qed.

Lemma as_object_student_ids (data : DataFrame) :
  student_ids data = map q_student_id (as_object data).
Proof.
  destruct data as [rows | rows]; simpl; [| reflexivity].
  rewrite map_map. reflexivity.
Qed.

Lemma filter_all {A : Type} (p : A -> bool) (l : list A) :
  (forall a, In a l -> p a = true) -> filter p l = l.
Proof.
  induction l as [| a t IH]; simpl; intros H; [reflexivity |].
  rewrite (H a (or_introl eq_refl)), IH; auto.
Qed.

Lemma first_student (data : DataFrame) (first : QuestionRecord pyobj)
  (rest : list (QuestionRecord pyobj)) :
  as_object data = first :: rest ->
  values0 (unique Z.eqb (student_ids data)) = Ok (q_student_id first).
Proof.
  intros H. rewrite as_object_student_ids, H. reflexivity.
Qed.

Lemma upload_rows (existing new : DataFrame) (first : QuestionRecord pyobj)
  (rest : list (QuestionRecord pyobj)) :
  as_object new = first :: rest ->
  exists data,
    upload_new_student (Some existing) new = Ok data /\
    as_object data
    = (filter (fun r => negb (q_student_id r =? q_student_id first)) (as_object existing)
       ++ as_object new)%list.
Proof.
  intros Hnew. unfold upload_new_student.
  rewrite (first_student new first rest Hnew). cbn [bind].
  eexists. split; [reflexivity |].
  rewrite as_object_concat. f_equal.
  destruct (existsb (Z.eqb (q_student_id first)) (unique Z.eqb (student_ids existing)))
    eqn:E.
  - apply as_object_select.
  - symmetry. apply filter_all. intros r Hr.
    apply negb_true_iff, Z.eqb_neq. intros Hid.
    assert (Hex : existsb (Z.eqb (q_student_id first))
                          (unique Z.eqb (student_ids existing)) = true).
    { apply existsb_exists. exists (q_student_id r). split.
      - apply (unique_in _ Z.eqb_eq). rewrite as_object_student_ids. now apply in_map.
      - apply Z.eqb_eq. now rewrite Hid. }
    congruence.
Qed.

(** X13.  An upload over an existing database raises IndexError exactly
    when the uploaded file has no record; without a database every upload,
    an empty one too, is taken as the data. *)
Theorem upload_of_empty_file (existing new : DataFrame) :
  (upload_new_student (Some existing) new = Raise IndexError <-> frame_length new = 0%nat) /\
  (frame_length new <> 0%nat -> exists data, upload_new_student (Some existing) new = Ok data) /\
  upload_new_student None new = Ok new.
Proof.
  split; [| split; [| reflexivity]].
  - split.
    + intros H. destruct (as_object new) as [| first rest] eqn:E.
      * destruct new as [[| r t] | [| r t]]; simpl in *; try reflexivity; discriminate E.
      * destruct (upload_rows existing new first rest E) as (data & Hdata & _).
        congruence.
    + intros H. unfold upload_new_student.
      destruct new as [[| r t] | [| r t]]; simpl in H; try discriminate H; reflexivity.
  - intros H. destruct (as_object new) as [| first rest] eqn:E.
    + destruct new as [[| r t] | [| r t]]; simpl in *; try congruence; discriminate E.
    + destruct (upload_rows existing new first rest E) as (data & Hdata & _). eauto.
Qed.

Lemma upload_of_empty_file_witness :
  frame_length (BoolFrame [mkRecord 4 "A" true]) <> 0%nat /\
  exists data,
    upload_new_student (Some (BoolFrame [mkRecord 4 "B" false]))
                       (BoolFrame [mkRecord 4 "A" true]) = Ok data.
Proof.
  split; [discriminate |].
  apply (proj1 (proj2 (upload_of_empty_file _ (BoolFrame [mkRecord 4 "A" true])))).
  discriminate.
Defined.

(** X14.  After an upload over an existing database, the data holds the
    existing records of every student but the first student of the upload,
    in their order, followed by the uploaded records; when the upload is
    about that one student, the records of the student in the data are
    exactly the uploaded ones and the records of the other students are
    exactly the existing ones. *)
Theorem upload_replaces_student (existing new : DataFrame)
  (first : QuestionRecord pyobj) (rest : list (QuestionRecord pyobj)) :
  as_object new = first :: rest ->
  exists data,
    upload_new_student (Some existing) new = Ok data /\
    as_object data
    = (filter (fun r => negb (q_student_id r =? q_student_id first)) (as_object existing)
       ++ as_object new)%list /\
    ((forall r, In r (as_object new) -> q_student_id r = q_student_id first) ->
     filter (fun r => q_student_id r =? q_student_id first) (as_object data)
     = as_object new /\
     filter (fun r => negb (q_student_id r =? q_student_id first)) (as_object data)
     = filter (fun r => negb (q_student_id r =? q_student_id first)) (as_object existing)).
Proof.
  intros Hnew.
  destruct (upload_rows existing new first rest Hnew) as (data & Hrun & Hrows).
  exists data. split; [exact Hrun |]. split; [exact Hrows |].
  intros Hone. rewrite Hrows, !filter_app.
  assert (Hkeep : filter (fun r => q_student_id r =? q_student_id first) (as_object new)
                  = as_object new).
  { apply filter_all. intros r Hr. apply Z.eqb_eq. now apply Hone. }
  assert (Hdrop : filter (fun r => negb (q_student_id r =? q_student_id first))
                         (as_object new) = []).
  { generalize Hone. generalize (as_object new) as l.
    induction l as [| r t IH]; intros Hall; [reflexivity |].
    cbn [filter]. rewrite (proj2 (Z.eqb_eq _ _) (Hall r (or_introl eq_refl))).
    apply IH. intros; apply Hall; now right. }
  rewrite Hkeep, Hdrop, app_nil_r. split.
  - replace (filter _ (filter _ (as_object existing))) with (@nil (QuestionRecord pyobj));
      [reflexivity |].
    symmetry. generalize (as_object existing) as l.
    induction l as [| r t IH]; [reflexivity |]. cbn [filter].
    destruct (q_student_id r =? q_student_id first) eqn:E; cbn [negb filter];
      [exact IH | rewrite E; exact IH].
  - generalize (as_object existing) as l.
    induction l as [| r t IH]; [reflexivity |]. cbn [filter].
    destruct (q_student_id r =? q_student_id first) eqn:E; cbn [negb filter];
      [exact IH | rewrite E; cbn [negb]; now rewrite IH].
Qed.

Lemma upload_replaces_student_witness :
  let existing := BoolFrame [mkRecord 4 "A" false; mkRecord 5 "A" true] in
  let new := ObjectFrame [mkRecord 4 "A" (PyStr "true"); mkRecord 4 "B" (PyStr "false")] in
  as_object new = [mkRecord 4 "A" (PyStr "true"); mkRecord 4 "B" (PyStr "false")] /\
  (forall r, In r (as_object new) -> q_student_id r = 4) /\
  exists data,
    upload_new_student (Some existing) new = Ok data /\
    filter (fun r => q_student_id r =? 4) (as_object data) = as_object new.
Proof.
  intros existing new. split; [reflexivity |].
  assert (Hone : forall r, In r (as_object new) -> q_student_id r = 4).
  { intros r [<- | [<- | []]]; reflexivity. }
  split; [exact Hone |].
  destruct (upload_replaces_student existing new _ _ eq_refl) as (data & Hrun & _ & Hsingle).
  exists data. split; [exact Hrun |]. now apply Hsingle.
Defined.

Lemma boolean_column_concat (a b : DataFrame) :
  boolean_column (concat a b) = boolean_column a && boolean_column b.
Proof. destruct a, b; reflexivity. Qed.

Lemma boolean_column_select (mask : Z -> bool) (data : DataFrame) :
  boolean_column (select_students mask data) = boolean_column data.
Proof. destruct data; reflexivity. Qed.

Lemma frame_eq (a b : DataFrame) :
  boolean_column a = boolean_column b -> as_object a = as_object b -> a = b.
Proof.
  destruct a as [ra | ra], b as [rb | rb]; simpl; intros Hd Hrows;
    try discriminate Hd; [| now rewrite Hrows].
  f_equal. revert rb Hrows.
  induction ra as [| r t IH]; destruct rb as [| r' t']; intros H;
    try discriminate H; [reflexivity |].
  cbn [map] in H. inversion H as [[Hi Hs Hc Ht]].
  destruct r as [i s c], r' as [i' s' c']. simpl in *. subst.
  f_equal. now apply IH.
Qed.

Lemma upload_column (existing new data : DataFrame) :
  upload_new_student (Some existing) new = Ok data ->
  boolean_column data = boolean_column existing && boolean_column new.
Proof.
  unfold upload_new_student. intros H.
  apply bind_ok in H as (id & _ & H). injection H as <-.
  rewrite boolean_column_concat.
  destruct (existsb _ _); [now rewrite boolean_column_select | reflexivity].
Qed.

Lemma filter_twice {A : Type} (p : A -> bool) (l : list A) :
  filter p (filter p l) = filter p l.
Proof.
  induction l as [| a t IH]; simpl; [reflexivity |].
  destruct (p a) eqn:E; simpl; [rewrite E; now rewrite IH | exact IH].
Qed.

Lemma filter_nil_all {A : Type} (p : A -> bool) (l : list A) :
  filter p l = [] <-> forall a, In a l -> p a = false.
Proof.
  induction l as [| a t IH]; simpl; split; intros H; try reflexivity.
  - intros x [].
  - destruct (p a) eqn:E; [discriminate H |].
    intros x [<- | Hx]; [exact E | now apply IH].
  - rewrite (H a (or_introl eq_refl)). apply IH. intros; apply H; now right.
Qed.

(** ** Three sections, and the number of texts *)

(** X16.  Given a cohort table that covers the aggregate table, a student
    with exactly three sections has the middle section of the ranking both
    as second strength and as first weakness: the lists are [a; b] and
    [b; c] for an arrangement a, b, c of the student's sections. *)
Theorem classify_three_sections {argsort : sorting_routine}
  {argsort_sorts : Sorts argsort}
  (ssp : list SectionAggregate) (avg : list SectionAverage) :
  covers avg ssp = true ->
  exists sw,
    identify_strengths_weaknesses argsort ssp avg = Ok sw /\
    forall sid e, In (sid, e) sw ->
      List.length (rows_of_student ssp sid) = 3%nat ->
      exists a b c,
        strengths e = [a; b] /\ weaknesses e = [b; c] /\
        Permutation [a; b; c] (map sa_section (rows_of_student ssp sid)).
Proof.
  intros Hcov.
  destruct (identify_total (argsort := argsort) ssp avg Hcov) as (sw & Hsw).
  exists sw. split; [exact Hsw |].
  intros sid e Hin Hlen.
  destruct (identify_entry ssp avg sw sid e Hsw Hin) as (_ & cmp & Hcmp & He).
  cbn [snd] in He. subst e. cbn [strengths weaknesses].
  pose proof (comparison_sections avg _ cmp Hcmp) as Hsec.
  pose proof (sort_values_perm c_diff cmp) as Hperm.
  assert (Hthree : List.length (sort_values_descending argsort c_diff cmp) = 3%nat).
  { rewrite (Permutation_length Hperm).
    apply (f_equal (@List.length string)) in Hsec. rewrite !length_map in Hsec. lia. }
  rewrite <- Hsec.
  apply (Permutation_map c_section) in Hperm. revert Hperm.
  destruct (sort_values_descending argsort c_diff cmp) as [| x [| y [| z [| w t]]]];
    try discriminate Hthree.
  intros Hperm. exists (c_section x), (c_section y), (c_section z).
  split; [reflexivity |]. split; [reflexivity | exact Hperm].
Qed.

Lemma classify_three_sections_witness :
  let ssp := [mkSection 1 "A" 1 2 (Num 50); mkSection 1 "B" 1 1 (Num 100);
              mkSection 1 "D" 0 1 (Num 0)] in
  let avg := [mkAverage "A" (Num 25); mkAverage "B" (Num 100); mkAverage "D" (Num 10)] in
  Sorts stable_argsort /\
  covers avg ssp = true /\
  List.length (rows_of_student ssp 1) = 3%nat /\
  exists e a b c,
    identify_strengths_weaknesses stable_argsort ssp avg = Ok [(1, e)] /\
    strengths e = [a; b] /\ weaknesses e = [b; c].
Proof.
  intros ssp avg. split; [exact stable_argsort_sorts |].
  split; [reflexivity |]. split; [reflexivity |].
  destruct (classify_three_sections (argsort := stable_argsort) ssp avg)
    as (sw & Hsw & Hall); [reflexivity |].
  pose proof (identify_keys ssp avg sw Hsw) as Hkeys.
  destruct sw as [| [k e] [| p t]]; try discriminate Hkeys.
  injection Hkeys as ->.
  destruct (Hall 1 e (or_introl eq_refl)) as (a & b & c & Hs & Hw & _); [reflexivity |].
  exists e, a, b, c. auto.
Defined.

(** X17.  In weaknesses-only mode, after a successful classification of a
    table whose sections are among A, B, C, D, every student gets a flat
    list of one text if the student holds one section and of two texts
    otherwise. *)
Theorem weakness_text_count {argsort : sorting_routine}
  {argsort_sorts : Sorts argsort}
  (ssp : list SectionAggregate)
  (avg : list SectionAverage) (sw : list (Z * StrengthsWeaknesses))
  (lr : list LearningRate) :
  identify_strengths_weaknesses argsort ssp avg = Ok sw ->
  known_sections ssp = true ->
  exists recs,
    generate_recommendations sw lr ssp avg false = Ok recs /\
    map fst recs = unique Z.eqb (map sa_student_id ssp) /\
    forall sid rec, In (sid, rec) recs ->
      exists texts,
        rec = WeaknessRecommendations texts /\
        (1 <= List.length texts)%nat /\
        List.length texts = Nat.min 2 (List.length (rows_of_student ssp sid)).
Proof.
  intros Hsw Hknown.
  destruct (weakness_mode_spec ssp avg sw lr Hsw Hknown) as (recs & Hrun & Hkeys & Hspec).
  exists recs. split; [exact Hrun |]. split; [exact Hkeys |].
  intros sid rec Hin.
  destruct (Hspec sid rec Hin) as (e & texts & He & Hrec & Htexts).
  exists texts. split; [exact Hrec |].
  destruct (identify_entry ssp avg sw sid e Hsw He) as (_ & cmp & Hcmp & Hentry).
  cbn [snd] in Hentry. subst e. cbn [weaknesses] in Htexts.
  apply Forall2_length in Htexts.
  rewrite length_map, tail_length, (Permutation_length (sort_values_perm c_diff cmp)) in Htexts.
  pose proof (comparison_sections avg _ cmp Hcmp) as Hsec.
  apply (f_equal (@List.length string)) in Hsec. rewrite !length_map in Hsec.
  assert (Hrow : (1 <= List.length (rows_of_student ssp sid))%nat).
  { assert (Hsid : In sid (map sa_student_id ssp)).
    { apply (unique_in _ Z.eqb_eq). rewrite <- Hkeys.
      apply (in_map fst) in Hin. exact Hin. }
    apply in_map_iff in Hsid as (r & Hid & Hr).
    assert (Hin' : In r (rows_of_student ssp sid)).
    { unfold rows_of_student. apply filter_In. split; [exact Hr | now apply Z.eqb_eq]. }
    destruct (rows_of_student ssp sid); [contradiction | simpl; lia]. }
  lia.
Qed.

Lemma weakness_text_count_witness :
  let ssp := [mkSection 1 "A" 9 10 (Num 90); mkSection 2 "A" 5 10 (Num 50);
              mkSection 2 "B" 9 10 (Num 90); mkSection 2 "C" 9 10 (Num 90)] in
  let avg := [mkAverage "A" (Num 70); mkAverage "B" (Num 90); mkAverage "C" (Num 90)] in
  Sorts stable_argsort /\
  exists sw,
    identify_strengths_weaknesses stable_argsort ssp avg = Ok sw /\
    known_sections ssp = true /\
    exists recs, generate_recommendations sw [] ssp avg false = Ok recs.
Proof.
  intros ssp avg. split; [exact stable_argsort_sorts |].
  eexists. split; [reflexivity |]. split; [reflexivity |].
  destruct (weakness_text_count (argsort := stable_argsort) ssp avg _ []
              eq_refl eq_refl) as (recs & Hrun & _).
  exists recs. exact Hrun.
Defined.

(** ** When the all-sections mode fails *)

Lemma avg_score_of_missing (avg : list SectionAverage) (section : string) :
  existsb (fun a => (av_section a =? section)%string) avg = false ->
  avg_score_of avg section = Raise IndexError.
Proof.
  intros H. unfold avg_score_of.
  replace (filter (fun a => (av_section a =? section)%string) avg)
    with (@nil SectionAverage); [reflexivity |].
  symmetry. induction avg as [| a t IH]; [reflexivity |].
  simpl in *. apply orb_false_iff in H as (Ha & Ht). rewrite Ha. now apply IH.
Qed.

Lemma recommend_section_ok_or_raise (student_data : list SectionAggregate)
  (avg : list SectionAverage) (section : string) :
  (exists b, recommend_section student_data avg section = Ok b) \/
  recommend_section student_data avg section = Raise IndexError.
Proof.
  unfold recommend_section, avg_score_of.
  destruct (filter (fun r => (sa_section r =? section)%string) student_data); [eauto |].
  destruct (filter (fun a => (av_section a =? section)%string) avg); simpl; eauto.
Qed.

Lemma known_section_test (section : string) :
  existsb (String.eqb section) ["A"; "B"; "C"; "D"] = true
  <-> In section ["A"; "B"; "C"; "D"].
Proof.
  rewrite existsb_exists. split.
  - intros (s & Hs & E). apply String.eqb_eq in E. now subst.
  - intros H. exists section. split; [exact H | apply String.eqb_refl].
Qed.

(** X18.  The all-sections mode fails exactly on a missing cohort row for a
    section it writes about: when some row of the aggregate table has a
    section among A, B, C, D without a row in the cohort table it raises
    IndexError, and otherwise it returns, whatever the classification and
    whatever other sections the tables hold. *)
Theorem all_sections_failure
  (sw : list (Z * StrengthsWeaknesses)) (lr : list LearningRate)
  (ssp : list SectionAggregate) (avg : list SectionAverage) :
  (covers_known avg ssp = true ->
   exists recs, generate_recommendations sw lr ssp avg true = Ok recs) /\
  (covers_known avg ssp = false ->
   generate_recommendations sw lr ssp avg true = Raise IndexError).
Proof.
  unfold covers_known, generate_recommendations. split; intros H.
  - rewrite forallb_forall in H.
    apply mapM_total. intros sid _.
    destruct (mapM_total (recommend_section (rows_of_student ssp sid) avg)
                ["A"; "B"; "C"; "D"]) as (m & ->); [| simpl; eauto].
    intros s Hs. unfold recommend_section.
    destruct (filter (fun r => (sa_section r =? s)%string) (rows_of_student ssp sid))
      as [| r t] eqn:E; [eauto |].
    assert (Hr : In r (filter (fun r => (sa_section r =? s)%string)
                              (rows_of_student ssp sid))) by (rewrite E; now left).
    apply filter_In in Hr as (Hr & Heq). apply String.eqb_eq in Heq.
    apply rows_of_student_in in Hr as (Hr & _).
    specialize (H r Hr). rewrite Heq in H.
    rewrite (proj2 (known_section_test s) Hs) in H. cbn [negb orb] in H.
    destruct (avg_score_of_total avg s H) as (x & ->). simpl. eauto.
  - apply forallb_false in H as (r & Hr & Hmiss).
    apply orb_false_iff in Hmiss as (Hknown & Hmiss).
    apply negb_false_iff, known_section_test in Hknown.
    apply mapM_raise.
    + intros sid _.
      destruct (mapM_ok_or_raise (recommend_section (rows_of_student ssp sid) avg)
                  ["A"; "B"; "C"; "D"] IndexError) as [(m & ->) | ->]; simpl; eauto.
      intros s _. apply recommend_section_ok_or_raise.
    + exists (sa_student_id r). split.
      * apply (unique_in _ Z.eqb_eq). now apply in_map.
      * rewrite (mapM_raise (recommend_section (rows_of_student ssp (sa_student_id r)) avg)
                   _ IndexError); [reflexivity | |].
        -- intros s _. apply recommend_section_ok_or_raise.
        -- exists (sa_section r). split; [exact Hknown |].
           unfold recommend_section.
           destruct (filter (fun r' => (sa_section r' =? sa_section r)%string)
                            (rows_of_student ssp (sa_student_id r))) as [| r' t] eqn:E.
           ++ exfalso.
              assert (Hin : In r (filter (fun r' => (sa_section r' =? sa_section r)%string)
                                         (rows_of_student ssp (sa_student_id r)))).
              { apply filter_In. split; [| apply String.eqb_refl].
                unfold rows_of_student. apply filter_In.
                split; [exact Hr | apply Z.eqb_refl]. }
              rewrite E in Hin. exact Hin.
           ++ now rewrite (avg_score_of_missing avg (sa_section r) Hmiss).
Qed.

Lemma all_sections_failure_witness :
  let ssp := [mkSection 1 "A" 9 10 (Num 90); mkSection 1 "E" 3 10 (Num 30);
              mkSection 2 "B" 5 10 (Num 50)] in
  (covers_known [mkAverage "A" (Num 90); mkAverage "B" (Num 50)] ssp = true /\
   exists recs,
     generate_recommendations [] [] ssp [mkAverage "A" (Num 90); mkAverage "B" (Num 50)] true
     = Ok recs) /\
  (covers_known [mkAverage "A" (Num 90)] ssp = false /\
   generate_recommendations [] [] ssp [mkAverage "A" (Num 90)] true = Raise IndexError).
Proof.
  intros ssp. split; (split; [reflexivity |]).
  - apply (proj1 (all_sections_failure [] [] ssp _)). reflexivity.
  - apply (proj2 (all_sections_failure [] [] ssp _)). reflexivity.
Defined.
